(** * ShellShade terminal installers: a shallow embedding of
      [src/main/services/installer.ts]

    The installers export a colour theme, read from the local database, into
    the configuration formats of iTerm2, Terminal.app, Windows Terminal,
    Alacritty and Kitty.  This file embeds the code as Rocq functions:

    - a JavaScript string is the list of its UTF-16 code units ([jsstring]);
    - [String.prototype.replace] with a global regular expression is one
      generic left-to-right scan ([replaceAll]) instantiated with one matcher
      per regular expression of the source;
    - the database, the file system, the process environment and the
      [osascript] subprocess are fields of a [World] threaded through a small
      state-and-exception monad ([IO]);
    - library functions of the host that are not code of the repository
      ([path.join], [JSON.parse], [JSON.stringify], [toLowerCase]) are the
      operations of the [Runtime] class. *)

From Stdlib Require Import ZArith NArith List String Ascii Bool Lia.
From Stdlib Require Import Floats Uint63 DecimalString.
From stdpp Require Import gmap.

Set Default Proof Using "Type".

(** ** JavaScript strings *)

Module JS.

(** A string value is a sequence of 16-bit code units. *)
Abbreviation jsstring := (list N).

Definition chr (a : ascii) : N := N_of_ascii a.
Arguments chr a%_char.

(** A literal of the source.  Rocq strings hold bytes; the literals of the
    installer are ASCII, so each byte is one code unit. *)
Definition lit (s : string) : jsstring := map N_of_ascii (list_ascii_of_string s).
Arguments lit s%_string.

Definition DQUOTE : N := 34.
Definition NEWLINE : N := 10.
Definition nl : jsstring := [NEWLINE].

(** ["${s}"]: a value between double quotes. *)
Definition quoted (s : jsstring) : jsstring := DQUOTE :: s ++ [DQUOTE].

(** Test documents are written with an apostrophe where the document has a
    double quote. *)
Definition doc (s : string) : jsstring :=
  map (fun c => if (c =? chr "'")%N then DQUOTE else c) (lit s).
Arguments doc s%_string.

Definition isChar (a : ascii) (c : N) : bool := (c =? chr a)%N.
Arguments isChar a%_char c.

(** [WhiteSpace] and [LineTerminator] of ECMAScript: the class [\s] of a
    regular expression, and what [trim] and [parseInt] strip. *)
Definition isWhiteSpace (c : N) : bool :=
  ((9 <=? c) && (c <=? 13) || (c =? 32) || (c =? 160) || (c =? 5760)
   || (8192 <=? c) && (c <=? 8202) || (c =? 8232) || (c =? 8233)
   || (c =? 8239) || (c =? 8287) || (c =? 12288) || (c =? 65279))%N.

(** [LineTerminator]: what [.] of a regular expression does not match. *)
Definition isLineTerminator (c : N) : bool :=
  ((c =? 10) || (c =? 13) || (c =? 8232) || (c =? 8233))%N.

Fixpoint takeWhile (p : N -> bool) (s : jsstring) : jsstring :=
  match s with
  | c :: s' => if p c then c :: takeWhile p s' else []
  | [] => []
  end.

Fixpoint dropWhile (p : N -> bool) (s : jsstring) : jsstring :=
  match s with
  | c :: s' => if p c then dropWhile p s' else s
  | [] => []
  end.

(** [s.startsWith(p)] *)
Fixpoint startsWith (p s : jsstring) : bool :=
  match p, s with
  | [], _ => true
  | a :: p', b :: s' => (a =? b)%N && startsWith p' s'
  | _ :: _, [] => false
  end.

(** [s.includes(p)] *)
Fixpoint includes (p s : jsstring) : bool :=
  startsWith p s ||
  match s with
  | [] => false
  | _ :: s' => includes p s'
  end.

Definition streqb (s t : jsstring) : bool :=
  (length s =? length t)%nat && startsWith s t.

(** [s.slice(a, b)] for [0 <= a <= b]. *)
Definition slice (a b : nat) (s : jsstring) : jsstring := take (b - a) (drop a s).

(** [s.trim()] *)
Definition trimStart (s : jsstring) : jsstring := dropWhile isWhiteSpace s.
Definition trimEnd (s : jsstring) : jsstring := rev (dropWhile isWhiteSpace (rev s)).
Definition trim (s : jsstring) : jsstring := trimEnd (trimStart s).

(** The truth value of a string: the empty string is falsy. *)
Definition truthy (s : jsstring) : bool := negb (length s =? 0)%nat.

(** [a || b] on strings, [a] possibly [undefined]. *)
Definition orElse (a : option jsstring) (b : jsstring) : jsstring :=
  match a with
  | Some v => if truthy v then v else b
  | None => b
  end.

(** *** [String.prototype.replace] with a global regular expression

    A matcher tells, for the text that starts at the current position,
    whether the expression matches there, how many code units the match
    takes (at least one for every expression of the installer) and what
    replaces it.  The scan is the one of the language: try the current
    position; on a match emit the replacement and resume after the match,
    otherwise copy one code unit and move on. *)
Definition matcher := jsstring -> option (nat * jsstring).

Fixpoint replaceFrom (m : matcher) (skip : nat) (s : jsstring) : jsstring :=
  match s with
  | [] => []
  | c :: s' =>
      match skip with
      | S k => replaceFrom m k s'
      | O =>
          match m s with
          | Some (n, r) => r ++ replaceFrom m (pred n) s'
          | None => c :: replaceFrom m 0 s'
          end
      end
  end.

Definition replaceAll (m : matcher) (s : jsstring) : jsstring := replaceFrom m 0 s.

(** *** [parseInt(s, 16)]

    [None] is [NaN].  The sign of a zero is not kept: [-0] prints as [0]
    both in a template literal and through [JSON.stringify]. *)
Definition hexDigit (c : N) : option Z :=
  if ((48 <=? c) && (c <=? 57))%N then Some (Z.of_N c - 48)%Z
  else if ((97 <=? c) && (c <=? 102))%N then Some (Z.of_N c - 87)%Z
  else if ((65 <=? c) && (c <=? 70))%N then Some (Z.of_N c - 55)%Z
  else None.

Definition isHexDigit (c : N) : bool :=
  match hexDigit c with Some _ => true | None => false end.

Fixpoint hexValue (acc : Z) (s : jsstring) : Z :=
  match s with
  | c :: s' =>
      match hexDigit c with
      | Some d => hexValue (16 * acc + d) s'
      | None => acc
      end
  | [] => acc
  end.

Definition parseInt16 (s : jsstring) : option Z :=
  let s := trimStart s in
  let (neg, s) :=
    match s with
    | c :: s' => if isChar "-" c then (true, s') else if isChar "+" c then (false, s') else (false, s)
    | [] => (false, s)
    end in
  let s :=
    match s with
    | z :: x :: s' => if isChar "0" z && (isChar "x" x || isChar "X" x) then s' else s
    | _ => s
    end in
  match takeWhile isHexDigit s with
  | [] => None
  | digits => Some (if neg then - hexValue 0 digits else hexValue 0 digits)%Z
  end.

(** [`${n}`] for an integral number or [NaN]. *)
Definition numberToString (n : option Z) : jsstring :=
  match n with
  | Some z => lit (NilZero.string_of_int (Z.to_int z))
  | None => lit "NaN"
  end.

(** The double nearest to an integer of small magnitude (exact below 2^53). *)
Definition toNumber (n : option Z) : float :=
  match n with
  | Some z =>
      if (z <? 0)%Z then PrimFloat.opp (PrimFloat.of_uint63 (Uint63.of_Z (- z)))
      else PrimFloat.of_uint63 (Uint63.of_Z z)
  | None => PrimFloat.nan
  end.

End JS.
Export JS.

(** ** The JSONC reader of [installToWindowsTerminal] *)

Module Jsonc.

(** The inner loop of a single-line comment:
    [while (i < length && s[i] !== '\n') i++]. *)
Definition skipLine (r : jsstring) : jsstring :=
  dropWhile (fun c => negb (c =? NEWLINE)%N) r.

(** The inner loop of a block comment, entered after [i += 2]:
    [while (i < length - 1) { if (s[i] === '*' && s[i+1] === '/') { i += 2; break; } i++; }].
    The guard holds while two code units are left. *)
Fixpoint skipBlock (r : jsstring) : jsstring :=
  match r with
  | c1 :: r' =>
      match r' with
      | c2 :: r'' => if isChar "*" c1 && isChar "/" c2 then r'' else skipBlock r'
      | [] => r
      end
  | [] => r
  end.

Definition nextIs (a : ascii) (rest : jsstring) : bool :=
  match rest with
  | c :: _ => isChar a c
  | [] => false
  end.
Arguments nextIs a%_char rest.

(** The main loop, on the text from index [i] on.  Every iteration consumes
    at least one code unit, so [fuel] above the length of the text is never
    exhausted. *)
Fixpoint scan (fuel : nat) (r : jsstring) (inString escaped : bool) : jsstring :=
  match fuel with
  | O => []
  | S fuel' =>
      match r with
      | [] => []
      | char :: rest =>
          if escaped then
            char :: scan fuel' rest inString false
          else if isChar "\" char && inString then
            char :: scan fuel' rest inString true
          else if (char =? DQUOTE)%N then
            char :: scan fuel' rest (negb inString) escaped
          else if negb inString && isChar "/" char && nextIs "/" rest then
            scan fuel' (skipLine r) inString escaped
          else if negb inString && isChar "/" char && nextIs "*" rest then
            scan fuel' (skipBlock (drop 2 r)) inString escaped
          else
            char :: scan fuel' rest inString escaped
      end
  end.

Definition stripComments (settingsContent : jsstring) : jsstring :=
  scan (S (length settingsContent)) settingsContent false false.

(** [/,(\s*[}\]])/g] replaced by ['$1']: a comma, the longest run of white
    space, a closing bracket; the comma goes. *)
Definition trailingComma : matcher := fun s =>
  match s with
  | c :: rest =>
      if isChar "," c then
        let ws := takeWhile isWhiteSpace rest in
        match dropWhile isWhiteSpace rest with
        | b :: _ =>
            if isChar "}" b || isChar "]" b
            then Some (S (S (length ws)), ws ++ [b])
            else None
        | [] => None
        end
      else None
  | [] => None
  end.

(** Lines 366 to 425: comment removal, then the trailing-comma clean-up. *)
Definition stripJsonc (settingsContent : jsstring) : jsstring :=
  replaceAll trailingComma (stripComments settingsContent).

End Jsonc.

(** ** Data model *)

(** [ThemeColors] of [shared/types/theme]. *)
Record AnsiColors := {
  black : jsstring; red : jsstring; green : jsstring; yellow : jsstring;
  blue : jsstring; magenta : jsstring; cyan : jsstring; white : jsstring;
  brightBlack : jsstring; brightRed : jsstring; brightGreen : jsstring;
  brightYellow : jsstring; brightBlue : jsstring; brightMagenta : jsstring;
  brightCyan : jsstring; brightWhite : jsstring
}.

Record ThemeColors := {
  background : jsstring; foreground : jsstring; cursor : jsstring;
  cursorText : jsstring; selection : jsstring; selectionText : jsstring;
  ansi : AnsiColors
}.

(** [InstallResult] of [shared/types/ipc]; an absent optional field is
    [None]. *)
Record InstallResult := {
  success : bool;
  path : jsstring;
  instructions : option jsstring;
  error : option jsstring
}.

(** A value of the language, as far as [JSON.parse] builds it and the
    installer changes it.  Numbers are doubles.  An object keeps its members
    in insertion order.  An array is an object too: besides its items it may
    carry named members, which [JSON.parse] never creates and
    [JSON.stringify] does not write.  A member that is absent reads as
    [VUndefined]. *)
#[warnings="-register-all"]
Inductive value :=
| VUndefined
| VNull
| VBool (b : bool)
| VNum (x : float)
| VStr (s : jsstring)
| VArr (items : list value) (named : list (jsstring * value))
| VObj (members : list (jsstring * value)).

(** The dictionary that [hexToItermColorDict] returns. *)
Record ItermColor := {
  Red_Component : float;
  Green_Component : float;
  Blue_Component : float;
  Alpha_Component : float;
  Color_Space : jsstring
}.

(** ** The host *)

(** Functions of Node and of the language that the installers call and the
    repository does not define. *)
Class Runtime := {
  (** [path.join(...segments)] *)
  path_join : list jsstring -> jsstring;
  (** [path.dirname(p)] *)
  path_dirname : jsstring -> jsstring;
  (** [String.prototype.toLowerCase] *)
  toLowerCase : jsstring -> jsstring;
  (** [JSON.parse(text)]; [inl] is the [SyntaxError] as [`${err}`] prints it *)
  JSON_parse : jsstring -> jsstring + value;
  (** [JSON.stringify(value, null, indent)] *)
  JSON_stringify : value -> nat -> jsstring
}.

Inductive Platform := darwin | win32 | linux | otherPlatform.

Inductive FsOp := OpMkdir | OpRead | OpWrite.

(** A row of table [theme_colors] and a row of table [themes]. *)
Record ColorRow := { theme_id : jsstring; color_key : jsstring; hex_value : jsstring }.
Record ThemeRow := { id : jsstring; name : jsstring }.

(** Everything outside the installer that it reads or changes.  A file
    system call fails when [fs_fault] says so (permissions, a full disk);
    a subprocess fails when [exec_fault] says so; [exec_log] keeps the shell
    commands run so far.  A call that fails may have done part of its work:
    [write_left] tells what a failing write leaves in the file ([None] when
    the file could not be opened and is as it was), [mkdir_left] which
    directories a failing recursive [mkdir] has made by then. *)
Record World := {
  theme_colors : list ColorRow;
  themes : list ThemeRow;
  platform : Platform;
  env_LOCALAPPDATA : option jsstring;
  env_APPDATA : option jsstring;
  env_XDG_CONFIG_HOME : option jsstring;
  os_homedir : jsstring;
  app_home : jsstring;
  files : gmap (list N) (list N);
  dirs : gset (list N);
  fs_fault : FsOp -> jsstring -> option jsstring;
  exec_fault : jsstring -> option jsstring;
  exec_log : list jsstring;
  write_left : jsstring -> option jsstring;
  mkdir_left : jsstring -> gset (list N)
}.

Definition setFiles (f : gmap (list N) (list N)) (w : World) : World :=
  {| theme_colors := theme_colors w; themes := themes w; platform := platform w;
     env_LOCALAPPDATA := env_LOCALAPPDATA w; env_APPDATA := env_APPDATA w;
     env_XDG_CONFIG_HOME := env_XDG_CONFIG_HOME w; os_homedir := os_homedir w;
     app_home := app_home w; files := f; dirs := dirs w;
     fs_fault := fs_fault w; exec_fault := exec_fault w; exec_log := exec_log w;
     write_left := write_left w; mkdir_left := mkdir_left w |}.

Definition setDirs (d : gset (list N)) (w : World) : World :=
  {| theme_colors := theme_colors w; themes := themes w; platform := platform w;
     env_LOCALAPPDATA := env_LOCALAPPDATA w; env_APPDATA := env_APPDATA w;
     env_XDG_CONFIG_HOME := env_XDG_CONFIG_HOME w; os_homedir := os_homedir w;
     app_home := app_home w; files := files w; dirs := d;
     fs_fault := fs_fault w; exec_fault := exec_fault w; exec_log := exec_log w;
     write_left := write_left w; mkdir_left := mkdir_left w |}.

Definition setExecLog (l : list jsstring) (w : World) : World :=
  {| theme_colors := theme_colors w; themes := themes w; platform := platform w;
     env_LOCALAPPDATA := env_LOCALAPPDATA w; env_APPDATA := env_APPDATA w;
     env_XDG_CONFIG_HOME := env_XDG_CONFIG_HOME w; os_homedir := os_homedir w;
     app_home := app_home w; files := files w; dirs := dirs w;
     fs_fault := fs_fault w; exec_fault := exec_fault w; exec_log := l;
     write_left := write_left w; mkdir_left := mkdir_left w |}.

Definition setThemeColors (rows : list ColorRow) (w : World) : World :=
  {| theme_colors := rows; themes := themes w; platform := platform w;
     env_LOCALAPPDATA := env_LOCALAPPDATA w; env_APPDATA := env_APPDATA w;
     env_XDG_CONFIG_HOME := env_XDG_CONFIG_HOME w; os_homedir := os_homedir w;
     app_home := app_home w; files := files w; dirs := dirs w;
     fs_fault := fs_fault w; exec_fault := exec_fault w; exec_log := exec_log w;
     write_left := write_left w; mkdir_left := mkdir_left w |}.

(** *** Effects

    A call returns a value or throws; an exception is kept as the text
    [`${err}`] renders.  An [async] function that throws is a rejected
    promise. *)
Inductive Outcome (A : Type) :=
| Ok (a : A)
| Throw (err : jsstring).
Arguments Ok {A} a.
Arguments Throw {A} err.

Definition IO (A : Type) : Type := World -> Outcome A * World.

#[export] Instance IO_ret : MRet IO := fun A a w => (Ok a, w).

#[export] Instance IO_bind : MBind IO := fun A B k m w =>
  match m w with
  | (Ok a, w') => k a w'
  | (Throw e, w') => (Throw e, w')
  end.

(** [return a] *)
Definition ret {A} (a : A) : IO A := mret a.

(** [try { m } catch (err) { h err }] *)
Definition tryCatch {A} (m : IO A) (h : jsstring -> IO A) : IO A := fun w =>
  match m w with
  | (Ok a, w') => (Ok a, w')
  | (Throw e, w') => h e w'
  end.

Definition gets {A} (f : World -> A) : IO A := fun w => (Ok (f w), w).

(** [fs.existsSync] *)
Definition existsSync (p : jsstring) : IO bool := fun w =>
  (Ok (bool_decide (is_Some (files w !! p)) || bool_decide (p ∈ dirs w)), w).

(** [fs.mkdirSync(p, { recursive: true })].  A call that fails leaves the
    directories above [p] that it has made by then.  After a call that
    succeeds [p] is a directory.  The missing directories above [p], which
    that call makes as well, are not recorded: [dirs] answers
    [fs.existsSync] for the paths that the installers test, which are [p]
    itself and files, and the properties below tell nothing about the paths
    above [p]. *)
Definition mkdirSync (p : jsstring) : IO unit := fun w =>
  match fs_fault w OpMkdir p with
  | Some e => (Throw e, setDirs (mkdir_left w p ∪ dirs w) w)
  | None => (Ok tt, setDirs ({[ p ]} ∪ dirs w) w)
  end.

(** [if (!fs.existsSync(p)) { fs.mkdirSync(p, { recursive: true }); }] *)
Definition ensureDir (p : jsstring) : IO unit :=
  present ← existsSync p;
  if present : bool then ret tt else mkdirSync p.

(** [fs.readFileSync(p, 'utf-8')] *)
Definition readFileSync (p : jsstring) : IO jsstring := fun w =>
  match fs_fault w OpRead p with
  | Some e => (Throw e, w)
  | None =>
      match files w !! p with
      | Some content => (Ok content, w)
      | None => (Throw (lit "Error: ENOENT: no such file or directory"), w)
      end
  end.

(** [fs.writeFileSync(p, content)]: the file is opened for writing, which
    empties it, and the text is written.  A call that fails at the opening
    leaves the file as it was; a call that fails later leaves a file that
    holds what was written by then, which may be nothing.  What that is
    depends on the platform, and the model leaves it open. *)
Definition writeFileSync (p content : jsstring) : IO unit := fun w =>
  match fs_fault w OpWrite p with
  | Some e =>
      (Throw e,
       match write_left w p with
       | Some leftover => setFiles (<[ p := leftover ]> (files w)) w
       | None => w
       end)
  | None => (Ok tt, setFiles (<[ p := content ]> (files w)) w)
  end.

(** [await execAsync(command)] *)
Definition execAsync (command : jsstring) : IO unit := fun w =>
  let w' := setExecLog (exec_log w ++ [command]) w in
  match exec_fault w command with
  | Some e => (Throw e, w')
  | None => (Ok tt, w')
  end.

#[export] Instance Outcome_ret : MRet Outcome := fun A a => Ok a.

#[export] Instance Outcome_bind : MBind Outcome := fun A B k m =>
  match m with
  | Ok a => k a
  | Throw e => Throw e
  end.

(** A pure computation that may throw, run inside an installer. *)
Definition liftOutcome {A} (m : Outcome A) : IO A := fun w => (m, w).

(** ** Theme lookup *)

(** [db.prepare('SELECT color_key, hex_value FROM theme_colors WHERE theme_id = ?').all(themeId)] *)
Definition colorRows (themeId : jsstring) (w : World) : list ColorRow :=
  filter (fun c => theme_id c = themeId) (theme_colors w).

(** [new Map(colors.map(c => [c.color_key, c.hex_value]))]: entries are
    inserted in order, a later one replaces an earlier one of the same key. *)
Definition colorMapOf (colors : list ColorRow) : gmap (list N) (list N) :=
  foldl (fun m c => <[ color_key c := hex_value c ]> m) ∅ colors.

(** [colorMap.get(key) || fallback] *)
Definition getOr (colorMap : gmap (list N) (list N)) (key fallback : string) : jsstring :=
  orElse (colorMap !! lit key) (lit fallback).
Arguments getOr colorMap (key fallback)%_string.

Definition getThemeColors (themeId : jsstring) (w : World) : option ThemeColors :=
  let colors := colorRows themeId w in
  if (length colors =? 0)%nat then None else
  let colorMap := colorMapOf colors in
  Some {|
    background := getOr colorMap "background" "#000000";
    foreground := getOr colorMap "foreground" "#ffffff";
    cursor := getOr colorMap "cursor" "#ffffff";
    cursorText := getOr colorMap "cursorText" "#000000";
    selection := getOr colorMap "selection" "#444444";
    selectionText := getOr colorMap "selectionText" "#ffffff";
    ansi := {|
      black := getOr colorMap "ansi_black" "#000000";
      red := getOr colorMap "ansi_red" "#ff0000";
      green := getOr colorMap "ansi_green" "#00ff00";
      yellow := getOr colorMap "ansi_yellow" "#ffff00";
      blue := getOr colorMap "ansi_blue" "#0000ff";
      magenta := getOr colorMap "ansi_magenta" "#ff00ff";
      cyan := getOr colorMap "ansi_cyan" "#00ffff";
      white := getOr colorMap "ansi_white" "#ffffff";
      brightBlack := getOr colorMap "ansi_brightBlack" "#666666";
      brightRed := getOr colorMap "ansi_brightRed" "#ff6666";
      brightGreen := getOr colorMap "ansi_brightGreen" "#66ff66";
      brightYellow := getOr colorMap "ansi_brightYellow" "#ffff66";
      brightBlue := getOr colorMap "ansi_brightBlue" "#6666ff";
      brightMagenta := getOr colorMap "ansi_brightMagenta" "#ff66ff";
      brightCyan := getOr colorMap "ansi_brightCyan" "#66ffff";
      brightWhite := getOr colorMap "ansi_brightWhite" "#ffffff"
    |}
  |}.

(** [db.prepare('SELECT name FROM themes WHERE id = ?').get(themeId)], then
    [theme?.name || 'Untitled']. *)
Definition getThemeName (themeId : jsstring) (w : World) : jsstring :=
  let theme := find (fun t => bool_decide (id t = themeId)) (themes w) in
  orElse (name <$> theme) (lit "Untitled").

(** The colour keys with the field each one fills and its default. *)
Definition colorFields : list (jsstring * (ThemeColors -> jsstring) * jsstring) :=
  [ (lit "background", background, lit "#000000");
    (lit "foreground", foreground, lit "#ffffff");
    (lit "cursor", cursor, lit "#ffffff");
    (lit "cursorText", cursorText, lit "#000000");
    (lit "selection", selection, lit "#444444");
    (lit "selectionText", selectionText, lit "#ffffff");
    (lit "ansi_black", fun c => black (ansi c), lit "#000000");
    (lit "ansi_red", fun c => red (ansi c), lit "#ff0000");
    (lit "ansi_green", fun c => green (ansi c), lit "#00ff00");
    (lit "ansi_yellow", fun c => yellow (ansi c), lit "#ffff00");
    (lit "ansi_blue", fun c => blue (ansi c), lit "#0000ff");
    (lit "ansi_magenta", fun c => magenta (ansi c), lit "#ff00ff");
    (lit "ansi_cyan", fun c => cyan (ansi c), lit "#00ffff");
    (lit "ansi_white", fun c => white (ansi c), lit "#ffffff");
    (lit "ansi_brightBlack", fun c => brightBlack (ansi c), lit "#666666");
    (lit "ansi_brightRed", fun c => brightRed (ansi c), lit "#ff6666");
    (lit "ansi_brightGreen", fun c => brightGreen (ansi c), lit "#66ff66");
    (lit "ansi_brightYellow", fun c => brightYellow (ansi c), lit "#ffff66");
    (lit "ansi_brightBlue", fun c => brightBlue (ansi c), lit "#6666ff");
    (lit "ansi_brightMagenta", fun c => brightMagenta (ansi c), lit "#ff66ff");
    (lit "ansi_brightCyan", fun c => brightCyan (ansi c), lit "#66ffff");
    (lit "ansi_brightWhite", fun c => brightWhite (ansi c), lit "#ffffff") ].

(** ** Colour codec *)

Definition channel (a b : nat) (hex : jsstring) : option Z := parseInt16 (slice a b hex).

Definition hexToItermColorDict (hex : jsstring) : ItermColor :=
  let r := PrimFloat.div (toNumber (channel 1 3 hex)) 255 in
  let g := PrimFloat.div (toNumber (channel 3 5 hex)) 255 in
  let b := PrimFloat.div (toNumber (channel 5 7 hex)) 255 in
  {| Red_Component := r;
     Green_Component := g;
     Blue_Component := b;
     Alpha_Component := 1;
     Color_Space := lit "sRGB" |}.

(** [n * 257] on an integral number or [NaN]. *)
Definition times257 (n : option Z) : option Z := (fun z => z * 257)%Z <$> n.

(** The helper [hexToRGB] of [installToTerminalApp] and of
    [setTerminalDefault] (the two copies are the same text). *)
Definition hexToRGB (hex : jsstring) : jsstring :=
  let r := times257 (channel 1 3 hex) in
  let g := times257 (channel 3 5 hex) in
  let b := times257 (channel 5 7 hex) in
  lit "{" ++ numberToString r ++ lit ", " ++ numberToString g ++ lit ", "
    ++ numberToString b ++ lit "}".

(** A well-formed colour: [#] and six hexadecimal digits. *)
Definition wellFormedHex (hex : jsstring) : bool :=
  match hex with
  | h :: digits => isChar "#" h && (length digits =? 6)%nat && forallb isHexDigit digits
  | [] => false
  end.

(** The byte that two hexadecimal digits spell. *)
Definition byteAt (i : nat) (hex : jsstring) : Z := hexValue 0 (slice i (i + 2) hex).

(** ** Shell and script quoting *)

(** Every apostrophe becomes five characters: an apostrophe that closes the
    shell quote, an apostrophe between double quotes, an apostrophe that
    opens the quote again. *)
Definition apostrophe : matcher := fun s =>
  match s with
  | c :: _ => if isChar "'" c then Some (1%nat, [chr "'"; DQUOTE; chr "'"; DQUOTE; chr "'"]) else None
  | [] => None
  end.

(** The command line: [osascript -e], then the script between apostrophes,
    its own apostrophes replaced as above. *)
Definition osascript (script : jsstring) : jsstring :=
  lit "osascript -e '" ++ replaceAll apostrophe script ++ lit "'".

(** Every double quote of the theme name gets a backslash in front. *)
Definition doubleQuote : matcher := fun s =>
  match s with
  | c :: _ => if (c =? DQUOTE)%N then Some (1%nat, [chr "\"; DQUOTE]) else None
  | [] => None
  end.

Definition escapeName (themeName : jsstring) : jsstring := replaceAll doubleQuote themeName.

(** A line of a template literal, with its line break. *)
Definition ln (s : jsstring) : jsstring := s ++ nl.

Definition notFound : InstallResult :=
  {| success := false; path := []; instructions := None; error := Some (lit "Theme not found") |}.

Definition succeeded (p message : jsstring) : InstallResult :=
  {| success := true; path := p; instructions := Some message; error := None |}.

Definition failed (p message : jsstring) : InstallResult :=
  {| success := false; path := p; instructions := None; error := Some message |}.

(** ** The macOS installers *)

Section MacInstallers.
Context `{Runtime}.

Definition colorDictValue (d : ItermColor) : value :=
  VObj [ (lit "Red Component", VNum (Red_Component d));
         (lit "Green Component", VNum (Green_Component d));
         (lit "Blue Component", VNum (Blue_Component d));
         (lit "Alpha Component", VNum (Alpha_Component d));
         (lit "Color Space", VStr (Color_Space d)) ].

Definition itermProfile (themeName themeId : jsstring) (colors : ThemeColors) : value :=
  let dict hex := colorDictValue (hexToItermColorDict hex) in
  VObj [ (lit "Profiles", VArr [ VObj [
    (lit "Name", VStr themeName);
    (lit "Guid", VStr themeId);
    (lit "Background Color", dict (background colors));
    (lit "Foreground Color", dict (foreground colors));
    (lit "Cursor Color", dict (cursor colors));
    (lit "Cursor Text Color", dict (cursorText colors));
    (lit "Selection Color", dict (selection colors));
    (lit "Selected Text Color", dict (selectionText colors));
    (lit "Ansi 0 Color", dict (black (ansi colors)));
    (lit "Ansi 1 Color", dict (red (ansi colors)));
    (lit "Ansi 2 Color", dict (green (ansi colors)));
    (lit "Ansi 3 Color", dict (yellow (ansi colors)));
    (lit "Ansi 4 Color", dict (blue (ansi colors)));
    (lit "Ansi 5 Color", dict (magenta (ansi colors)));
    (lit "Ansi 6 Color", dict (cyan (ansi colors)));
    (lit "Ansi 7 Color", dict (white (ansi colors)));
    (lit "Ansi 8 Color", dict (brightBlack (ansi colors)));
    (lit "Ansi 9 Color", dict (brightRed (ansi colors)));
    (lit "Ansi 10 Color", dict (brightGreen (ansi colors)));
    (lit "Ansi 11 Color", dict (brightYellow (ansi colors)));
    (lit "Ansi 12 Color", dict (brightBlue (ansi colors)));
    (lit "Ansi 13 Color", dict (brightMagenta (ansi colors)));
    (lit "Ansi 14 Color", dict (brightCyan (ansi colors)));
    (lit "Ansi 15 Color", dict (brightWhite (ansi colors))) ] ] []) ].

(** [[a-z0-9]] *)
Definition lowerAlnum (c : N) : bool :=
  ((97 <=? c) && (c <=? 122) || (48 <=? c) && (c <=? 57))%N.

(** [/[^a-z0-9]+/g] replaced by ['-']: the longest run of code units that are
    neither a lower-case letter nor a digit. *)
Definition nonAlnumRun : matcher := fun s =>
  match s with
  | c :: _ =>
      if lowerAlnum c then None
      else Some (length (takeWhile (fun c => negb (lowerAlnum c)) s), lit "-")
  | [] => None
  end.

(** [themeName.toLowerCase().replace(/[^a-z0-9]+/g, '-')] *)
Definition slug (themeName : jsstring) : jsstring :=
  replaceAll nonAlnumRun (toLowerCase themeName).

Definition itermScript (themeName : jsstring) : jsstring :=
  nl
  ++ ln (lit "      tell application " ++ quoted (lit "iTerm"))
  ++ ln (lit "        repeat with w in windows")
  ++ ln (lit "          repeat with t in tabs of w")
  ++ ln (lit "            repeat with s in sessions of t")
  ++ ln (lit "              tell s to set profile to " ++ quoted themeName)
  ++ ln (lit "            end repeat")
  ++ ln (lit "          end repeat")
  ++ ln (lit "        end repeat")
  ++ ln (lit "      end tell")
  ++ lit "    ".

Definition installToIterm2 (themeId : jsstring) : IO InstallResult :=
  colors ← gets (getThemeColors themeId);
  themeName ← gets (getThemeName themeId);
  match colors with
  | None => ret notFound
  | Some colors =>
      home ← gets app_home;
      let dynamicProfilesDir :=
        path_join [home; lit "Library/Application Support/iTerm2/DynamicProfiles"] in
      ensureDir dynamicProfilesDir;;
      let profile := itermProfile themeName themeId colors in
      let slugName := slug themeName in
      let profilePath := path_join [dynamicProfilesDir; slugName ++ lit ".json"] in
      tryCatch
        (writeFileSync profilePath (JSON_stringify profile 2);;
         let appleScript := itermScript themeName in
         tryCatch
           (execAsync (osascript appleScript);;
            ret (succeeded profilePath
                    (lit "Theme " ++ quoted themeName ++ lit " applied to iTerm2!")))
           (fun scriptErr =>
              ret (succeeded profilePath
                      (lit "Theme " ++ quoted themeName
                       ++ lit " installed. Open iTerm2 and select it from Profiles menu, or restart iTerm2."))))
        (fun err => ret (failed profilePath (lit "Failed to write profile: " ++ err)))
  end.

(** [createProfileScript] of [installToTerminalApp]. *)
Definition createProfileScript (escapedName : jsstring) (colors : ThemeColors) : jsstring :=
  nl
  ++ ln (lit "    tell application " ++ quoted (lit "Terminal"))
  ++ ln (lit "      if not (exists settings set " ++ quoted escapedName ++ lit ") then")
  ++ ln (lit "        make new settings set with properties {name:" ++ quoted escapedName ++ lit "}")
  ++ ln (lit "      end if")
  ++ nl
  ++ ln (lit "      set targetSettings to settings set " ++ quoted escapedName)
  ++ ln (lit "      set background color of targetSettings to " ++ hexToRGB (background colors))
  ++ ln (lit "      set normal text color of targetSettings to " ++ hexToRGB (foreground colors))
  ++ ln (lit "      set cursor color of targetSettings to " ++ hexToRGB (cursor colors))
  ++ nl
  ++ ln (lit "      -- Set as default and startup profile")
  ++ ln (lit "      set default settings to targetSettings")
  ++ ln (lit "      set startup settings to targetSettings")
  ++ ln (lit "    end tell")
  ++ lit "  ".

(** [applyScript] of [installToTerminalApp]. *)
Definition applyScript (escapedName : jsstring) : jsstring :=
  nl
  ++ ln (lit "        tell application " ++ quoted (lit "Terminal"))
  ++ ln (lit "          set targetSettings to settings set " ++ quoted escapedName)
  ++ ln (lit "          if (count of windows) > 0 then")
  ++ ln (lit "            repeat with w in windows")
  ++ ln (lit "              try")
  ++ ln (lit "                set current settings of selected tab of w to targetSettings")
  ++ ln (lit "              end try")
  ++ ln (lit "            end repeat")
  ++ ln (lit "          end if")
  ++ ln (lit "        end tell")
  ++ lit "      ".

(** The arrow of the instructions text, U+2192. *)
Definition ARROW : N := 8594.

Definition installToTerminalApp (themeId : jsstring) : IO InstallResult :=
  colors ← gets (getThemeColors themeId);
  themeName ← gets (getThemeName themeId);
  match colors with
  | None => ret notFound
  | Some colors =>
      let escapedName := escapeName themeName in
      tryCatch
        (execAsync (osascript (createProfileScript escapedName colors));;
         appliedToWindows ←
           tryCatch
             (execAsync (osascript (applyScript escapedName));; ret true)
             (fun _ => ret false);
         if appliedToWindows : bool then
           ret (succeeded []
                   (lit "Theme " ++ quoted themeName
                    ++ lit " applied! All open Terminal windows updated."))
         else
           ret (succeeded []
                   (lit "Theme " ++ quoted themeName
                    ++ lit " saved to Terminal profiles. Select it in Terminal "
                    ++ [ARROW] ++ lit " Settings " ++ [ARROW]
                    ++ lit " Profiles, or open a new window.")))
        (fun err =>
           ret (failed []
                   (lit "Failed to create Terminal profile. Make sure Terminal.app is running.")))
  end.

(** [appleScript] of [setTerminalDefault]. *)
Definition defaultScript (escapedName : jsstring) (colors : ThemeColors) : jsstring :=
  nl
  ++ ln (lit "    tell application " ++ quoted (lit "Terminal"))
  ++ ln (lit "      -- Create or update the profile (settings set)")
  ++ ln (lit "      if not (exists settings set " ++ quoted escapedName ++ lit ") then")
  ++ ln (lit "        set newSettings to make new settings set with properties {name:"
         ++ quoted escapedName ++ lit "}")
  ++ ln (lit "      end if")
  ++ nl
  ++ ln (lit "      tell settings set " ++ quoted escapedName)
  ++ ln (lit "        set background color to " ++ hexToRGB (background colors))
  ++ ln (lit "        set normal text color to " ++ hexToRGB (foreground colors))
  ++ ln (lit "        set cursor color to " ++ hexToRGB (cursor colors))
  ++ ln (lit "      end tell")
  ++ nl
  ++ ln (lit "      -- Set as default profile")
  ++ ln (lit "      set default settings to settings set " ++ quoted escapedName)
  ++ nl
  ++ ln (lit "      -- Also set startup settings (for new windows)")
  ++ ln (lit "      set startup settings to settings set " ++ quoted escapedName)
  ++ ln (lit "    end tell")
  ++ lit "  ".

Definition setTerminalDefault (themeId : jsstring) : IO InstallResult :=
  colors ← gets (getThemeColors themeId);
  themeName ← gets (getThemeName themeId);
  match colors with
  | None => ret notFound
  | Some colors =>
      let escapedName := escapeName themeName in
      tryCatch
        (execAsync (osascript (defaultScript escapedName colors));;
         ret (succeeded []
                 (lit "Theme " ++ quoted themeName
                  ++ lit " is now the default Terminal.app profile! New windows will use this theme.")))
        (fun err => ret (failed [] (lit "Failed to set default: " ++ err)))
  end.

End MacInstallers.

(** ** Objects of the settings document *)

(** The truth value of a value ([!v] is its negation). *)
Definition truthyValue (v : value) : bool :=
  match v with
  | VUndefined | VNull => false
  | VBool b => b
  | VNum x => negb (PrimFloat.eqb x 0 || PrimFloat.is_nan x)
  | VStr s => truthy s
  | VArr _ _ | VObj _ => true
  end.

Fixpoint lookupMember (key : jsstring) (ms : list (jsstring * value)) : value :=
  match ms with
  | (k, v) :: ms' => if bool_decide (k = key) then v else lookupMember key ms'
  | [] => VUndefined
  end.

(** An existing member keeps its place, a new one goes last. *)
Fixpoint storeMember (key : jsstring) (v : value) (ms : list (jsstring * value))
  : list (jsstring * value) :=
  match ms with
  | (k, v0) :: ms' =>
      if bool_decide (k = key) then (k, v) :: ms' else (k, v0) :: storeMember key v ms'
  | [] => [(key, v)]
  end.

(** A [TypeError]; of its message only the cause is kept. *)
Definition typeError {A} (cause : string) : Outcome A :=
  Throw (lit "TypeError: " ++ lit cause).

(** [o.key], for a key that is neither an index nor a member of a
    prototype (the keys of the installer are [schemes], [profiles],
    [defaults], [colorScheme] and [name]). *)
Definition getMember (key : jsstring) (o : value) : Outcome value :=
  match o with
  | VUndefined | VNull => typeError "Cannot read properties of undefined or null"
  | VObj ms => Ok (lookupMember key ms)
  | VArr _ named => Ok (lookupMember key named)
  | VBool _ | VNum _ | VStr _ => Ok VUndefined
  end.

(** [o.key = v].  The file is a module, hence strict code: creating a
    member on a primitive value throws. *)
Definition setMember (key : jsstring) (v : value) (o : value) : Outcome value :=
  match o with
  | VUndefined | VNull => typeError "Cannot set properties of undefined or null"
  | VObj ms => Ok (VObj (storeMember key v ms))
  | VArr items named => Ok (VArr items (storeMember key v named))
  | VBool _ | VNum _ | VStr _ => typeError "Cannot create property on a primitive value"
  end.

(** A change made in place to the object that [o.key] refers to. *)
Definition updateMember (key : jsstring) (f : value -> Outcome value) (o : value)
  : Outcome value :=
  v ← getMember key o;
  v' ← f v;
  setMember key v' o.

Fixpoint filterItems (keep : value -> Outcome bool) (items : list value)
  : Outcome (list value) :=
  match items with
  | [] => Ok []
  | s :: items' =>
      k ← keep s;
      rest ← filterItems keep items';
      mret (if k : bool then s :: rest else rest)
  end.

(** [a.filter(keep)]: a new array; anything but an array has no [filter]. *)
Definition arrayFilter (keep : value -> Outcome bool) (a : value) : Outcome value :=
  match a with
  | VArr items _ => kept ← filterItems keep items; mret (VArr kept [])
  | _ => typeError "filter is not a function"
  end.

(** [a.push(x)] *)
Definition arrayPush (x : value) (a : value) : Outcome value :=
  match a with
  | VArr items named => Ok (VArr (items ++ [x]) named)
  | _ => typeError "push is not a function"
  end.

(** [v !== themeName] *)
Definition differsFrom (themeName : jsstring) (v : value) : bool :=
  match v with
  | VStr n => negb (bool_decide (n = themeName))
  | _ => true
  end.

(** ** Windows Terminal *)

Definition windowsScheme (themeName : jsstring) (colors : ThemeColors) : value :=
  VObj [ (lit "name", VStr themeName);
         (lit "background", VStr (background colors));
         (lit "foreground", VStr (foreground colors));
         (lit "cursorColor", VStr (cursor colors));
         (lit "selectionBackground", VStr (selection colors));
         (lit "black", VStr (black (ansi colors)));
         (lit "red", VStr (red (ansi colors)));
         (lit "green", VStr (green (ansi colors)));
         (lit "yellow", VStr (yellow (ansi colors)));
         (lit "blue", VStr (blue (ansi colors)));
         (lit "purple", VStr (magenta (ansi colors)));
         (lit "cyan", VStr (cyan (ansi colors)));
         (lit "white", VStr (white (ansi colors)));
         (lit "brightBlack", VStr (brightBlack (ansi colors)));
         (lit "brightRed", VStr (brightRed (ansi colors)));
         (lit "brightGreen", VStr (brightGreen (ansi colors)));
         (lit "brightYellow", VStr (brightYellow (ansi colors)));
         (lit "brightBlue", VStr (brightBlue (ansi colors)));
         (lit "brightPurple", VStr (brightMagenta (ansi colors)));
         (lit "brightCyan", VStr (brightCyan (ansi colors)));
         (lit "brightWhite", VStr (brightWhite (ansi colors))) ].

(** Lines 463 to 472: the scheme of the theme replaces the schemes of its
    name. *)
Definition replaceScheme (themeName : jsstring) (scheme : value) (settings : value)
  : Outcome value :=
  (* if (!settings.schemes) settings.schemes = [] *)
  schemes ← getMember (lit "schemes") settings;
  settings ← (if truthyValue schemes then Ok settings
              else setMember (lit "schemes") (VArr [] []) settings);
  (* settings.schemes = settings.schemes.filter(s => s.name !== themeName) *)
  schemes ← getMember (lit "schemes") settings;
  kept ← arrayFilter
           (fun s => n ← getMember (lit "name") s; mret (differsFrom themeName n))
           schemes;
  settings ← setMember (lit "schemes") kept settings;
  (* settings.schemes.push(scheme) *)
  updateMember (lit "schemes") (arrayPush scheme) settings.

(** Lines 474 to 481: the scheme becomes the one of the default profile. *)
Definition applyToDefaults (themeName : jsstring) (settings : value) : Outcome value :=
  (* if (!settings.profiles) settings.profiles = { defaults: {} } *)
  profiles ← getMember (lit "profiles") settings;
  settings ← (if truthyValue profiles then Ok settings
              else setMember (lit "profiles") (VObj [(lit "defaults", VObj [])]) settings);
  (* if (!settings.profiles.defaults) settings.profiles.defaults = {} *)
  profiles ← getMember (lit "profiles") settings;
  defaults ← getMember (lit "defaults") profiles;
  settings ← (if truthyValue defaults then Ok settings
              else updateMember (lit "profiles") (setMember (lit "defaults") (VObj [])) settings);
  (* settings.profiles.defaults.colorScheme = themeName *)
  updateMember (lit "profiles")
    (updateMember (lit "defaults") (setMember (lit "colorScheme") (VStr themeName)))
    settings.

(** Lines 463 to 481: what the installer does to the parsed document. *)
Definition updateSettings (themeName : jsstring) (scheme : value) (settings : value)
  : Outcome value :=
  settings ← replaceScheme themeName scheme settings;
  applyToDefaults themeName settings.

Section WindowsTerminal.
Context `{Runtime}.

Definition installToWindowsTerminal (themeId : jsstring) : IO InstallResult :=
  colors ← gets (getThemeColors themeId);
  themeName ← gets (getThemeName themeId);
  match colors with
  | None => ret notFound
  | Some colors =>
      env ← gets env_LOCALAPPDATA;
      homedir ← gets os_homedir;
      let localAppData := orElse env (path_join [homedir; lit "AppData"; lit "Local"]) in
      let settingsPath :=
        path_join [localAppData;
                   lit "Packages/Microsoft.WindowsTerminal_8wekyb3d8bbwe/LocalState/settings.json"] in
      let previewSettingsPath :=
        path_join [localAppData;
                   lit "Packages/Microsoft.WindowsTerminalPreview_8wekyb3d8bbwe/LocalState/settings.json"] in
      let unpackagedSettingsPath :=
        path_join [localAppData; lit "Microsoft/Windows Terminal/settings.json"] in
      stable ← existsSync settingsPath;
      actualSettingsPath ←
        (if stable : bool then ret settingsPath
         else
           preview ← existsSync previewSettingsPath;
           if preview : bool then ret previewSettingsPath
           else
             unpackaged ← existsSync unpackagedSettingsPath;
             if unpackaged : bool then ret unpackagedSettingsPath else ret []);
      if negb (truthy actualSettingsPath) then
        ret (failed [] (lit "Windows Terminal settings not found. Is Windows Terminal installed?"))
      else
        tryCatch
          (settingsContent ← readFileSync actualSettingsPath;
           let jsonWithoutComments := Jsonc.stripJsonc settingsContent in
           match JSON_parse jsonWithoutComments with
           | inl parseErr =>
               ret (failed actualSettingsPath
                      (lit "Failed to parse Windows Terminal settings: " ++ parseErr))
           | inr settings =>
               let scheme := windowsScheme themeName colors in
               settings ← liftOutcome (updateSettings themeName scheme settings);
               writeFileSync actualSettingsPath (JSON_stringify settings 4);;
               ret (succeeded actualSettingsPath
                      (lit "Theme " ++ quoted themeName
                       ++ lit " applied to Windows Terminal! All open windows updated."))
           end)
          (fun err =>
             ret (failed actualSettingsPath
                    (lit "Failed to update Windows Terminal settings: " ++ err)))
  end.

End WindowsTerminal.

(** ** Alacritty *)

Module Alacritty.

(** [/\[colors\.primary\][\s\S]*?(?=\[|$)/g] and its four siblings, replaced
    by the empty string: the header, then as little as possible up to the
    next opening bracket or the end of the text. *)
Definition colorSection (header : jsstring) : matcher := fun s =>
  if startsWith header s then
    let body := takeWhile (fun c => negb (isChar "[" c)) (drop (length header) s) in
    Some ((length header + length body)%nat, [])
  else None.

Definition themeLine : jsstring := lit "# ShellShade Theme:".
Definition generatedLine : jsstring := lit "# Generated by ShellShade".

(** [/# ShellShade Theme:.*\n# Generated by ShellShade\n*/g] replaced by the
    empty string.  [.*] takes the rest of the line (it stops at a line
    terminator), the line break and the second line must follow, [\n*] takes
    every line break after it. *)
Definition generatedHeader : matcher := fun s =>
  if startsWith themeLine s then
    let s1 := drop (length themeLine) s in
    let rest := takeWhile (fun c => negb (isLineTerminator c)) s1 in
    let s2 := drop (length rest) s1 in
    if startsWith (NEWLINE :: generatedLine) s2 then
      let s3 := drop (length (NEWLINE :: generatedLine)) s2 in
      let breaks := takeWhile (fun c => (c =? NEWLINE)%N) s3 in
      Some ((length themeLine + length rest + length (NEWLINE :: generatedLine)
             + length breaks)%nat, [])
    else None
  else None.

(** Lines 572 to 579: the existing configuration without its colour
    sections and without a generated header. *)
Definition removeColorSections (existingContent : jsstring) : jsstring :=
  let c := replaceAll (colorSection (lit "[colors.primary]")) existingContent in
  let c := replaceAll (colorSection (lit "[colors.cursor]")) c in
  let c := replaceAll (colorSection (lit "[colors.selection]")) c in
  let c := replaceAll (colorSection (lit "[colors.normal]")) c in
  let c := replaceAll (colorSection (lit "[colors.bright]")) c in
  let c := replaceAll generatedHeader c in
  trim c.

(** [key = "value"] and its line break. *)
Definition entry (key : string) (v : jsstring) : jsstring :=
  ln (lit key ++ lit " = " ++ quoted v).
Arguments entry key%_string v.

Definition tomlContent (themeName : jsstring) (colors : ThemeColors) : jsstring :=
  ln (lit "# ShellShade Theme: " ++ themeName)
  ++ ln (lit "# Generated by ShellShade")
  ++ nl
  ++ ln (lit "[colors.primary]")
  ++ entry "background" (background colors)
  ++ entry "foreground" (foreground colors)
  ++ nl
  ++ ln (lit "[colors.cursor]")
  ++ entry "text" (cursorText colors)
  ++ entry "cursor" (cursor colors)
  ++ nl
  ++ ln (lit "[colors.selection]")
  ++ entry "text" (selectionText colors)
  ++ entry "background" (selection colors)
  ++ nl
  ++ ln (lit "[colors.normal]")
  ++ entry "black" (black (ansi colors))
  ++ entry "red" (red (ansi colors))
  ++ entry "green" (green (ansi colors))
  ++ entry "yellow" (yellow (ansi colors))
  ++ entry "blue" (blue (ansi colors))
  ++ entry "magenta" (magenta (ansi colors))
  ++ entry "cyan" (cyan (ansi colors))
  ++ entry "white" (white (ansi colors))
  ++ nl
  ++ ln (lit "[colors.bright]")
  ++ entry "black" (brightBlack (ansi colors))
  ++ entry "red" (brightRed (ansi colors))
  ++ entry "green" (brightGreen (ansi colors))
  ++ entry "yellow" (brightYellow (ansi colors))
  ++ entry "blue" (brightBlue (ansi colors))
  ++ entry "magenta" (brightMagenta (ansi colors))
  ++ entry "cyan" (brightCyan (ansi colors))
  ++ entry "white" (brightWhite (ansi colors)).

(** Line 583: the old configuration, a blank line, the new block. *)
Definition finalContent (existingContent tomlContent : jsstring) : jsstring :=
  if truthy existingContent then existingContent ++ nl ++ nl ++ tomlContent
  else tomlContent.

(** What one install makes of the text of the configuration file. *)
Definition rewrite (themeName : jsstring) (colors : ThemeColors) (content : jsstring)
  : jsstring :=
  finalContent (removeColorSections content) (tomlContent themeName colors).

End Alacritty.

Section ConfigInstallers.
Context `{Runtime}.

Definition alacrittyConfigPath (w : World) : jsstring :=
  match platform w with
  | win32 =>
      path_join [orElse (env_APPDATA w) []; lit "alacritty"; lit "alacritty.toml"]
  | darwin =>
      path_join [os_homedir w; lit ".config"; lit "alacritty"; lit "alacritty.toml"]
  | _ =>
      let xdgConfig := orElse (env_XDG_CONFIG_HOME w) (path_join [os_homedir w; lit ".config"]) in
      path_join [xdgConfig; lit "alacritty"; lit "alacritty.toml"]
  end.

Definition installToAlacritty (themeId : jsstring) : IO InstallResult :=
  colors ← gets (getThemeColors themeId);
  themeName ← gets (getThemeName themeId);
  match colors with
  | None => ret notFound
  | Some colors =>
      configPath ← gets alacrittyConfigPath;
      let configDir := path_dirname configPath in
      ensureDir configDir;;
      let tomlContent := Alacritty.tomlContent themeName colors in
      tryCatch
        (present ← existsSync configPath;
         existingContent ←
           (if present : bool then
              existingContent ← readFileSync configPath;
              ret (Alacritty.removeColorSections existingContent)
            else ret []);
         let finalContent := Alacritty.finalContent existingContent tomlContent in
         writeFileSync configPath finalContent;;
         ret (succeeded configPath
                (lit "Theme " ++ quoted themeName
                 ++ lit " applied to Alacritty! Restart Alacritty to see changes.")))
        (fun err => ret (failed configPath (lit "Failed to update Alacritty config: " ++ err)))
  end.

(** ** Kitty *)

Definition kittyTheme (themeName : jsstring) (colors : ThemeColors) : jsstring :=
  ln (lit "# ShellShade Theme: " ++ themeName)
  ++ ln (lit "# Generated by ShellShade")
  ++ nl
  ++ ln (lit "foreground " ++ foreground colors)
  ++ ln (lit "background " ++ background colors)
  ++ ln (lit "cursor " ++ cursor colors)
  ++ ln (lit "cursor_text_color " ++ cursorText colors)
  ++ ln (lit "selection_foreground " ++ selectionText colors)
  ++ ln (lit "selection_background " ++ selection colors)
  ++ nl
  ++ ln (lit "# Normal colors")
  ++ ln (lit "color0 " ++ black (ansi colors))
  ++ ln (lit "color1 " ++ red (ansi colors))
  ++ ln (lit "color2 " ++ green (ansi colors))
  ++ ln (lit "color3 " ++ yellow (ansi colors))
  ++ ln (lit "color4 " ++ blue (ansi colors))
  ++ ln (lit "color5 " ++ magenta (ansi colors))
  ++ ln (lit "color6 " ++ cyan (ansi colors))
  ++ ln (lit "color7 " ++ white (ansi colors))
  ++ nl
  ++ ln (lit "# Bright colors")
  ++ ln (lit "color8 " ++ brightBlack (ansi colors))
  ++ ln (lit "color9 " ++ brightRed (ansi colors))
  ++ ln (lit "color10 " ++ brightGreen (ansi colors))
  ++ ln (lit "color11 " ++ brightYellow (ansi colors))
  ++ ln (lit "color12 " ++ brightBlue (ansi colors))
  ++ ln (lit "color13 " ++ brightMagenta (ansi colors))
  ++ ln (lit "color14 " ++ brightCyan (ansi colors))
  ++ ln (lit "color15 " ++ brightWhite (ansi colors)).

Definition kittyConfigDir (w : World) : jsstring :=
  match platform w with
  | darwin => path_join [os_homedir w; lit ".config"; lit "kitty"]
  | _ =>
      let xdgConfig := orElse (env_XDG_CONFIG_HOME w) (path_join [os_homedir w; lit ".config"]) in
      path_join [xdgConfig; lit "kitty"]
  end.

Definition installToKitty (themeId : jsstring) : IO InstallResult :=
  colors ← gets (getThemeColors themeId);
  themeName ← gets (getThemeName themeId);
  match colors with
  | None => ret notFound
  | Some colors =>
      configDir ← gets kittyConfigDir;
      let themePath := path_join [configDir; lit "current-theme.conf"] in
      let configPath := path_join [configDir; lit "kitty.conf"] in
      ensureDir configDir;;
      let kittyTheme := kittyTheme themeName colors in
      tryCatch
        (writeFileSync themePath kittyTheme;;
         present ← existsSync configPath;
         kittyConf ← (if present : bool then readFileSync configPath else ret []);
         let includeStatement := lit "include current-theme.conf" in
         (if includes includeStatement kittyConf then ret tt
          else writeFileSync configPath (includeStatement ++ nl ++ kittyConf));;
         ret (succeeded themePath
                (lit "Theme " ++ quoted themeName
                 ++ lit " applied to Kitty! Press Ctrl+Shift+F5 to reload or restart Kitty.")))
        (fun err => ret (failed themePath (lit "Failed to update Kitty config: " ++ err)))
  end.

End ConfigInstallers.

(** ** Vocabulary of the properties *)

(** The double of a byte. *)
Definition fromByte (b : Z) : float := PrimFloat.of_uint63 (Uint63.of_Z b).

Definition inUnitInterval (x : float) : bool :=
  PrimFloat.leb 0 x && PrimFloat.leb x 1.

Definition hexDigits : list N :=
  [48; 49; 50; 51; 52; 53; 54; 55; 56; 57;
   97; 98; 99; 100; 101; 102; 65; 66; 67; 68; 69; 70]%N.

(** What is checked of a channel spelled by the digits [d1 d2]. *)
Definition channelOk (d1 d2 : N) : bool :=
  let byte := hexValue 0 [d1; d2] in
  match parseInt16 [d1; d2] with
  | Some v => (v =? byte)%Z
  | None => false
  end
  && (0 <=? byte)%Z && (byte <=? 255)%Z
  && inUnitInterval (PrimFloat.div (fromByte byte) 255).

(** Lower-casing of the ASCII letters; other code units stay. *)
Definition asciiLower (c : N) : N :=
  if ((65 <=? c) && (c <=? 90))%N then (c + 32)%N else c.

Definition isAscii (c : N) : bool := (c <? 128)%N.

(** Lower-case letters, digits and hyphens, no hyphen next to a hyphen. *)
Fixpoint slugShaped (s : jsstring) : bool :=
  match s with
  | [] => true
  | c :: s' =>
      (lowerAlnum c || isChar "-" c)
      && negb (isChar "-" c && startsWith (lit "-") s')
      && slugShaped s'
  end.

(** The inside of a JSON string literal: any code unit but a double quote
    or a backslash, or a backslash and the code unit it escapes.  [escaped]
    tells that a backslash came last. *)
Fixpoint stringBody (escaped : bool) (s : jsstring) : bool :=
  match s with
  | [] => negb escaped
  | c :: s' =>
      if escaped then stringBody false s'
      else if isChar "\" c then stringBody true s'
      else negb (c =? DQUOTE)%N && stringBody false s'
  end.

(** No slash outside the string literals of a text, read from a position
    inside ([inString]) or outside a literal.  JSON has no slash outside its
    strings. *)
Fixpoint slashOnlyInStrings (inString escaped : bool) (s : jsstring) : bool :=
  match s with
  | [] => true
  | c :: s' =>
      if escaped then slashOnlyInStrings inString false s'
      else if isChar "\" c && inString then slashOnlyInStrings inString true s'
      else if (c =? DQUOTE)%N then slashOnlyInStrings (negb inString) false s'
      else (inString || negb (isChar "/" c)) && slashOnlyInStrings inString false s'
  end.

(** Every result that [m] returns satisfies [Q], from every world. *)
Definition returnsOnly {A} (Q : A -> Prop) (m : IO A) : Prop :=
  forall w a, fst (m w) = Ok a -> Q a.

(** A result other than the not-found result. *)
Definition found (r : InstallResult) : Prop := r <> notFound.

(** The six installers. *)
Definition installers `{Runtime} : list (jsstring -> IO InstallResult) :=
  [ installToIterm2; installToTerminalApp; setTerminalDefault;
    installToWindowsTerminal; installToAlacritty; installToKitty ].

(** The directory [p] is there or can be made. *)
Definition dirAvailable (w : World) (p : jsstring) : Prop :=
  bool_decide (is_Some (files w !! p)) || bool_decide (p ∈ dirs w) = true
  \/ fs_fault w OpMkdir p = None.

(** *** The settings document of Windows Terminal *)

(** A member as [JSON.stringify] writes it: only an object has members. *)
Definition writtenMember (key : string) (v : value) : value :=
  match v with
  | VObj ms => lookupMember (lit key) ms
  | _ => VUndefined
  end.
Arguments writtenMember key%_string v.

(** The entries of [settings.schemes]. *)
Definition schemesOf (settings : value) : list value :=
  match writtenMember "schemes" settings with
  | VArr items _ => items
  | _ => []
  end.

(** [s.name], [VUndefined] where there is none. *)
Definition nameOf (s : value) : value :=
  match s with
  | VObj ms => lookupMember (lit "name") ms
  | VArr _ named => lookupMember (lit "name") named
  | _ => VUndefined
  end.

Definition schemeNames (settings : value) : list value := map nameOf (schemesOf settings).

(** [settings.profiles.defaults.colorScheme] *)
Definition colorSchemeOf (settings : value) : value :=
  writtenMember "colorScheme" (writtenMember "defaults" (writtenMember "profiles" settings)).

Definition isArray (v : value) : bool :=
  match v with VArr _ _ => true | _ => false end.

(** A settings document of the usual shape: an object in which neither
    [profiles] nor [profiles.defaults] is an array. *)
Definition plainSettings (settings : value) : Prop :=
  (exists ms, settings = VObj ms)
  /\ isArray (writtenMember "profiles" settings) = false
  /\ isArray (writtenMember "defaults" (writtenMember "profiles" settings)) = false.

(** The path of the settings of the packaged stable release, the first one
    that the installer looks for. *)
Definition stableSettingsPath `{Runtime} (w : World) : jsstring :=
  path_join [orElse (env_LOCALAPPDATA w) (path_join [os_homedir w; lit "AppData"; lit "Local"]);
             lit "Packages/Microsoft.WindowsTerminal_8wekyb3d8bbwe/LocalState/settings.json"].

(** A document with two schemes of one name. *)
Definition twoCampbells : value :=
  VObj [ (lit "schemes",
          VArr [ VObj [ (lit "name", VStr (lit "Campbell")) ];
                 VObj [ (lit "name", VStr (lit "Campbell")) ] ] []) ].

(** *** The configuration file of Alacritty *)

Definition sectionHeaders : list jsstring :=
  [ lit "[colors.primary]"; lit "[colors.cursor]"; lit "[colors.selection]";
    lit "[colors.normal]"; lit "[colors.bright]" ].

Definition noBracket (s : jsstring) : bool :=
  forallb (fun c => negb (isChar "[" c)) s.

(** A configuration that holds no colour section of the five and no first
    line of a generated header. *)
Definition cleanConfig (content : jsstring) : Prop :=
  Forall (fun h => includes h content = false) (Alacritty.themeLine :: sectionHeaders).

(** A theme name on one line that holds no header of the five sections. *)
Definition plainName (themeName : jsstring) : Prop :=
  forallb (fun c => negb (isLineTerminator c)) themeName = true
  /\ Forall (fun h => includes h themeName = false) sectionHeaders.

(** Colours without an opening bracket, as every [#RRGGBB] is. *)
Definition plainColors (colors : ThemeColors) : Prop :=
  Forall (fun '(_, field, _) => noBracket (field colors) = true) colorFields.

(** Installs one after the other on the text of the configuration file. *)
Fixpoint installs (themes : list (jsstring * ThemeColors)) (content : jsstring) : jsstring :=
  match themes with
  | [] => content
  | (themeName, colors) :: rest => installs rest (Alacritty.rewrite themeName colors content)
  end.

(** The lines of a text. *)
Fixpoint lines (current : jsstring) (s : jsstring) : list jsstring :=
  match s with
  | [] => [rev current]
  | c :: s' => if (c =? NEWLINE)%N then rev current :: lines [] s' else lines (c :: current) s'
  end.

(** A text of one line. *)
Definition oneLine (s : jsstring) : bool := forallb (fun c => negb (c =? NEWLINE)%N) s.

(** The lines of a script that hold the word [color]. *)
Definition colourLines (script : jsstring) : list jsstring :=
  List.filter (includes (lit " color ")) (lines [] script).

(** The state of the file at [p]: a readable file of text [c], or nothing
    at all. *)
Definition fileState (w : World) (p : jsstring) (existing : option jsstring) : Prop :=
  match existing with
  | Some c => files w !! p = Some c /\ fs_fault w OpRead p = None
  | None => files w !! p = None /\ p ∉ dirs w
  end.

(** No match of [pattern] starts inside [a] when the text goes on with [s]. *)
Definition noStart (pattern a s : jsstring) : Prop :=
  forall a1 c a2, a = a1 ++ c :: a2 -> startsWith pattern (c :: a2 ++ s) = false.

(** The generated block: its header, then five sections, each a section
    header and a body. *)
Definition headerBlock (themeName : jsstring) : jsstring :=
  ln (lit "# ShellShade Theme: " ++ themeName) ++ ln (lit "# Generated by ShellShade") ++ nl.

Definition sectionBodies (colors : ThemeColors) : list (jsstring * jsstring) :=
  [ (lit "[colors.primary]",
     nl ++ Alacritty.entry "background" (background colors)
        ++ Alacritty.entry "foreground" (foreground colors) ++ nl);
    (lit "[colors.cursor]",
     nl ++ Alacritty.entry "text" (cursorText colors)
        ++ Alacritty.entry "cursor" (cursor colors) ++ nl);
    (lit "[colors.selection]",
     nl ++ Alacritty.entry "text" (selectionText colors)
        ++ Alacritty.entry "background" (selection colors) ++ nl);
    (lit "[colors.normal]",
     nl ++ Alacritty.entry "black" (black (ansi colors))
        ++ Alacritty.entry "red" (red (ansi colors))
        ++ Alacritty.entry "green" (green (ansi colors))
        ++ Alacritty.entry "yellow" (yellow (ansi colors))
        ++ Alacritty.entry "blue" (blue (ansi colors))
        ++ Alacritty.entry "magenta" (magenta (ansi colors))
        ++ Alacritty.entry "cyan" (cyan (ansi colors))
        ++ Alacritty.entry "white" (white (ansi colors)) ++ nl);
    (lit "[colors.bright]",
     nl ++ Alacritty.entry "black" (brightBlack (ansi colors))
        ++ Alacritty.entry "red" (brightRed (ansi colors))
        ++ Alacritty.entry "green" (brightGreen (ansi colors))
        ++ Alacritty.entry "yellow" (brightYellow (ansi colors))
        ++ Alacritty.entry "blue" (brightBlue (ansi colors))
        ++ Alacritty.entry "magenta" (brightMagenta (ansi colors))
        ++ Alacritty.entry "cyan" (brightCyan (ansi colors))
        ++ Alacritty.entry "white" (brightWhite (ansi colors))) ].

Fixpoint sectionsText (sections : list (jsstring * jsstring)) : jsstring :=
  match sections with
  | [] => []
  | (header, body) :: rest => header ++ body ++ sectionsText rest
  end.

(** A text without white space at either end. *)
Definition trimmed (s : jsstring) : Prop := trimStart s = s /\ trimEnd s = s.

(** What stands before the generated block (line 583). *)
Definition before (existingContent : jsstring) : jsstring :=
  if truthy existingContent then existingContent ++ nl ++ nl else [].

(** A section with a header other than the one looked for and a body
    without bracket: no match starts in it. *)
Definition otherSection (header : jsstring) (section : jsstring * jsstring) : Prop :=
  let (h, body) := section in
  (exists t, h = chr "[" :: t /\ noBracket t = true)
  /\ (forall x, startsWith header (h ++ x) = false)
  /\ noBracket body = true.

(** The callback of the scheme filter: a scheme of another name. *)
Definition otherName (themeName : jsstring) (s : value) : bool :=
  differsFrom themeName (nameOf s).

(** A configuration whose colour section was commented out. *)
Definition commentedOut : jsstring :=
  ln (lit "# [colors.primary]") ++ ln (lit "[font]") ++ lit "size = 12".

(** How often a text holds a pattern. *)
Fixpoint occurrences (p s : jsstring) : nat :=
  (if startsWith p s then 1 else 0)
  + match s with
    | [] => 0
    | _ :: s' => occurrences p s'
    end.

(** A theme name of two lines. *)
Definition twoLineName : jsstring := lit "Mocha" ++ nl ++ lit "dark".

(** ** A host for the examples *)

(** Segments joined by a slash (nothing is normalised), the directory part
    of a path, ASCII lower-casing.  The examples never look at JSON text, so
    [JSON.parse] refuses every text and [JSON.stringify] writes nothing. *)
Module Example.

Definition joinPosix (segments : list jsstring) : jsstring :=
  match segments with
  | [] => lit "."
  | s :: rest => foldl (fun acc seg => acc ++ lit "/" ++ seg) s rest
  end.

Definition dirnamePosix (p : jsstring) : jsstring :=
  rev (drop 1 (dropWhile (fun c => negb (isChar "/" c)) (rev p))).

Definition host : Runtime :=
  {| path_join := joinPosix;
     path_dirname := dirnamePosix;
     toLowerCase := map asciiLower;
     JSON_parse := fun _ => inl (lit "SyntaxError");
     JSON_stringify := fun _ _ => [] |}.

Definition catppuccin : list ColorRow :=
  [ {| theme_id := lit "t1"; color_key := lit "background"; hex_value := lit "#1e1e2e" |};
    {| theme_id := lit "t1"; color_key := lit "foreground"; hex_value := lit "#cdd6f4" |};
    {| theme_id := lit "t1"; color_key := lit "cursor"; hex_value := lit "#f5e0dc" |} ].

(** The colour set that the rows of [t1] give. *)
Definition mocha : ThemeColors :=
  {| background := lit "#1e1e2e"; foreground := lit "#cdd6f4"; cursor := lit "#f5e0dc";
     cursorText := lit "#000000"; selection := lit "#444444"; selectionText := lit "#ffffff";
     ansi := {| black := lit "#000000"; red := lit "#ff0000"; green := lit "#00ff00";
                yellow := lit "#ffff00"; blue := lit "#0000ff"; magenta := lit "#ff00ff";
                cyan := lit "#00ffff"; white := lit "#ffffff";
                brightBlack := lit "#666666"; brightRed := lit "#ff6666";
                brightGreen := lit "#66ff66"; brightYellow := lit "#ffff66";
                brightBlue := lit "#6666ff"; brightMagenta := lit "#ff66ff";
                brightCyan := lit "#66ffff"; brightWhite := lit "#ffffff" |} |}.

(** A Linux machine with an empty home directory and the theme [t1]. *)
Definition world : World :=
  {| theme_colors := catppuccin;
     themes := [ {| id := lit "t1"; name := lit "Mocha" |} ];
     platform := linux;
     env_LOCALAPPDATA := None;
     env_APPDATA := None;
     env_XDG_CONFIG_HOME := None;
     os_homedir := lit "/home/u";
     app_home := lit "/home/u";
     files := ∅;
     dirs := ∅;
     fs_fault := fun _ _ => None;
     exec_fault := fun _ => None;
     exec_log := [];
     write_left := fun _ => None;
     mkdir_left := fun _ => ∅ |}.

(** The same machine when every [osascript] call fails. *)
Definition offline : World :=
  {| theme_colors := catppuccin;
     themes := [ {| id := lit "t1"; name := lit "Mocha" |} ];
     platform := darwin;
     env_LOCALAPPDATA := None;
     env_APPDATA := None;
     env_XDG_CONFIG_HOME := None;
     os_homedir := lit "/Users/u";
     app_home := lit "/Users/u";
     files := ∅;
     dirs := ∅;
     fs_fault := fun _ _ => None;
     exec_fault := fun _ => Some (lit "Error: Command failed");
     exec_log := [];
     write_left := fun _ => None;
     mkdir_left := fun _ => ∅ |}.

(** The rows of [t1] with a palette added. *)
Definition catppuccinFull : list ColorRow :=
  catppuccin ++
  [ {| theme_id := lit "t1"; color_key := lit "selection"; hex_value := lit "#585b70" |};
    {| theme_id := lit "t1"; color_key := lit "ansi_red"; hex_value := lit "#f38ba8" |} ].

End Example.

(** ** A host that reads and prints JSON

    [JSON.stringify] and [JSON.parse] of ECMAScript on documents without
    numbers, which is what two installs in a row need.  Numbers are left
    out: a text that holds one is refused, and a number prints as [null],
    as [NaN] does. *)
Module Json.

(** *** [JSON.stringify] *)

Definition hexDigitOf (n : N) : N := (if n <? 10 then 48 + n else 87 + n)%N.

(** [\uXXXX], in lower case. *)
Definition unicodeEscape (c : N) : jsstring :=
  [ chr "\"; chr "u"; hexDigitOf (c / 4096); hexDigitOf ((c / 256) mod 16);
    hexDigitOf ((c / 16) mod 16); hexDigitOf (c mod 16) ].

Definition isLeadSurrogate (c : N) : bool := ((55296 <=? c) && (c <=? 56319))%N.
Definition isTrailSurrogate (c : N) : bool := ((56320 <=? c) && (c <=? 57343))%N.

(** The code units of a string between the quotes: the double quote and
    the backslash get a backslash, a control character its short form or
    [\uXXXX], and so does a surrogate that has no partner. *)
Fixpoint quoteUnits (s : jsstring) : jsstring :=
  match s with
  | [] => []
  | c :: s' =>
      if (c =? 8)%N then lit "\b" ++ quoteUnits s'
      else if (c =? 9)%N then lit "\t" ++ quoteUnits s'
      else if (c =? 10)%N then lit "\n" ++ quoteUnits s'
      else if (c =? 12)%N then lit "\f" ++ quoteUnits s'
      else if (c =? 13)%N then lit "\r" ++ quoteUnits s'
      else if (c =? DQUOTE)%N then [chr "\"; DQUOTE] ++ quoteUnits s'
      else if isChar "\" c then lit "\\" ++ quoteUnits s'
      else if (c <? 32)%N then unicodeEscape c ++ quoteUnits s'
      else if isLeadSurrogate c then
        match s' with
        | d :: s'' =>
            if isTrailSurrogate d then c :: d :: quoteUnits s''
            else unicodeEscape c ++ quoteUnits s'
        | [] => unicodeEscape c
        end
      else if isTrailSurrogate c then unicodeEscape c ++ quoteUnits s'
      else c :: quoteUnits s'
  end.

Definition quote (s : jsstring) : jsstring := quoted (quoteUnits s).

Fixpoint join (separator : jsstring) (parts : list jsstring) : jsstring :=
  match parts with
  | [] => []
  | [x] => x
  | x :: rest => x ++ separator ++ join separator rest
  end.

(** The parts of an object or of an array between their brackets: on one
    line when there is no indent, else one part a line. *)
Definition wrap (opening closing : string) (gap indent : jsstring) (parts : list jsstring)
  : jsstring :=
  match parts with
  | [] => lit opening ++ lit closing
  | _ =>
      if truthy gap then
        lit opening ++ nl ++ (indent ++ gap)
          ++ join (lit "," ++ nl ++ (indent ++ gap)) parts
          ++ nl ++ indent ++ lit closing
      else lit opening ++ join (lit ",") parts ++ lit closing
  end.

(** [SerializeJSONProperty]; [None] is [undefined].  A member that is
    [undefined] is left out of an object and is [null] in an array; the
    named members of an array are not written. *)
Fixpoint serialize (gap indent : jsstring) (v : value) : option jsstring :=
  match v with
  | VUndefined => None
  | VNull => Some (lit "null")
  | VBool b => Some (if b then lit "true" else lit "false")
  | VNum _ => Some (lit "null")
  | VStr s => Some (quote s)
  | VArr items _ =>
      let parts :=
        (fix each (items : list value) : list jsstring :=
           match items with
           | [] => []
           | item :: rest =>
               match serialize gap (indent ++ gap) item with
               | Some text => text
               | None => lit "null"
               end :: each rest
           end) items in
      Some (wrap "[" "]" gap indent parts)
  | VObj members =>
      let parts :=
        (fix each (members : list (jsstring * value)) : list jsstring :=
           match members with
           | [] => []
           | (key, member) :: rest =>
               match serialize gap (indent ++ gap) member with
               | Some text =>
                   (quote key ++ lit ":" ++ (if truthy gap then lit " " else []) ++ text)
                     :: each rest
               | None => each rest
               end
           end) members in
      Some (wrap "{" "}" gap indent parts)
  end.

(** [JSON.stringify(value, null, indent)] for a value that is not
    [undefined]; the indent is at most ten spaces. *)
Definition stringify (v : value) (indent : nat) : jsstring :=
  match serialize (repeat (chr " ") (Nat.min indent 10)) [] v with
  | Some text => text
  | None => []
  end.

(** *** [JSON.parse] *)

(** The white space of JSON: tab, line feed, carriage return, space. *)
Definition isJsonSpace (c : N) : bool :=
  ((c =? 9) || (c =? 10) || (c =? 13) || (c =? 32))%N.

Definition skipSpace (s : jsstring) : jsstring := dropWhile isJsonSpace s.

Definition fourHex (a b c d : N) : option N :=
  match hexDigit a, hexDigit b, hexDigit c, hexDigit d with
  | Some x, Some y, Some z, Some t => Some (Z.to_N (((x * 16 + y) * 16 + z) * 16 + t))
  | _, _, _, _ => None
  end.

(** What follows the opening quote of a string literal: the code units up
    to the closing quote, and the text after it. *)
Fixpoint parseUnits (s : jsstring) : option (jsstring * jsstring) :=
  match s with
  | [] => None
  | c :: s' =>
      if (c =? DQUOTE)%N then Some ([], s')
      else if (c <? 32)%N then None
      else if isChar "\" c then
        match s' with
        | e :: s'' =>
            let simple (u : N) :=
              match parseUnits s'' with
              | Some (units, rest) => Some (u :: units, rest)
              | None => None
              end in
            if (e =? DQUOTE)%N then simple DQUOTE
            else if isChar "\" e then simple (chr "\")
            else if isChar "/" e then simple (chr "/")
            else if isChar "b" e then simple 8%N
            else if isChar "f" e then simple 12%N
            else if isChar "n" e then simple 10%N
            else if isChar "r" e then simple 13%N
            else if isChar "t" e then simple 9%N
            else if isChar "u" e then
              match s'' with
              | h1 :: h2 :: h3 :: h4 :: s4 =>
                  match fourHex h1 h2 h3 h4, parseUnits s4 with
                  | Some u, Some (units, rest) => Some (u :: units, rest)
                  | _, _ => None
                  end
              | _ => None
              end
            else None
        | [] => None
        end
      else
        match parseUnits s' with
        | Some (units, rest) => Some (c :: units, rest)
        | None => None
        end
  end.

(** A value, then what is left of the text.  A member read twice keeps the
    place of the first and the value of the last.  [fuel] bounds the number
    of values read. *)
Fixpoint parseValue (fuel : nat) (s : jsstring) : option (value * jsstring) :=
  match fuel with
  | O => None
  | S fuel =>
      match skipSpace s with
      | [] => None
      | c :: s' =>
          if (c =? DQUOTE)%N then
            match parseUnits s' with
            | Some (units, rest) => Some (VStr units, rest)
            | None => None
            end
          else if isChar "{" c then
            match skipSpace s' with
            | d :: rest => if isChar "}" d then Some (VObj [], rest) else parseMembers fuel [] s'
            | [] => None
            end
          else if isChar "[" c then
            match skipSpace s' with
            | d :: rest => if isChar "]" d then Some (VArr [] [], rest) else parseItems fuel [] s'
            | [] => None
            end
          else if startsWith (lit "true") (c :: s') then Some (VBool true, drop 3 s')
          else if startsWith (lit "false") (c :: s') then Some (VBool false, drop 4 s')
          else if startsWith (lit "null") (c :: s') then Some (VNull, drop 3 s')
          else None
      end
  end
with parseMembers (fuel : nat) (members : list (jsstring * value)) (s : jsstring)
  : option (value * jsstring) :=
  match fuel with
  | O => None
  | S fuel =>
      match skipSpace s with
      | q :: s1 =>
          if (q =? DQUOTE)%N then
            match parseUnits s1 with
            | Some (key, s2) =>
                match skipSpace s2 with
                | colon :: s3 =>
                    if isChar ":" colon then
                      match parseValue fuel s3 with
                      | Some (member, s4) =>
                          let members := storeMember key member members in
                          match skipSpace s4 with
                          | d :: s5 =>
                              if isChar "," d then parseMembers fuel members s5
                              else if isChar "}" d then Some (VObj members, s5)
                              else None
                          | [] => None
                          end
                      | None => None
                      end
                    else None
                | [] => None
                end
            | None => None
            end
          else None
      | [] => None
      end
  end
with parseItems (fuel : nat) (items : list value) (s : jsstring)
  : option (value * jsstring) :=
  match fuel with
  | O => None
  | S fuel =>
      match parseValue fuel s with
      | Some (item, s1) =>
          match skipSpace s1 with
          | d :: s2 =>
              if isChar "," d then parseItems fuel (items ++ [item]) s2
              else if isChar "]" d then Some (VArr (items ++ [item]) [], s2)
              else None
          | [] => None
          end
      | None => None
      end
  end.

(** [JSON.parse(text)]: one value with white space around it.  A text
    holds fewer values than code units. *)
Definition parse (text : jsstring) : jsstring + value :=
  match parseValue (S (length text)) text with
  | Some (v, rest) =>
      match skipSpace rest with
      | [] => inr v
      | _ => inl (lit "SyntaxError: Unexpected non-whitespace character after JSON")
      end
  | None => inl (lit "SyntaxError: Unexpected token in JSON")
  end.

Definition host : Runtime :=
  {| path_join := Example.joinPosix;
     path_dirname := Example.dirnamePosix;
     toLowerCase := map asciiLower;
     JSON_parse := parse;
     JSON_stringify := stringify |}.

End Json.

(** *** A theme with a comma in its name *)

Definition stablePath : jsstring :=
  lit "C:/Users/u/AppData/Local/Packages/Microsoft.WindowsTerminal_8wekyb3d8bbwe/LocalState/settings.json".

(** A Windows machine whose settings file holds the empty document, with a
    theme named [a,}]. *)
Definition oddName : World :=
  {| theme_colors :=
       [ {| theme_id := lit "t1"; color_key := lit "background"; hex_value := lit "#1e1e2e" |} ];
     themes := [ {| id := lit "t1"; name := lit "a,}" |} ];
     platform := win32;
     env_LOCALAPPDATA := Some (lit "C:/Users/u/AppData/Local");
     env_APPDATA := Some (lit "C:/Users/u/AppData/Roaming");
     env_XDG_CONFIG_HOME := None;
     os_homedir := lit "C:/Users/u";
     app_home := lit "C:/Users/u";
     files := {[ stablePath := lit "{}" ]};
     dirs := ∅;
     fs_fault := fun _ _ => None;
     exec_fault := fun _ => None;
     exec_log := [];
     write_left := fun _ => None;
     mkdir_left := fun _ => ∅ |}.

(** The call returned a result that tells success. *)
Definition succeeds (r : Outcome InstallResult * World) : bool :=
  match fst r with
  | Ok result => success result
  | Throw _ => false
  end.

(** What [JSON.parse] makes of the file at [p]. *)
Definition documentAt (w : World) (p : jsstring) : option value :=
  match files w !! p with
  | Some text =>
      match Json.parse text with
      | inr settings => Some settings
      | inl _ => None
      end
  | None => None
  end.

(** *** A configuration with a section that was commented out *)

Definition alacrittyToml : jsstring := lit "/home/u/.config/alacritty/alacritty.toml".

(** The Linux machine of the examples with [commentedOut] as its
    [alacritty.toml]. *)
Definition commentedConfig : World :=
  setFiles {[ alacrittyToml := commentedOut ]} Example.world.

(** ** Vocabulary of the further properties *)

(** Something is at [p]: what [fs.existsSync] answers. *)
Definition present (w : World) (p : jsstring) : bool :=
  bool_decide (is_Some (files w !! p)) || bool_decide (p ∈ dirs w).

(** The alphabet of a slug. *)
Definition slugUnit (c : N) : bool := lowerAlnum c || isChar "-" c.

Module Cases.

(** A theme whose background was stored twice and whose cursor is the
    empty string. *)
Definition repainted : World :=
  {| theme_colors :=
       [ {| theme_id := lit "t1"; color_key := lit "background"; hex_value := lit "#1e1e2e" |};
         {| theme_id := lit "t1"; color_key := lit "background"; hex_value := lit "#11111b" |};
         {| theme_id := lit "t1"; color_key := lit "cursor"; hex_value := [] |} ];
     themes := [ {| id := lit "t0"; name := lit "Latte" |};
                 {| id := lit "t1"; name := [] |};
                 {| id := lit "t1"; name := lit "Mocha" |} ];
     platform := linux;
     env_LOCALAPPDATA := None;
     env_APPDATA := None;
     env_XDG_CONFIG_HOME := None;
     os_homedir := lit "/home/u";
     app_home := lit "/home/u";
     files := ∅;
     dirs := ∅;
     fs_fault := fun _ _ => None;
     exec_fault := fun _ => None;
     exec_log := [];
     write_left := fun _ => None;
     mkdir_left := fun _ => ∅ |}.

(** A machine on which nothing can be written and no directory made,
    with the profile directory of iTerm2 in place. *)
Definition readOnly : World :=
  {| theme_colors := Example.catppuccin;
     themes := [ {| id := lit "t1"; name := lit "Mocha" |} ];
     platform := linux;
     env_LOCALAPPDATA := None;
     env_APPDATA := None;
     env_XDG_CONFIG_HOME := None;
     os_homedir := lit "/home/u";
     app_home := lit "/home/u";
     files := ∅;
     dirs := {[ lit "/home/u/Library/Application Support/iTerm2/DynamicProfiles" ]};
     fs_fault := fun op _ =>
       match op with
       | OpRead => None
       | _ => Some (lit "Error: EACCES: permission denied")
       end;
     exec_fault := fun _ => None;
     exec_log := [];
     write_left := fun _ => None;
     mkdir_left := fun _ => ∅ |}.

(** A host that reads the text [{}] and no other text; what it prints is
    of no account here. *)
Definition reader : Runtime :=
  {| path_join := Example.joinPosix;
     path_dirname := Example.dirnamePosix;
     toLowerCase := map asciiLower;
     JSON_parse := fun text =>
       if bool_decide (text = lit "{}") then inr (VObj [])
       else inl (lit "SyntaxError: Unexpected token");
     JSON_stringify := fun _ _ => lit "{ }" |}.

Definition previewPath : jsstring :=
  lit "C:/Users/u/AppData/Local/Packages/Microsoft.WindowsTerminalPreview_8wekyb3d8bbwe/LocalState/settings.json".

(** A Windows machine that has the preview release only, with the given
    settings text. *)
Definition windows (content : jsstring) : World :=
  {| theme_colors := Example.catppuccin;
     themes := [ {| id := lit "t1"; name := lit "Mocha" |} ];
     platform := win32;
     env_LOCALAPPDATA := Some (lit "C:/Users/u/AppData/Local");
     env_APPDATA := Some (lit "C:/Users/u/AppData/Roaming");
     env_XDG_CONFIG_HOME := None;
     os_homedir := lit "C:/Users/u";
     app_home := lit "C:/Users/u";
     files := {[ previewPath := content ]};
     dirs := ∅;
     fs_fault := fun _ _ => None;
     exec_fault := fun _ => None;
     exec_log := [];
     write_left := fun _ => None;
     mkdir_left := fun _ => ∅ |}.

(** A Linux machine with a [kitty.conf] of the user's own, on which only
    the theme file of Kitty can be written. *)
Definition locked : World :=
  {| theme_colors := Example.catppuccin;
     themes := [ {| id := lit "t1"; name := lit "Mocha" |} ];
     platform := linux;
     env_LOCALAPPDATA := None;
     env_APPDATA := None;
     env_XDG_CONFIG_HOME := None;
     os_homedir := lit "/home/u";
     app_home := lit "/home/u";
     files := {[ lit "/home/u/.config/kitty/kitty.conf" := lit "font_size 12" ]};
     dirs := ∅;
     fs_fault := fun op p =>
       match op with
       | OpWrite =>
           if bool_decide (p = lit "/home/u/.config/kitty/current-theme.conf") then None
           else Some (lit "Error: EACCES: permission denied")
       | _ => None
       end;
     exec_fault := fun _ => None;
     exec_log := [];
     write_left := fun _ => None;
     mkdir_left := fun _ => ∅ |}.

(** A Windows machine like the one above whose disk is full: a write
    empties the file and then fails. *)
Definition fullDisk (content : jsstring) : World :=
  {| theme_colors := Example.catppuccin;
     themes := [ {| id := lit "t1"; name := lit "Mocha" |} ];
     platform := win32;
     env_LOCALAPPDATA := Some (lit "C:/Users/u/AppData/Local");
     env_APPDATA := Some (lit "C:/Users/u/AppData/Roaming");
     env_XDG_CONFIG_HOME := None;
     os_homedir := lit "C:/Users/u";
     app_home := lit "C:/Users/u";
     files := {[ previewPath := content ]};
     dirs := ∅;
     fs_fault := fun op _ =>
       match op with
       | OpWrite => Some (lit "Error: ENOSPC: no space left on device")
       | _ => None
       end;
     exec_fault := fun _ => None;
     exec_log := [];
     write_left := fun _ => Some [];
     mkdir_left := fun _ => ∅ |}.

End Cases.

(** *** The JSONC reader *)

(** Where the comment scanner stands after a text that holds no comment:
    inside a string literal or not, after a backslash or not. *)
Fixpoint stateAfter (inString escaped : bool) (s : jsstring) : bool * bool :=
  match s with
  | [] => (inString, escaped)
  | c :: s' =>
      if escaped then stateAfter inString false s'
      else if isChar "\" c && inString then stateAfter inString true s'
      else if (c =? DQUOTE)%N then stateAfter (negb inString) false s'
      else stateAfter inString false s'
  end.

(** A text without comment that ends outside a string literal: it has no
    slash outside its string literals, and every literal it opens it
    closes. *)
Definition commentFree (s : jsstring) : bool :=
  slashOnlyInStrings false false s
  && match stateAfter false false s with
     | (false, false) => true
     | _ => false
     end.

Definition isCloser (c : N) : bool := isChar "}" c || isChar "]" c.

(** Somewhere in the text a comma stands before a closing bracket, white
    space apart: the trailing-comma expression matches. *)
Fixpoint commaBeforeCloser (s : jsstring) : bool :=
  match Jsonc.trailingComma s with Some _ => true | None => false end
  || match s with
     | [] => false
     | _ :: s' => commaBeforeCloser s'
     end.

(** *** Effects of the installers *)

(** A computation that returns from every world: it never throws. *)
Definition total {A} (m : IO A) : Prop := forall w, exists a w', m w = (Ok a, w').

(** The files after a write to [p] that failed: every other file is as it
    was, and the file at [p] is as it was or holds what the write left
    there. *)
Definition afterFailedWrite (p : jsstring) (before after : gmap (list N) (list N)) : Prop :=
  (forall q, q <> p -> after !! q = before !! q)
  /\ (after !! p = before !! p \/ is_Some (after !! p)).

(** The installers whose body is guarded by [try] from the first effect
    on. *)
Definition guardedInstallers `{Runtime} : list (jsstring -> IO InstallResult) :=
  [ installToTerminalApp; setTerminalDefault; installToWindowsTerminal ].

(** The installers that make a directory before their [try], each with the
    directory it makes. *)
Definition directoryInstallers `{Runtime}
  : list ((jsstring -> IO InstallResult) * (World -> jsstring)) :=
  [ (installToIterm2,
     fun w => path_join [app_home w; lit "Library/Application Support/iTerm2/DynamicProfiles"]);
    (installToAlacritty, fun w => path_dirname (alacrittyConfigPath w));
    (installToKitty, kittyConfigDir) ].

(** *** Windows Terminal *)

(** The three places where the settings are looked for, in the order of
    the installer: the packaged stable release, the packaged preview, the
    unpackaged release. *)
Definition windowsSettingsPaths `{Runtime} (w : World) : list jsstring :=
  let localAppData :=
    orElse (env_LOCALAPPDATA w) (path_join [os_homedir w; lit "AppData"; lit "Local"]) in
  [ path_join [localAppData;
               lit "Packages/Microsoft.WindowsTerminal_8wekyb3d8bbwe/LocalState/settings.json"];
    path_join [localAppData;
               lit "Packages/Microsoft.WindowsTerminalPreview_8wekyb3d8bbwe/LocalState/settings.json"];
    path_join [localAppData; lit "Microsoft/Windows Terminal/settings.json"] ].

(** [actualSettingsPath]: the first of the three that is there, the empty
    string when none is. *)
Definition actualSettingsPath `{Runtime} (w : World) : jsstring :=
  default [] (List.find (present w) (windowsSettingsPaths w)).

Section AfterChoice.
Context `{Runtime}.

(** [installToWindowsTerminal] from the choice of the settings file on
    (lines 350 to 497). *)
Definition afterChoice (themeName : jsstring) (colors : ThemeColors)
    (actualSettingsPath : jsstring) : IO InstallResult :=
  if negb (truthy actualSettingsPath) then
    ret (failed [] (lit "Windows Terminal settings not found. Is Windows Terminal installed?"))
  else
    tryCatch
      (settingsContent ← readFileSync actualSettingsPath;
       let jsonWithoutComments := Jsonc.stripJsonc settingsContent in
       match JSON_parse jsonWithoutComments with
       | inl parseErr =>
           ret (failed actualSettingsPath
                  (lit "Failed to parse Windows Terminal settings: " ++ parseErr))
       | inr settings =>
           let scheme := windowsScheme themeName colors in
           settings ← liftOutcome (updateSettings themeName scheme settings);
           writeFileSync actualSettingsPath (JSON_stringify settings 4);;
           ret (succeeded actualSettingsPath
                  (lit "Theme " ++ quoted themeName
                   ++ lit " applied to Windows Terminal! All open windows updated."))
       end)
      (fun err =>
         ret (failed actualSettingsPath
                (lit "Failed to update Windows Terminal settings: " ++ err))).

End AfterChoice.

(** The members of an object; a value that is no object has none. *)
Definition membersOf (v : value) : list (jsstring * value) :=
  match v with
  | VObj ms => ms
  | _ => []
  end.

(** The member [key] of an object, [VUndefined] where there is none. *)
Definition memberOf (key : jsstring) (v : value) : value := lookupMember key (membersOf v).

(** The callback of the scheme filter (line 469). *)
Definition keepScheme (themeName : jsstring) (s : value) : Outcome bool :=
  n ← getMember (lit "name") s; mret (differsFrom themeName n).

(** The document after an install, for a document of the usual shape: the
    schemes of another name and the new scheme under [schemes], the name of
    the theme under [profiles.defaults.colorScheme], every other member as
    it was. *)
Definition updatedSettings (themeName : jsstring) (scheme : value)
    (ms : list (jsstring * value)) : value :=
  let pm := membersOf (lookupMember (lit "profiles") ms) in
  let dm := membersOf (lookupMember (lit "defaults") pm) in
  VObj (storeMember (lit "profiles")
          (VObj (storeMember (lit "defaults")
                   (VObj (storeMember (lit "colorScheme") (VStr themeName) dm)) pm))
          (storeMember (lit "schemes")
             (VArr (List.filter (otherName themeName) (schemesOf (VObj ms)) ++ [scheme]) [])
             ms)).

(** A value whose members can be read: neither [null] nor [undefined]. *)
Definition notNullish (v : value) : bool :=
  match v with
  | VUndefined | VNull => false
  | _ => true
  end.

(** A settings object that the update accepts: [schemes] is absent (or
    falsy) or an array without [null]; [profiles] is absent (or falsy) or an
    object whose [defaults] is absent (or falsy) or an object. *)
Definition wellFormedSettings (ms : list (jsstring * value)) : Prop :=
  (truthyValue (lookupMember (lit "schemes") ms) = false
   \/ exists items named,
        lookupMember (lit "schemes") ms = VArr items named
        /\ forallb notNullish items = true)
  /\ (truthyValue (lookupMember (lit "profiles") ms) = false
      \/ exists pm,
           lookupMember (lit "profiles") ms = VObj pm
           /\ (truthyValue (lookupMember (lit "defaults") pm) = false
               \/ exists dm, lookupMember (lit "defaults") pm = VObj dm)).

Module Settings.

(** A settings document with settings of the user's own. *)
Definition custom : value :=
  VObj [ (lit "theme", VStr (lit "dark"));
         (lit "schemes", VArr [ VObj [ (lit "name", VStr (lit "Campbell")) ];
                                VObj [ (lit "name", VStr (lit "Mocha")) ] ] []);
         (lit "profiles",
          VObj [ (lit "list", VArr [ VObj [ (lit "name", VStr (lit "PowerShell")) ] ] []);
                 (lit "defaults", VObj [ (lit "font", VStr (lit "Fira Code")) ]) ]) ].

End Settings.

(** A boolean, a number or a string. *)
Definition isPrimitive (v : value) : bool :=
  match v with
  | VBool _ | VNum _ | VStr _ => true
  | _ => false
  end.

(** *** Kitty *)

(** The line that makes [kitty.conf] load the theme file. *)
Definition includeStatement : jsstring := lit "include current-theme.conf".

(** [kitty.conf] after an install: the include line goes in front unless
    the text holds it already. *)
Definition withInclude (kittyConf : jsstring) : jsstring :=
  if includes includeStatement kittyConf then kittyConf
  else includeStatement ++ nl ++ kittyConf.

(** *** The command line of [osascript] *)

Inductive Quoting := Unquoted | SingleQuoted | DoubleQuoted.

(** How a POSIX shell reads a word made of quoted pieces.  Between
    apostrophes every code unit stands for itself; between double quotes it
    does too unless it is [$], a backquote or a backslash; a piece ends at
    its closing quote, the word at the end of the text.  [None]: a quote is
    left open, or the word holds what is left out here (text outside quotes,
    an expansion). *)
Fixpoint shellWord (q : Quoting) (s : jsstring) : option jsstring :=
  match s with
  | [] =>
      match q with
      | Unquoted => Some []
      | _ => None
      end
  | c :: s' =>
      match q with
      | Unquoted =>
          if isChar "'" c then shellWord SingleQuoted s'
          else if (c =? DQUOTE)%N then shellWord DoubleQuoted s'
          else None
      | SingleQuoted =>
          if isChar "'" c then shellWord Unquoted s'
          else cons c <$> shellWord SingleQuoted s'
      | DoubleQuoted =>
          if (c =? DQUOTE)%N then shellWord Unquoted s'
          else if isChar "$" c || isChar "`" c || isChar "\" c then None
          else cons c <$> shellWord DoubleQuoted s'
      end
  end.

(** *** The escaped theme name *)

(** What [escapeName] makes of one code unit. *)
Definition escapedUnit (c : N) : jsstring :=
  if (c =? DQUOTE)%N then [chr "\"; DQUOTE] else [c].

(** Every double quote of the text stands right after a backslash.
    [afterBackslash] tells that a backslash came last. *)
Fixpoint quotesGuarded (afterBackslash : bool) (s : jsstring) : bool :=
  match s with
  | [] => true
  | c :: s' => (negb (c =? DQUOTE)%N || afterBackslash) && quotesGuarded (isChar "\" c) s'
  end.

(** * Properties *)

(** ** Strings and replacement *)

Lemma takeWhile_dropWhile p s : takeWhile p s ++ dropWhile p s = s.
Proof. induction s as [|c s IH]; simpl; [reflexivity|]. destruct (p c); simpl; congruence. Qed.

Lemma drop_takeWhile p s : drop (length (takeWhile p s)) s = dropWhile p s.
Proof. induction s as [|c s IH]; simpl; [reflexivity|]. destruct (p c); simpl; auto. Qed.

Lemma dropWhile_length p s : length (dropWhile p s) <= length s.
Proof. induction s as [|c s IH]; simpl; [lia|]. destruct (p c); simpl; lia. Qed.

Lemma dropWhile_head p s c s' : dropWhile p s = c :: s' -> p c = false.
Proof.
  induction s as [|d s IH]; simpl; [discriminate|].
  destruct (p d) eqn:E; [exact IH|]. intros [= -> _]. exact E.
Qed.

Lemma takeWhile_all p s : forallb p s = true -> takeWhile p s = s.
Proof.
  induction s as [|c s IH]; simpl; [reflexivity|].
  intros A. apply andb_prop in A. destruct A as [-> A]. f_equal. auto.
Qed.

Lemma takeWhile_app_stop p a c s :
  forallb p a = true -> p c = false -> takeWhile p (a ++ c :: s) = a.
Proof.
  induction a as [|d a IH]; simpl; intros A C.
  - rewrite C. reflexivity.
  - apply andb_prop in A. destruct A as [-> A]. f_equal. auto.
Qed.

Lemma takeWhile_app_end p a : forallb p a = true -> takeWhile p (a ++ []) = a.
Proof. rewrite app_nil_r. apply takeWhile_all. Qed.

Lemma startsWith_app p s : startsWith p (p ++ s) = true.
Proof. induction p as [|a p IH]; simpl; [reflexivity|]. rewrite N.eqb_refl. exact IH. Qed.

Lemma startsWith_prefix p s : startsWith p s = true -> exists t, s = p ++ t.
Proof.
  revert s. induction p as [|a p IH]; intros s; simpl.
  - exists s. reflexivity.
  - destruct s as [|b s]; [discriminate|]. intros E.
    apply andb_prop in E. destruct E as [E1 E2]. apply N.eqb_eq in E1. subst b.
    destruct (IH s E2) as [t ->]. exists t. reflexivity.
Qed.

(** Skipping [k] code units is dropping them. *)
Lemma replaceFrom_skip m k s : replaceFrom m k s = replaceAll m (drop k s).
Proof.
  revert k. induction s as [|c s IH]; intros k.
  - destruct k; reflexivity.
  - destruct k as [|k]; [reflexivity|]. simpl. apply IH.
Qed.

Lemma replaceAll_nil m : replaceAll m [] = [].
Proof. reflexivity. Qed.

Lemma replaceAll_miss m c s : m (c :: s) = None -> replaceAll m (c :: s) = c :: replaceAll m s.
Proof. intros E. unfold replaceAll. simpl. rewrite E. reflexivity. Qed.

Lemma replaceAll_hit m c s n r :
  m (c :: s) = Some (n, r) -> replaceAll m (c :: s) = r ++ replaceAll m (drop (pred n) s).
Proof. intros E. unfold replaceAll at 1. simpl. rewrite E, replaceFrom_skip. reflexivity. Qed.

(** A stretch where the expression matches nowhere is copied. *)
Lemma replaceAll_copy m a s :
  (forall a1 c a2, a = a1 ++ c :: a2 -> m (c :: a2 ++ s) = None) ->
  replaceAll m (a ++ s) = a ++ replaceAll m s.
Proof.
  induction a as [|c a IH]; intros M; [reflexivity|].
  simpl. rewrite replaceAll_miss by (apply (M [] c a); reflexivity).
  f_equal. apply IH. intros a1 d a2 E. apply (M (c :: a1) d a2). rewrite E. reflexivity.
Qed.



(** ** Colour codec *)

Lemma isHexDigit_enum c : isHexDigit c = true -> In c hexDigits.
Proof.
  unfold isHexDigit, hexDigit, hexDigits.
  destruct ((48 <=? c) && (c <=? 57))%N eqn:E1;
    [|destruct ((97 <=? c) && (c <=? 102))%N eqn:E2;
      [|destruct ((65 <=? c) && (c <=? 70))%N eqn:E3; [|discriminate]]];
    intros _; apply andb_prop in E1 || apply andb_prop in E2 || apply andb_prop in E3.
  - destruct E1 as [L U]. apply N.leb_le in L, U.
    assert (Hc : (c = 48 \/ c = 49 \/ c = 50 \/ c = 51 \/ c = 52 \/ c = 53 \/ c = 54
                  \/ c = 55 \/ c = 56 \/ c = 57)%N) by lia.
    simpl. intuition.
  - destruct E2 as [L U]. apply N.leb_le in L, U.
    assert (Hc : (c = 97 \/ c = 98 \/ c = 99 \/ c = 100 \/ c = 101 \/ c = 102)%N) by lia.
    simpl. intuition.
  - destruct E3 as [L U]. apply N.leb_le in L, U.
    assert (Hc : (c = 65 \/ c = 66 \/ c = 67 \/ c = 68 \/ c = 69 \/ c = 70)%N) by lia.
    simpl. intuition.
Qed.

Lemma channelOk_all :
  forallb (fun d1 => forallb (channelOk d1) hexDigits) hexDigits = true.
Proof. vm_compute. reflexivity. Qed.

Lemma channelOk_digits d1 d2 :
  isHexDigit d1 = true -> isHexDigit d2 = true -> channelOk d1 d2 = true.
Proof.
  intros H1 H2. apply isHexDigit_enum in H1, H2.
  pose proof channelOk_all as A.
  rewrite forallb_forall in A. specialize (A d1 H1).
  rewrite forallb_forall in A. exact (A d2 H2).
Qed.

Lemma channel_spec d1 d2 :
  isHexDigit d1 = true -> isHexDigit d2 = true ->
  parseInt16 [d1; d2] = Some (hexValue 0 [d1; d2])
  /\ (0 <= hexValue 0 [d1; d2] <= 255)%Z
  /\ inUnitInterval (PrimFloat.div (fromByte (hexValue 0 [d1; d2])) 255) = true.
Proof.
  intros H1 H2. pose proof (channelOk_digits d1 d2 H1 H2) as C.
  unfold channelOk in C.
  destruct (parseInt16 [d1; d2]) as [v|]; [|discriminate].
  repeat (apply andb_prop in C; destruct C as [C ?]).
  apply Z.eqb_eq in C. subst v. split; [reflexivity|]. split; [lia|assumption].
Qed.

Lemma toNumber_byte b : (0 <= b)%Z -> toNumber (Some b) = fromByte b.
Proof. intros Hb. unfold toNumber, fromByte. destruct (b <? 0)%Z eqn:E; [lia|reflexivity]. Qed.

Lemma wellFormedHex_shape hex :
  wellFormedHex hex = true ->
  exists d1 d2 d3 d4 d5 d6,
    hex = [chr "#"; d1; d2; d3; d4; d5; d6]
    /\ Forall (fun d => isHexDigit d = true) [d1; d2; d3; d4; d5; d6].
Proof.
  destruct hex as [|h digits]; [discriminate|]. simpl.
  intros W. apply andb_prop in W. destruct W as [W D].
  apply andb_prop in W. destruct W as [Hh L].
  apply N.eqb_eq in Hh. apply Nat.eqb_eq in L.
  do 6 (destruct digits as [|? digits]; [discriminate|]).
  destruct digits; [|discriminate].
  do 6 eexists. split; [rewrite Hh; reflexivity|].
  apply Forall_forall. intros d Hd. rewrite forallb_forall in D. apply D.
  apply list_elem_of_In. exact Hd.
Qed.

(** C5.  For a well-formed colour ([#] and six hexadecimal digits),
    [hexToItermColorDict] returns the three channels [byte / 255] (as
    doubles), each in [0, 1], alpha exactly 1 and the colour space ["sRGB"];
    [hexToRGB] prints the three channels [byte * 257], each in [0, 65535].
    Both are functions of the string alone: equal strings give equal
    results. *)
Theorem hex_codec_ranges (hex : jsstring) :
  wellFormedHex hex = true ->
  let r := byteAt 1 hex in
  let g := byteAt 3 hex in
  let b := byteAt 5 hex in
  hexToItermColorDict hex =
    {| Red_Component := PrimFloat.div (fromByte r) 255;
       Green_Component := PrimFloat.div (fromByte g) 255;
       Blue_Component := PrimFloat.div (fromByte b) 255;
       Alpha_Component := 1;
       Color_Space := lit "sRGB" |}
  /\ inUnitInterval (Red_Component (hexToItermColorDict hex)) = true
  /\ inUnitInterval (Green_Component (hexToItermColorDict hex)) = true
  /\ inUnitInterval (Blue_Component (hexToItermColorDict hex)) = true
  /\ hexToRGB hex =
       lit "{" ++ numberToString (Some (r * 257)%Z) ++ lit ", "
         ++ numberToString (Some (g * 257)%Z) ++ lit ", "
         ++ numberToString (Some (b * 257)%Z) ++ lit "}"
  /\ (0 <= r * 257 <= 65535)%Z /\ (0 <= g * 257 <= 65535)%Z /\ (0 <= b * 257 <= 65535)%Z
  /\ (forall hex', hex' = hex ->
        hexToItermColorDict hex' = hexToItermColorDict hex /\ hexToRGB hex' = hexToRGB hex).
Proof.
  intros W. destruct (wellFormedHex_shape hex W) as (d1 & d2 & d3 & d4 & d5 & d6 & -> & D).
  repeat match goal with H : Forall _ (_ :: _) |- _ => inversion H; clear H; subst end.
  destruct (channel_spec d1 d2) as (P1 & B1 & U1); [assumption..|].
  destruct (channel_spec d3 d4) as (P2 & B2 & U2); [assumption..|].
  destruct (channel_spec d5 d6) as (P3 & B3 & U3); [assumption..|].
  assert (E : hexToItermColorDict [chr "#"; d1; d2; d3; d4; d5; d6] =
              {| Red_Component := PrimFloat.div (fromByte (hexValue 0 [d1; d2])) 255;
                 Green_Component := PrimFloat.div (fromByte (hexValue 0 [d3; d4])) 255;
                 Blue_Component := PrimFloat.div (fromByte (hexValue 0 [d5; d6])) 255;
                 Alpha_Component := 1;
                 Color_Space := lit "sRGB" |}).
  { unfold hexToItermColorDict, channel, slice. cbn [drop take Nat.sub].
    rewrite P1, P2, P3, !toNumber_byte by lia. reflexivity. }
  cbv zeta. unfold byteAt, slice. cbn [drop take Nat.sub Nat.add].
  split. { exact E. } rewrite E. cbn [Red_Component Green_Component Blue_Component].
  do 3 (split; [assumption|]).
  split.
  { unfold hexToRGB, channel, slice. cbn [drop take Nat.sub].
    rewrite P1, P2, P3. reflexivity. }
  do 3 (split; [lia|]).
  intros hex' ->. split; [exact E|reflexivity].
Qed.

Lemma hex_codec_ranges_witness :
  wellFormedHex (lit "#1e1e2e") = true
  /\ hexToRGB (lit "#1e1e2e") = lit "{7710, 7710, 11822}"
  /\ inUnitInterval (Red_Component (hexToItermColorDict (lit "#1e1e2e"))) = true.
Proof.
  split; [reflexivity|].
  pose proof (hex_codec_ranges (lit "#1e1e2e") eq_refl) as T. cbv zeta in T.
  destruct T as (_ & R & _ & _ & S & _). split; [|exact R].
  rewrite S. reflexivity.
Defined.

(** ** The slug of the iTerm2 profile name *)

Lemma lowerAlnum_not_hyphen c : lowerAlnum c = true -> isChar "-" c = false.
Proof.
  unfold lowerAlnum, isChar, chr. simpl N_of_ascii. intros A.
  apply N.eqb_neq. intros ->. discriminate A.
Qed.

Lemma nonAlnumRun_alnum c s : lowerAlnum c = true -> nonAlnumRun (c :: s) = None.
Proof. intros A. unfold nonAlnumRun. rewrite A. reflexivity. Qed.

Lemma replaceAll_slug_alnum c s :
  lowerAlnum c = true ->
  replaceAll nonAlnumRun (c :: s) = c :: replaceAll nonAlnumRun s.
Proof. intros A. apply replaceAll_miss, nonAlnumRun_alnum, A. Qed.

(** A run that starts with another code unit becomes one hyphen, and the
    scan resumes after the run. *)
Lemma replaceAll_slug_run c s :
  lowerAlnum c = false ->
  replaceAll nonAlnumRun (c :: s) =
    chr "-" :: replaceAll nonAlnumRun (dropWhile (fun c => negb (lowerAlnum c)) s).
Proof.
  intros A.
  rewrite (replaceAll_hit nonAlnumRun c s
             (length (takeWhile (fun c => negb (lowerAlnum c)) (c :: s))) (lit "-")).
  - simpl takeWhile. rewrite A. simpl. rewrite drop_takeWhile. reflexivity.
  - unfold nonAlnumRun. rewrite A. reflexivity.
Qed.

Lemma slugShaped_cons c s :
  slugShaped (c :: s) =
    (lowerAlnum c || isChar "-" c) && negb (isChar "-" c && startsWith (lit "-") s)
    && slugShaped s.
Proof. reflexivity. Qed.

Lemma slugShaped_replaceAll s : slugShaped (replaceAll nonAlnumRun s) = true.
Proof.
  remember (length s) as n eqn:L. revert s L.
  induction n as [n IH] using lt_wf_ind. intros s L.
  destruct s as [|c s]; [reflexivity|].
  destruct (lowerAlnum c) eqn:A.
  - rewrite replaceAll_slug_alnum by exact A. simpl.
    rewrite A, (lowerAlnum_not_hyphen c A). simpl.
    apply (IH (length s)); [simpl in L; lia|reflexivity].
  - rewrite replaceAll_slug_run by exact A.
    set (rest := dropWhile (fun c => negb (lowerAlnum c)) s).
    assert (R : slugShaped (replaceAll nonAlnumRun rest) = true).
    { apply (IH (length rest)); [|reflexivity].
      pose proof (dropWhile_length (fun c => negb (lowerAlnum c)) s). simpl in L.
      fold rest in H. lia. }
    assert (Hs : startsWith (lit "-") (replaceAll nonAlnumRun rest) = false).
    { destruct rest as [|d rest'] eqn:Er; [reflexivity|].
      apply dropWhile_head in Er. apply negb_false_iff in Er.
      rewrite replaceAll_slug_alnum by exact Er.
      change (startsWith (lit "-") (d :: replaceAll nonAlnumRun rest'))
        with ((45 =? d)%N && true).
      rewrite N.eqb_sym. rewrite andb_true_r. apply (lowerAlnum_not_hyphen d Er). }
    rewrite slugShaped_cons, R, Hs. reflexivity.
Qed.

Lemma slugShaped_fixed x : slugShaped x = true -> replaceAll nonAlnumRun x = x.
Proof.
  induction x as [|c x IH]; [reflexivity|]. simpl. intros S.
  apply andb_prop in S. destruct S as [S Sx]. apply andb_prop in S. destruct S as [Sc Sn].
  specialize (IH Sx).
  destruct (lowerAlnum c) eqn:A.
  - rewrite replaceAll_slug_alnum by exact A. congruence.
  - simpl in Sc. rewrite replaceAll_slug_run by exact A.
    rewrite Sc in Sn. simpl in Sn. apply N.eqb_eq in Sc. subst c.
    destruct x as [|d x]; [reflexivity|].
    simpl in Sn. rewrite andb_true_r in Sn. apply negb_true_iff in Sn.
    simpl in Sx. apply andb_prop in Sx. destruct Sx as [Sx _].
    apply andb_prop in Sx. destruct Sx as [Sd _].
    assert (Ad : lowerAlnum d = true).
    { destruct (lowerAlnum d); [reflexivity|]. simpl in Sd.
      unfold isChar in Sd. rewrite N.eqb_sym in Sd. unfold chr in Sd. simpl in Sd. congruence. }
    simpl dropWhile. rewrite Ad. simpl. rewrite IH. reflexivity.
Qed.

Lemma slugShaped_ascii x :
  slugShaped x = true -> forallb isAscii x = true /\ map asciiLower x = x.
Proof.
  induction x as [|c x IH]; [split; reflexivity|]. simpl. intros S.
  apply andb_prop in S. destruct S as [S Sx]. apply andb_prop in S. destruct S as [Sc _].
  destruct (IH Sx) as [I1 I2]. rewrite I1, I2.
  assert (B : (45 <= c <= 122)%N /\ ~ (65 <= c <= 90)%N).
  { unfold lowerAlnum, isChar, chr in Sc. simpl N_of_ascii in Sc.
    apply orb_prop in Sc. destruct Sc as [Sc|Sc].
    - apply orb_prop in Sc.
      destruct Sc as [Sc|Sc]; apply andb_prop in Sc; destruct Sc as [L U];
        apply N.leb_le in L, U; lia.
    - apply N.eqb_eq in Sc. lia. }
  destruct B as [B1 B2]. split.
  - rewrite andb_true_r. unfold isAscii. apply N.ltb_lt. lia.
  - f_equal. unfold asciiLower.
    destruct ((65 <=? c) && (c <=? 90))%N eqn:E; [|reflexivity].
    apply andb_prop in E. destruct E as [L U]. apply N.leb_le in L, U. lia.
Qed.

Lemma slugShaped_no_double_hyphen x : slugShaped x = true -> includes (lit "--") x = false.
Proof.
  induction x as [|c x IH]; [reflexivity|]. intros S. simpl in S.
  apply andb_prop in S. destruct S as [S Sx]. apply andb_prop in S. destruct S as [_ Sn].
  change (includes (lit "--") (c :: x))
    with (startsWith (lit "--") (c :: x) || includes (lit "--") x).
  rewrite (IH Sx), orb_false_r.
  apply negb_true_iff in Sn.
  change (startsWith (lit "--") (c :: x)) with ((45 =? c)%N && startsWith (lit "-") x).
  unfold isChar, chr in Sn. simpl N_of_ascii in Sn. rewrite N.eqb_sym. exact Sn.
Qed.

(** C9.  Given that [toLowerCase] lower-cases an ASCII string letter by
    letter, the slug of [installToIterm2] is idempotent, never holds two
    adjacent hyphens, and the slug of ["My Theme!! 2"] is ["my-theme-2"]. *)
Theorem slug_idempotent `{Runtime} :
  (forall s, forallb isAscii s = true -> toLowerCase s = map asciiLower s) ->
  (forall themeName,
      slug (slug themeName) = slug themeName
      /\ includes (lit "--") (slug themeName) = false)
  /\ slug (lit "My Theme!! 2") = lit "my-theme-2".
Proof.
  intros Lower. split.
  - intros themeName. unfold slug at 1 3 4.
    pose proof (slugShaped_replaceAll (toLowerCase themeName)) as S.
    fold (slug themeName) in S |- *.
    destruct (slugShaped_ascii _ S) as [A M].
    split.
    + rewrite (Lower _ A), M. apply slugShaped_fixed, S.
    + apply slugShaped_no_double_hyphen, S.
  - unfold slug. rewrite Lower by reflexivity. vm_compute. reflexivity.
Qed.

Lemma slug_idempotent_witness :
  @slug Example.host (@slug Example.host (lit "Solarized  Dark (v2)"))
    = @slug Example.host (lit "Solarized  Dark (v2)")
  /\ @slug Example.host (lit "Solarized  Dark (v2)") = lit "solarized-dark-v2-".
Proof.
  pose proof (@slug_idempotent Example.host (fun s _ => eq_refl)) as [T _].
  split; [apply T|reflexivity].
Defined.

(** ** The JSONC reader *)

Import Jsonc.

(** Comment removal copies a text that has no slash outside its string
    literals: it leaves JSON as it is. *)
Lemma scan_no_slash fuel r inString escaped :
  length r < fuel ->
  slashOnlyInStrings inString escaped r = true ->
  scan fuel r inString escaped = r.
Proof.
  revert r inString escaped. induction fuel as [|fuel IH]; intros r i e L S; [lia|].
  destruct r as [|c r]; [reflexivity|]. simpl in L, S |- *.
  destruct e.
  - f_equal. apply IH; [lia|exact S].
  - destruct (isChar "\" c && i) eqn:B.
    + f_equal. apply IH; [lia|exact S].
    + destruct (c =? DQUOTE)%N eqn:Q.
      * f_equal. apply IH; [lia|exact S].
      * apply andb_prop in S. destruct S as [S1 S2].
        assert (N1 : negb i && isChar "/" c = false).
        { destruct i; [reflexivity|]. simpl in S1 |- *. apply negb_true_iff in S1. exact S1. }
        rewrite N1. simpl. f_equal. apply IH; [lia|exact S2].
Qed.

Lemma stripComments_no_slash s :
  slashOnlyInStrings false false s = true -> stripComments s = s.
Proof. intros S. apply scan_no_slash; [simpl; lia|exact S]. Qed.

(** A string literal goes through comment removal unchanged, whatever it
    holds: slashes and stars inside it start no comment. *)
Lemma scan_string_body body rest fuel escaped :
  stringBody escaped body = true ->
  length body < fuel ->
  scan fuel (body ++ DQUOTE :: rest) true escaped =
    body ++ DQUOTE :: scan (fuel - length body - 1) rest false false.
Proof.
  revert fuel escaped. induction body as [|c body IH]; intros fuel e B L.
  - destruct e; [discriminate|]. destruct fuel as [|fuel]; [simpl in L; lia|].
    simpl. replace (fuel - 0) with fuel by lia. reflexivity.
  - destruct fuel as [|fuel]; [simpl in L; lia|]. simpl in B, L |- *.
    destruct e.
    + f_equal. apply IH; [exact B|lia].
    + destruct (isChar "\" c) eqn:Bs; simpl.
      * f_equal. apply IH; [exact B|lia].
      * apply andb_prop in B. destruct B as [Q B]. apply negb_true_iff in Q.
        rewrite Q. f_equal. apply IH; [exact B|lia].
Qed.

(** Outside a string, a single-line comment goes up to the line break, and
    the line break stays. *)
Lemma scan_line_comment body rest fuel :
  forallb (fun c => negb (c =? NEWLINE)%N) body = true ->
  scan (S (S fuel)) (lit "//" ++ body ++ NEWLINE :: rest) false false =
    NEWLINE :: scan fuel rest false false.
Proof.
  intros B.
  assert (K : skipLine (lit "//" ++ body ++ NEWLINE :: rest) = NEWLINE :: rest).
  { unfold skipLine. simpl.
    induction body as [|c body IH]; [reflexivity|]. simpl in B |- *.
    apply andb_prop in B. destruct B as [-> B]. auto. }
  change (scan (S (S fuel)) (lit "//" ++ body ++ NEWLINE :: rest) false false)
    with (scan (S fuel) (skipLine (lit "//" ++ body ++ NEWLINE :: rest)) false false).
  rewrite K. reflexivity.
Qed.

(** The inner loop of a block comment stops one code unit short of the end:
    when no closer comes, the last code unit of the text is left for the
    main loop. *)
Lemma skipBlock_unterminated r c :
  includes (lit "*/") (r ++ [c]) = false -> skipBlock (r ++ [c]) = [c].
Proof.
  induction r as [|a r IH]; intros I; [reflexivity|].
  change (includes (lit "*/") ((a :: r) ++ [c]))
    with (startsWith (lit "*/") (a :: r ++ [c]) || includes (lit "*/") (r ++ [c])) in I.
  apply orb_false_elim in I. destruct I as [I1 I2].
  simpl app. simpl skipBlock.
  destruct (r ++ [c]) as [|b t] eqn:E; [destruct r; discriminate|].
  assert (G : isChar "*" a && isChar "/" b = false).
  { change (startsWith (lit "*/") (a :: b :: t))
      with ((42 =? a)%N && ((47 =? b)%N && true)) in I1.
    change (isChar "*" a) with (a =? 42)%N. change (isChar "/" b) with (b =? 47)%N.
    rewrite (N.eqb_sym a), (N.eqb_sym b). rewrite andb_true_r in I1. exact I1. }
  rewrite G. apply IH. exact I2.
Qed.

(** C4.  At the text [{} /* abc], where the block comment is never closed,
    the comment scanner returns [{} c]: the last code unit of the document
    is emitted, not discarded. *)
Theorem unterminated_block_comment_leaks :
  stripComments (lit "{} /* abc") = lit "{} c".
Proof. reflexivity. Qed.

Lemma scan_single fuel c inString : scan (S fuel) [c] inString false = [c].
Proof.
  simpl. destruct (isChar "\" c && inString); [destruct fuel; reflexivity|].
  destruct (c =? DQUOTE)%N; [destruct fuel; reflexivity|].
  rewrite !andb_false_r. destruct fuel; reflexivity.
Qed.

(** The same for every unclosed comment of at least one code unit: what
    follows the opener is dropped but for the last code unit of the text,
    which is emitted. *)
Lemma unterminated_block_comment_general body c :
  includes (lit "*/") (body ++ [c]) = false ->
  stripComments (lit "/*" ++ body ++ [c]) = [c].
Proof.
  intros I. unfold stripComments.
  change (scan (S (length (lit "/*" ++ body ++ [c]))) (lit "/*" ++ body ++ [c]) false false)
    with (scan (length (lit "/*" ++ body ++ [c])) (skipBlock (body ++ [c])) false false).
  rewrite skipBlock_unterminated by exact I.
  apply scan_single.
Qed.

(** C1.  The text [{"a": ",}"}] is valid JSON, and the stripping step turns
    it into [{"a": "}"}]: the trailing-comma clean-up removes a comma that
    stands inside a string literal. *)
Theorem stripJsonc_alters_string_literal :
  stripJsonc (doc "{'a': ',}'}") = doc "{'a': '}'}"
  /\ stripJsonc (doc "{'a': ',}'}") <> doc "{'a': ',}'}"
  /\ stripComments (doc "{'a': ',}'}") = doc "{'a': ',}'}".
Proof. split; [reflexivity|]. split; [discriminate|reflexivity]. Qed.

(** ** Theme lookup and the not-found result *)

Lemma returnsOnly_ret {A} (Q : A -> Prop) a : Q a -> returnsOnly Q (ret a).
Proof. intros q w b [= <-]. exact q. Qed.

Lemma returnsOnly_bind {A B} (Q : B -> Prop) (m : IO A) (k : A -> IO B) :
  (forall a, returnsOnly Q (k a)) -> returnsOnly Q (m ≫= k).
Proof.
  intros K w b. unfold mbind, IO_bind.
  destruct (m w) as [[a|e] w'] eqn:E; [apply K|discriminate].
Qed.

Lemma returnsOnly_tryCatch {A} (Q : A -> Prop) (m : IO A) h :
  returnsOnly Q m -> (forall e, returnsOnly Q (h e)) -> returnsOnly Q (tryCatch m h).
Proof.
  intros M K w b. unfold tryCatch. specialize (M w).
  destruct (m w) as [[a|e] w'] eqn:E; [exact (M b)|apply K].
Qed.

Lemma returnsOnly_if {A} (Q : A -> Prop) (c : bool) (m1 m2 : IO A) :
  returnsOnly Q m1 -> returnsOnly Q m2 -> returnsOnly Q (if c then m1 else m2).
Proof. destruct c; auto. Qed.

Lemma succeeded_found p message : succeeded p message <> notFound.
Proof. discriminate. Qed.

(** The other failures start with another letter than [T]. *)
Lemma failed_found p (c : N) message :
  c <> chr "T" -> failed p (c :: message) <> notFound.
Proof. intros C [= _ E]. exact (C E). Qed.

Ltac other_failure :=
  apply returnsOnly_ret; unfold found;
  lazymatch goal with
  | |- failed _ (lit ?s ++ ?e) <> notFound =>
      let c := eval vm_compute in (hd 0%N (lit s)) in
      let t := eval vm_compute in (tl (lit s)) in
      change (lit s ++ e) with (c :: (t ++ e)); apply failed_found; discriminate
  | |- failed _ (lit ?s) <> notFound =>
      let c := eval vm_compute in (hd 0%N (lit s)) in
      let t := eval vm_compute in (tl (lit s)) in
      change (lit s) with (c :: t); apply failed_found; discriminate
  end.

(** One step of an installer that cannot end in the not-found result. *)
Ltac found_step :=
  first
    [ apply returnsOnly_bind; intros ?
    | apply returnsOnly_tryCatch; [|intros ?]
    | apply returnsOnly_if
    | apply returnsOnly_ret; unfold found; apply succeeded_found
    | other_failure ].

Lemma gets_bind {A B} (f : World -> A) (k : A -> IO B) w : (gets f ≫= k) w = k (f w) w.
Proof. reflexivity. Qed.

Lemma bind_ok {A B} (m : IO A) (k : A -> IO B) w a w' :
  m w = (Ok a, w') -> (m ≫= k) w = k a w'.
Proof. intros E. unfold mbind, IO_bind. rewrite E. reflexivity. Qed.

Lemma bind_throw {A B} (m : IO A) (k : A -> IO B) w e w' :
  m w = (Throw e, w') -> (m ≫= k) w = (Throw e, w').
Proof. intros E. unfold mbind, IO_bind. rewrite E. reflexivity. Qed.

(** A directory that is there or can be made is there afterwards; nothing
    else changes. *)
Lemma ensureDir_ok w p :
  dirAvailable w p ->
  exists d, ensureDir p w = (Ok tt, setDirs d w)
            /\ (forall q, q ∈ d -> q ∈ dirs w \/ q = p).
Proof.
  unfold ensureDir, existsSync, mkdirSync, mbind, IO_bind, ret, mret, IO_ret.
  intros [D|D].
  - rewrite D. exists (dirs w). split; [destruct w; reflexivity|auto].
  - destruct (_ || _).
    + exists (dirs w). split; [destruct w; reflexivity|auto].
    + rewrite D. eexists. split; [reflexivity|].
      intros q Q. apply elem_of_union in Q. destruct Q as [Q|Q]; [|auto].
      apply elem_of_singleton in Q. auto.
Qed.

(** Every installer starts with the two lookups. *)
Ltac enter G := rewrite gets_bind; cbv beta; rewrite gets_bind; cbv beta; rewrite G.

Section Lookup.
Context `{Runtime}.

Lemma getThemeColors_none themeId w :
  colorRows themeId w = [] <-> getThemeColors themeId w = None.
Proof.
  unfold getThemeColors. destruct (colorRows themeId w) as [|r rows]; simpl.
  - split; reflexivity.
  - split; discriminate.
Qed.

Lemma installer_not_found install themeId w :
  In install installers -> getThemeColors themeId w = None ->
  install themeId w = (Ok notFound, w).
Proof.
  intros I G. unfold installers in I. simpl in I.
  repeat (destruct I as [<-|I]; [| ]); try contradiction;
    [ unfold installToIterm2 | unfold installToTerminalApp | unfold setTerminalDefault
    | unfold installToWindowsTerminal | unfold installToAlacritty | unfold installToKitty ];
    enter G; reflexivity.
Qed.

Ltac found_installer G w :=
  enter G;
  lazymatch goal with
  | |- fst (?m w) <> _ =>
      let R := fresh "R" in
      assert (R : returnsOnly found m);
      [ repeat first [ found_step
                     | lazymatch goal with
                       | |- returnsOnly _ (match ?x with _ => _ end) => destruct x
                       end ]
      | intros E; exact (R w _ E eq_refl) ]
  end.

Lemma installer_found install themeId w colors :
  In install installers -> getThemeColors themeId w = Some colors ->
  fst (install themeId w) <> Ok notFound.
Proof.
  intros I G. unfold installers in I. simpl in I.
  repeat (destruct I as [<-|I]; [| ]); try contradiction.
  - unfold installToIterm2. found_installer G w.
  - unfold installToTerminalApp. found_installer G w.
  - unfold setTerminalDefault. found_installer G w.
  - unfold installToWindowsTerminal. found_installer G w.
  - unfold installToAlacritty. found_installer G w.
  - unfold installToKitty. found_installer G w.
Qed.

(** A later row replaces an earlier row of the same key. *)
Lemma colorMapOf_snoc rows r :
  colorMapOf (rows ++ [r]) = <[ color_key r := hex_value r ]> (colorMapOf rows).
Proof. unfold colorMapOf. rewrite foldl_app. reflexivity. Qed.

Lemma colorMapOf_absent rows key :
  (forall r, In r rows -> color_key r <> key) -> colorMapOf rows !! key = None.
Proof.
  induction rows as [|r rows IH] using rev_ind; intros A; [apply lookup_empty|].
  rewrite colorMapOf_snoc, lookup_insert_ne.
  - apply IH. intros r' I. apply A, in_or_app. left. exact I.
  - apply A, in_or_app. right. left. reflexivity.
Qed.

(** C2.  Each of the six installers returns the not-found result
    ([success: false], [error: "Theme not found"], [path: ""]) exactly when
    the theme has no colour row.  When it has one, [getThemeColors] returns
    a colour set in which every key that no row gives holds its default, and
    a theme without a name row is called ["Untitled"]. *)
Theorem theme_not_found_iff (themeId : jsstring) (w : World) :
  Forall (fun install : jsstring -> IO InstallResult =>
            fst (install themeId w) = Ok notFound <-> colorRows themeId w = [])
         installers
  /\ (colorRows themeId w <> [] ->
      exists colors,
        getThemeColors themeId w = Some colors
        /\ Forall (fun '(key, field, fallback) =>
                     (forall r, In r (colorRows themeId w) -> color_key r <> key) ->
                     field colors = fallback)
                  colorFields)
  /\ ((forall t, In t (themes w) -> id t <> themeId) ->
      getThemeName themeId w = lit "Untitled").
Proof.
  split; [|split].
  - apply Forall_forall. intros install I. apply list_elem_of_In in I. split.
    + intros E. apply getThemeColors_none.
      destruct (getThemeColors themeId w) as [colors|] eqn:G; [|reflexivity].
      exfalso. exact (installer_found install themeId w colors I G E).
    + intros E. apply getThemeColors_none in E.
      rewrite (installer_not_found install themeId w I E). reflexivity.
  - intros NE. unfold getThemeColors.
    destruct (colorRows themeId w) as [|r rows] eqn:Rows; [contradiction|].
    simpl length. cbv beta iota zeta. simpl Nat.eqb. cbv iota.
    eexists. split; [reflexivity|].
    unfold colorFields.
    repeat (apply Forall_cons; split;
            [ intros A; cbn [background foreground cursor cursorText selection selectionText
                             ansi black red green yellow blue magenta cyan white
                             brightBlack brightRed brightGreen brightYellow brightBlue
                             brightMagenta brightCyan brightWhite];
              unfold getOr; rewrite (colorMapOf_absent _ _ A); reflexivity | ]).
    apply Forall_nil. exact I.
  - intros A. unfold getThemeName.
    assert (F : find (fun t => bool_decide (id t = themeId)) (themes w) = None).
    { induction (themes w) as [|t ts IH]; [reflexivity|]. simpl.
      rewrite bool_decide_eq_false_2 by (apply A; left; reflexivity).
      apply IH. intros t' I. apply A. right. exact I. }
    rewrite F. reflexivity.
Qed.

End Lookup.

(** ** Live-apply *)

Section LiveApply.
Context `{Runtime}.

Ltac run :=
  unfold ret, mbind, IO_bind, mret, IO_ret, tryCatch, existsSync, mkdirSync,
    writeFileSync, execAsync;
  cbn [fs_fault exec_fault setDirs setFiles setExecLog fst snd].

Ltac sim := cbn [fs_fault exec_fault setDirs setFiles setExecLog fst snd].

Ltac done_with_result :=
  cbn [fs_fault exec_fault setDirs setFiles setExecLog fst snd];
  eexists; split; [reflexivity|]; repeat (split; [reflexivity|]); reflexivity.

(** C3.  Take a theme that has colours.  If the profile directory of
    iTerm2 is there or can be made and the profile file can be written,
    [installToIterm2] returns [success: true] with the path of the profile
    and no [error], whether or not the [osascript] call fails; the failure
    only selects the other instructions text.  If the [osascript] call that
    creates the Terminal.app settings set succeeds, [installToTerminalApp]
    returns [success: true] and no [error], whether or not the call that
    applies the settings to the open windows fails. *)
Theorem live_apply_failure_keeps_success (themeId : jsstring) (w : World)
    (colors : ThemeColors) :
  getThemeColors themeId w = Some colors ->
  let themeName := getThemeName themeId w in
  let dir := path_join [app_home w; lit "Library/Application Support/iTerm2/DynamicProfiles"] in
  let profilePath := path_join [dir; slug themeName ++ lit ".json"] in
  let escapedName := escapeName themeName in
  (dirAvailable w dir -> fs_fault w OpWrite profilePath = None ->
   exists r,
     fst (installToIterm2 themeId w) = Ok r
     /\ success r = true /\ error r = None /\ path r = profilePath
     /\ instructions r =
          Some (match exec_fault w (osascript (itermScript themeName)) with
                | None => lit "Theme " ++ quoted themeName ++ lit " applied to iTerm2!"
                | Some _ =>
                    lit "Theme " ++ quoted themeName
                    ++ lit " installed. Open iTerm2 and select it from Profiles menu, or restart iTerm2."
                end))
  /\ (exec_fault w (osascript (createProfileScript escapedName colors)) = None ->
      exists r,
        fst (installToTerminalApp themeId w) = Ok r
        /\ success r = true /\ error r = None /\ path r = []
        /\ instructions r =
             Some (match exec_fault w (osascript (applyScript escapedName)) with
                   | None =>
                       lit "Theme " ++ quoted themeName
                       ++ lit " applied! All open Terminal windows updated."
                   | Some _ =>
                       lit "Theme " ++ quoted themeName
                       ++ lit " saved to Terminal profiles. Select it in Terminal "
                       ++ [ARROW] ++ lit " Settings " ++ [ARROW]
                       ++ lit " Profiles, or open a new window."
                   end)).
Proof.
  intros G themeName dir profilePath escapedName. split.
  - intros D Wr. unfold installToIterm2. enter G.
    rewrite gets_bind. cbv beta. fold themeName. fold dir. fold profilePath.
    destruct (ensureDir_ok w dir D) as (d & E & _). rewrite (bind_ok _ _ _ _ _ E).
    run. rewrite Wr. sim.
    destruct (exec_fault w (osascript (itermScript themeName))); done_with_result.
  - intros Cr. unfold installToTerminalApp. enter G. fold themeName. fold escapedName.
    run. rewrite Cr. sim.
    destruct (exec_fault w (osascript (applyScript escapedName))); done_with_result.
Qed.

End LiveApply.

Lemma live_apply_failure_keeps_success_witness :
  exists r,
    fst (@installToIterm2 Example.host (lit "t1") Example.offline) = Ok r
    /\ success r = true /\ error r = None
    /\ path r = lit "/Users/u/Library/Application Support/iTerm2/DynamicProfiles/mocha.json".
Proof.
  eassert (G : getThemeColors (lit "t1") Example.offline = Some _) by (vm_compute; reflexivity).
  pose proof (@live_apply_failure_keeps_success Example.host _ _ _ G) as T.
  cbv zeta in T. destruct T as [T _].
  destruct (T (or_intror eq_refl) eq_refl) as (r & E & S & Er & P & _).
  exists r. split; [exact E|]. split; [exact S|]. split; [exact Er|].
  rewrite P. vm_compute. reflexivity.
Defined.

(** ** What Terminal.app is sent *)

Ltac run :=
  unfold ret, mbind, IO_bind, mret, IO_ret, tryCatch, execAsync;
  cbn [exec_fault exec_log setExecLog setThemeColors fst snd].

Ltac sim2 := cbn [exec_fault exec_log setExecLog setThemeColors fst snd].

Lemma includes_start p s : startsWith p s = true -> includes p s = true.
Proof. destruct s; simpl; intros ->; reflexivity. Qed.

Lemma includes_here p rest : includes p (p ++ rest) = true.
Proof. apply includes_start, startsWith_app. Qed.

Lemma includes_skip p a rest : includes p rest = true -> includes p (a ++ rest) = true.
Proof.
  intros I. induction a as [|c a IH]; [exact I|].
  cbn [app includes]. rewrite IH. apply orb_true_r.
Qed.

Lemma startsWith_app_l p a b : startsWith p a = true -> startsWith p (a ++ b) = true.
Proof.
  revert a. induction p as [|x p IH]; intros [|y a]; simpl; try congruence.
  intros E. apply andb_prop in E. destruct E as [-> E]. exact (IH a E).
Qed.

Lemma includes_app_l p a b : includes p a = true -> includes p (a ++ b) = true.
Proof.
  induction a as [|c a IH].
  - destruct p; [destruct b; reflexivity|discriminate].
  - cbn [app includes]. intros E. apply orb_prop in E. destruct E as [E|E].
    + pose proof (startsWith_app_l p (c :: a) b E) as S. cbn [app] in S.
      rewrite S. reflexivity.
    + rewrite (IH E). apply orb_true_r.
Qed.

Lemma startsWith_sep p a c b : ~ In c p -> startsWith p (a ++ c :: b) = startsWith p a.
Proof.
  revert a. induction p as [|x p IH]; intros a N; [destruct a; reflexivity|].
  destruct a as [|y a]; cbn [app startsWith].
  - assert ((x =? c)%N = false) as ->; [|reflexivity].
    apply N.eqb_neq. intros ->. apply N. left. reflexivity.
  - rewrite IH; [reflexivity|]. intros I. apply N. right. exact I.
Qed.

(** A pattern holds no match across a code unit that it does not have. *)
Lemma includes_sep p a c b :
  p <> [] -> ~ In c p -> includes p (a ++ c :: b) = includes p a || includes p b.
Proof.
  intros Ne N. induction a as [|y a IH].
  - cbn [app]. change (includes p (c :: b)) with (startsWith p (c :: b) || includes p b).
    pose proof (startsWith_sep p [] c b N) as S. cbn [app] in S.
    rewrite S. destruct p; [congruence|reflexivity].
  - pose proof (startsWith_sep p (y :: a) c b N) as S. cbn [app] in S.
    cbn [app includes]. rewrite IH, S, orb_assoc. reflexivity.
Qed.

Lemma includes_quoted p a n b :
  p <> [] -> ~ In DQUOTE p ->
  includes p (a ++ quoted n ++ b) = includes p a || includes p n || includes p b.
Proof.
  intros Ne N. unfold quoted. cbn [app]. rewrite <- app_assoc. cbn [app].
  rewrite !includes_sep by assumption. apply orb_assoc.
Qed.

Lemma oneLine_app a b : oneLine (a ++ b) = oneLine a && oneLine b.
Proof. apply forallb_app. Qed.

Lemma oneLine_quoted s : oneLine (quoted s) = oneLine s.
Proof.
  unfold quoted, oneLine. cbn [forallb]. rewrite forallb_app. cbn [forallb].
  rewrite !andb_true_r. reflexivity.
Qed.

Lemma uint_oneLine d : oneLine (lit (NilEmpty.string_of_uint d)) = true.
Proof. induction d; try reflexivity; exact IHd. Qed.

Lemma numberToString_oneLine n : oneLine (numberToString n) = true.
Proof.
  destruct n as [z|]; [|reflexivity]. unfold numberToString, NilZero.string_of_int.
  destruct (Z.to_int z) as [d|d]; unfold NilZero.string_of_uint;
    destruct d; try reflexivity; apply (uint_oneLine _).
Qed.

Lemma hexToRGB_oneLine hex : oneLine (hexToRGB hex) = true.
Proof.
  unfold hexToRGB. rewrite !oneLine_app, !numberToString_oneLine. reflexivity.
Qed.

Lemma lines_nl rest : lines [] (nl ++ rest) = [] :: lines [] rest.
Proof. reflexivity. Qed.

Lemma lines_step current a rest :
  oneLine a = true ->
  lines current (a ++ NEWLINE :: rest) = (rev current ++ a) :: lines [] rest.
Proof.
  revert current. induction a as [|c a IH]; intros current O.
  - cbn [app lines]. rewrite N.eqb_refl, app_nil_r. reflexivity.
  - cbn [oneLine forallb] in O. apply andb_prop in O. destruct O as [C O].
    cbn [app lines]. apply negb_true_iff in C. rewrite C, (IH _ O).
    cbn [rev]. rewrite <- app_assoc. reflexivity.
Qed.

Lemma lines_ln a rest : oneLine a = true -> lines [] (ln a ++ rest) = a :: lines [] rest.
Proof.
  intros O. unfold ln, nl. rewrite <- app_assoc. cbn [app].
  exact (lines_step [] a rest O).
Qed.

Lemma lines_end a : oneLine a = true -> lines [] a = [a].
Proof.
  intros O. assert (G : forall current, lines current a = [rev current ++ a]); [|apply G].
  induction a as [|c a IH]; intros current.
  - cbn [lines]. rewrite app_nil_r. reflexivity.
  - cbn [oneLine forallb] in O. apply andb_prop in O. destruct O as [C O].
    cbn [lines]. apply negb_true_iff in C. rewrite C, (IH O).
    cbn [rev]. rewrite <- app_assoc. reflexivity.
Qed.

Lemma color_word : lit " color " <> [] /\ ~ In DQUOTE (lit " color ").
Proof.
  split; [discriminate|]. cbv. intros I.
  repeat (destruct I as [I|I]; [discriminate I|]). exact I.
Qed.

Lemma filter_keep {A} (f : A -> bool) x l r :
  f x = true -> List.filter f l = r -> List.filter f (x :: l) = x :: r.
Proof. intros E <-. simpl. rewrite E. reflexivity. Qed.

Lemma filter_drop {A} (f : A -> bool) x l r :
  f x = false -> List.filter f l = r -> List.filter f (x :: l) = r.
Proof. intros E <-. simpl. rewrite E. reflexivity. Qed.

Section ColourLines.
Variables (escapedName : jsstring).
Hypothesis (One : oneLine escapedName = true).
Hypothesis (Plain : includes (lit " color ") escapedName = false).

Ltac one_line :=
  rewrite ?oneLine_app, ?oneLine_quoted, ?hexToRGB_oneLine, ?One; reflexivity.

(** A line without the word, a line with it. *)
Ltac drop :=
  apply filter_drop;
  [ first [ rewrite (includes_quoted _ _ _ _ (proj1 color_word) (proj2 color_word))
          | rewrite <- (app_nil_r (quoted escapedName)),
              (includes_quoted _ _ _ _ (proj1 color_word) (proj2 color_word))
          | idtac ];
    rewrite ?Plain; vm_compute; reflexivity | ].

Ltac keep := apply filter_keep; [apply includes_app_l; vm_compute; reflexivity|].

Lemma colourLines_createProfileScript colors :
  colourLines (createProfileScript escapedName colors)
  = [ lit "      set background color of targetSettings to " ++ hexToRGB (background colors);
      lit "      set normal text color of targetSettings to " ++ hexToRGB (foreground colors);
      lit "      set cursor color of targetSettings to " ++ hexToRGB (cursor colors) ].
Proof using One Plain.
  unfold colourLines, createProfileScript.
  rewrite lines_nl.
  do 4 (rewrite lines_ln by one_line). rewrite lines_nl.
  do 4 (rewrite lines_ln by one_line). rewrite lines_nl.
  do 4 (rewrite lines_ln by one_line). rewrite lines_end by reflexivity.
  do 7 drop. do 3 keep. do 6 drop. reflexivity.
Qed.

Lemma colourLines_defaultScript colors :
  colourLines (defaultScript escapedName colors)
  = [ lit "        set background color to " ++ hexToRGB (background colors);
      lit "        set normal text color to " ++ hexToRGB (foreground colors);
      lit "        set cursor color to " ++ hexToRGB (cursor colors) ].
Proof using One Plain.
  unfold colourLines, defaultScript.
  rewrite lines_nl.
  do 5 (rewrite lines_ln by one_line). rewrite lines_nl.
  do 5 (rewrite lines_ln by one_line). rewrite lines_nl.
  do 2 (rewrite lines_ln by one_line). rewrite lines_nl.
  do 3 (rewrite lines_ln by one_line). rewrite lines_end by reflexivity.
  do 8 drop. do 3 keep. do 9 drop. reflexivity.
Qed.

Lemma colourLines_applyScript : colourLines (applyScript escapedName) = [].
Proof using One Plain.
  unfold colourLines, applyScript.
  rewrite lines_nl.
  do 10 (rewrite lines_ln by one_line).
  rewrite lines_end by reflexivity.
  do 12 drop. reflexivity.
Qed.

End ColourLines.

Ltac found_line := repeat first [apply includes_here | apply includes_skip].

(** C10.  The two Terminal.app scripts set the background colour, the
    colour of normal text and the cursor colour of the settings set, each to
    the 16-bit triple that [hexToRGB] makes of the theme's background,
    foreground and cursor: the script of [installToTerminalApp] holds the
    three lines [set ... color of targetSettings to {r, g, b}], the script
    of [setTerminalDefault] the three lines [set ... color to {r, g, b}],
    and when the escaped name is one line without the word [color] these are
    the only lines of either script that hold the word.  The commands run
    are the profile script, then, when that one succeeded, the apply script,
    which holds no colour; [setTerminalDefault] runs its script alone.  No
    other colour of the theme is sent: two colour tables that give the same
    three colours make both functions return the same result and run the
    same commands, whatever the other nineteen colours are. *)
Theorem terminal_app_sends_three_colors (themeId : jsstring) (w : World)
    (rows' : list ColorRow) (colors colors' : ThemeColors) :
  getThemeColors themeId w = Some colors ->
  getThemeColors themeId (setThemeColors rows' w) = Some colors' ->
  background colors' = background colors ->
  foreground colors' = foreground colors ->
  cursor colors' = cursor colors ->
  let w' := setThemeColors rows' w in
  let escapedName := escapeName (getThemeName themeId w) in
  let profileScript := createProfileScript escapedName colors in
  let appleScript := defaultScript escapedName colors in
  let create := osascript profileScript in
  let profileLines :=
    [ lit "      set background color of targetSettings to " ++ hexToRGB (background colors);
      lit "      set normal text color of targetSettings to " ++ hexToRGB (foreground colors);
      lit "      set cursor color of targetSettings to " ++ hexToRGB (cursor colors) ] in
  let defaultLines :=
    [ lit "        set background color to " ++ hexToRGB (background colors);
      lit "        set normal text color to " ++ hexToRGB (foreground colors);
      lit "        set cursor color to " ++ hexToRGB (cursor colors) ] in
  (fst (installToTerminalApp themeId w') = fst (installToTerminalApp themeId w)
   /\ exec_log (snd (installToTerminalApp themeId w'))
      = exec_log (snd (installToTerminalApp themeId w)))
  /\ (fst (setTerminalDefault themeId w') = fst (setTerminalDefault themeId w)
      /\ exec_log (snd (setTerminalDefault themeId w'))
         = exec_log (snd (setTerminalDefault themeId w)))
  /\ exec_log (snd (installToTerminalApp themeId w))
     = exec_log w ++ create ::
         match exec_fault w create with
         | None => [osascript (applyScript escapedName)]
         | Some _ => []
         end
  /\ exec_log (snd (setTerminalDefault themeId w))
     = exec_log w ++ [osascript appleScript]
  /\ Forall (fun line => includes (ln line) profileScript = true) profileLines
  /\ Forall (fun line => includes (ln line) appleScript = true) defaultLines
  /\ (oneLine escapedName = true ->
      includes (lit " color ") escapedName = false ->
      colourLines profileScript = profileLines
      /\ colourLines appleScript = defaultLines
      /\ colourLines (applyScript escapedName) = []).
Proof.
  intros G G' Eb Ef Ec w' escapedName profileScript appleScript create
    profileLines defaultLines.
  assert (S1 : createProfileScript escapedName colors' = profileScript).
  { unfold profileScript, createProfileScript. rewrite Eb, Ef, Ec. reflexivity. }
  assert (S2 : defaultScript escapedName colors' = appleScript).
  { unfold appleScript, defaultScript. rewrite Eb, Ef, Ec. reflexivity. }
  assert (N : getThemeName themeId w' = getThemeName themeId w) by reflexivity.
  subst w'.
  split; [|split; [|split; [|split; [|split; [|split]]]]].
  - unfold installToTerminalApp. repeat (rewrite gets_bind; cbv beta).
    rewrite G, G', N. fold escapedName. rewrite S1. fold profileScript. fold create. run.
    destruct (exec_fault w create); sim2;
      [|destruct (exec_fault w (osascript (applyScript escapedName))); sim2];
      split; reflexivity.
  - unfold setTerminalDefault. repeat (rewrite gets_bind; cbv beta).
    rewrite G, G', N. fold escapedName. rewrite S2. fold appleScript. run.
    destruct (exec_fault w (osascript appleScript)); sim2;
      split; reflexivity.
  - unfold installToTerminalApp. enter G. fold escapedName. fold profileScript.
    fold create. run.
    destruct (exec_fault w create); sim2;
      [|destruct (exec_fault w (osascript (applyScript escapedName))); sim2];
      rewrite <- ?app_assoc; reflexivity.
  - unfold setTerminalDefault. enter G. fold escapedName. fold appleScript. run.
    destruct (exec_fault w (osascript appleScript)); sim2;
      reflexivity.
  - unfold profileLines, profileScript, createProfileScript.
    repeat (apply Forall_cons; split; [found_line|]). apply Forall_nil. exact I.
  - unfold defaultLines, appleScript, defaultScript.
    repeat (apply Forall_cons; split; [found_line|]). apply Forall_nil. exact I.
  - intros One Plain. split; [|split].
    + apply colourLines_createProfileScript; assumption.
    + apply colourLines_defaultScript; assumption.
    + apply colourLines_applyScript; assumption.
Qed.

Lemma terminal_app_sends_three_colors_witness :
  let w := Example.world in
  let w' := setThemeColors Example.catppuccinFull Example.world in
  getThemeColors (lit "t1") w' <> getThemeColors (lit "t1") w
  /\ (fst (installToTerminalApp (lit "t1") w')
      = fst (installToTerminalApp (lit "t1") w)
      /\ exec_log (snd (installToTerminalApp (lit "t1") w'))
         = exec_log (snd (installToTerminalApp (lit "t1") w)))
  /\ colourLines (createProfileScript (lit "Mocha") Example.mocha)
     = [ lit "      set background color of targetSettings to {7710, 7710, 11822}";
         lit "      set normal text color of targetSettings to {52685, 54998, 62708}";
         lit "      set cursor color of targetSettings to {62965, 57568, 56540}" ].
Proof.
  cbv zeta.
  eassert (G : getThemeColors (lit "t1") Example.world = Some _) by (vm_compute; reflexivity).
  eassert (G' : getThemeColors (lit "t1") (setThemeColors Example.catppuccinFull Example.world)
                = Some _) by (vm_compute; reflexivity).
  split.
  - rewrite G, G'. vm_compute. discriminate.
  - pose proof (terminal_app_sends_three_colors _ _ _ _ _ G G'
                  eq_refl eq_refl eq_refl) as T.
    cbv zeta in T. destruct T as (T & _ & _ & _ & _ & _ & L).
    split; [exact T|].
    destruct (L eq_refl eq_refl) as [L1 _].
    etransitivity; [|etransitivity; [exact L1|]]; vm_compute; reflexivity.
Defined.

(** ** The scheme list of Windows Terminal *)

Lemma lookup_store_same key v ms : lookupMember key (storeMember key v ms) = v.
Proof.
  induction ms as [|[k v0] ms IH]; simpl.
  - rewrite bool_decide_eq_true_2 by reflexivity. reflexivity.
  - destruct (bool_decide (k = key)) eqn:E; simpl; rewrite E; [reflexivity|exact IH].
Qed.

Lemma lookup_store_other key key' v ms :
  key <> key' -> lookupMember key' (storeMember key v ms) = lookupMember key' ms.
Proof.
  intros NE. induction ms as [|[k v0] ms IH]; simpl.
  - rewrite bool_decide_eq_false_2 by exact NE. reflexivity.
  - destruct (bool_decide (k = key)) eqn:E; simpl.
    + apply bool_decide_eq_true_1 in E. subst k.
      rewrite !bool_decide_eq_false_2 by exact NE. reflexivity.
    + destruct (bool_decide (k = key')); [reflexivity|exact IH].
Qed.

(** The filter, when no entry makes the callback throw. *)
Lemma filterItems_ok themeName items kept :
  filterItems (fun s => n ← getMember (lit "name") s; mret (differsFrom themeName n)) items
    = Ok kept ->
  kept = List.filter (otherName themeName) items.
Proof.
  revert kept. induction items as [|s items IH]; intros kept; simpl.
  - intros [= <-]. reflexivity.
  - unfold otherName at 1.
    destruct s; simpl; try discriminate;
      (destruct (filterItems _ items) as [rest|e]; simpl; [|discriminate];
       intros [= <-]; rewrite (IH rest eq_refl); reflexivity).
Qed.

Lemma otherName_names themeName items :
  ~ In (VStr themeName) (map nameOf (List.filter (otherName themeName) items)).
Proof.
  intros I. apply in_map_iff in I. destruct I as (s & E & I).
  apply filter_In in I. destruct I as [_ F]. unfold otherName in F. rewrite E in F.
  simpl in F. rewrite bool_decide_eq_true_2 in F by reflexivity. discriminate.
Qed.

Lemma NoDup_map_filter {A B} (f : A -> B) (p : A -> bool) l :
  NoDup (map f l) -> NoDup (map f (List.filter p l)).
Proof.
  induction l as [|a l IH]; simpl; intros N; [constructor|].
  apply NoDup_cons in N. destruct N as [Na N].
  destruct (p a); simpl; [|auto].
  apply NoDup_cons. split; [|auto].
  intros I. apply Na. apply list_elem_of_In in I. apply list_elem_of_In.
  apply in_map_iff in I. destruct I as (x & E & I). apply filter_In in I.
  apply in_map_iff. exists x. tauto.
Qed.

Lemma names_stay_distinct themeName scheme items :
  nameOf scheme = VStr themeName ->
  NoDup (map nameOf items) ->
  NoDup (map nameOf (List.filter (otherName themeName) items ++ [scheme])).
Proof.
  intros Sn N. rewrite map_app. change (map nameOf [scheme]) with [nameOf scheme]. rewrite Sn.
  apply NoDup_app. split; [apply NoDup_map_filter, N|]. split.
  - intros x I [<-|[]]%list_elem_of_In. apply list_elem_of_In in I.
    exact (otherName_names themeName items I).
  - apply NoDup_singleton.
Qed.

Lemma lookup_head key v ms : lookupMember key ((key, v) :: ms) = v.
Proof. simpl. rewrite bool_decide_eq_true_2 by reflexivity. reflexivity. Qed.

Lemma store_head key v v0 ms : storeMember key v ((key, v0) :: ms) = (key, v) :: ms.
Proof. simpl. rewrite bool_decide_eq_true_2 by reflexivity. reflexivity. Qed.

Lemma store_nil key v : storeMember key v [] = [(key, v)].
Proof. reflexivity. Qed.

Ltac keys :=
  rewrite ?lookup_head, ?store_head, ?store_nil, ?lookup_store_same,
    ?lookup_store_other by discriminate.

Ltac eval_members :=
  repeat (cbn [getMember setMember updateMember mbind mret Outcome_bind Outcome_ret
               arrayFilter arrayPush typeError filterItems truthyValue isArray];
          keys).

Lemma replaceScheme_object themeName scheme ms s' :
  replaceScheme themeName scheme (VObj ms) = Ok s' ->
  exists ms',
    s' = VObj ms'
    /\ lookupMember (lit "schemes") ms'
       = VArr (List.filter (otherName themeName) (schemesOf (VObj ms)) ++ [scheme]) []
    /\ lookupMember (lit "profiles") ms' = lookupMember (lit "profiles") ms.
Proof.
  unfold replaceScheme, schemesOf, writtenMember.
  cbn [getMember mbind Outcome_bind].
  destruct (lookupMember (lit "schemes") ms) as [| |b|x|s|items named|members] eqn:Sc;
    cbn [truthyValue];
    try match goal with |- context [if ?c then _ else _] => destruct c end;
    eval_members; rewrite ?Sc; eval_members; try discriminate;
    try (intros [= <-]; eexists; split; [reflexivity|]; keys; split; reflexivity).
  destruct (filterItems _ items) as [kept|e] eqn:F; eval_members; [|discriminate].
  apply filterItems_ok in F. subst kept.
  intros [= <-]. eexists. split; [reflexivity|]. keys. split; reflexivity.
Qed.

Ltac finish_defaults :=
  intros [= <-]; eexists; (split; [reflexivity|]); keys; (split; [reflexivity|]);
  intros A1 A2; try discriminate A1;
  cbn [writtenMember isArray] in A2;
  try match goal with D : lookupMember (lit "defaults") _ = _ |- _ => rewrite D in A2 end;
  try discriminate A2;
  unfold plainSettings, colorSchemeOf, writtenMember; keys; cbn [isArray];
  (split; [split; [eexists; reflexivity|split; reflexivity]|reflexivity]).

Lemma applyToDefaults_object themeName ms s' :
  applyToDefaults themeName (VObj ms) = Ok s' ->
  exists ms',
    s' = VObj ms'
    /\ lookupMember (lit "schemes") ms' = lookupMember (lit "schemes") ms
    /\ (isArray (lookupMember (lit "profiles") ms) = false ->
        isArray (writtenMember "defaults" (lookupMember (lit "profiles") ms)) = false ->
        plainSettings s' /\ colorSchemeOf s' = VStr themeName).
Proof.
  unfold applyToDefaults.
  cbn [getMember mbind Outcome_bind].
  destruct (lookupMember (lit "profiles") ms) as [| |b|x|s|items named|pm] eqn:P;
    cbn [truthyValue];
    try match goal with |- context [if ?c then _ else _] => destruct c end;
    eval_members; rewrite ?P; eval_members; try discriminate;
    try finish_defaults.
  - destruct (lookupMember (lit "defaults") named) as [| |b|x|s|ditems dnamed|dm] eqn:D;
      cbn [truthyValue];
      try match goal with |- context [if ?c then _ else _] => destruct c end;
      eval_members; rewrite ?P; eval_members; rewrite ?D; eval_members;
      try discriminate; try finish_defaults.
  - destruct (lookupMember (lit "defaults") pm) as [| |b|x|s|ditems dnamed|dm] eqn:D;
      cbn [truthyValue];
      try match goal with |- context [if ?c then _ else _] => destruct c end;
      eval_members; rewrite ?P; eval_members; rewrite ?D; eval_members;
      try discriminate; try finish_defaults.
Qed.

Lemma windowsScheme_name themeName colors :
  nameOf (windowsScheme themeName colors) = VStr themeName.
Proof. unfold windowsScheme, nameOf. apply lookup_head. Qed.

(** One install on a document that is an object. *)
Lemma updateSettings_object themeName scheme ms settings' :
  updateSettings themeName scheme (VObj ms) = Ok settings' ->
  schemesOf settings' = List.filter (otherName themeName) (schemesOf (VObj ms)) ++ [scheme]
  /\ (plainSettings (VObj ms) ->
      plainSettings settings' /\ colorSchemeOf settings' = VStr themeName).
Proof.
  unfold updateSettings. cbn [mbind Outcome_bind].
  destruct (replaceScheme themeName scheme (VObj ms)) as [s1|e] eqn:R; [|discriminate].
  destruct (replaceScheme_object _ _ _ _ R) as (ms1 & -> & Sc & Pr).
  intros A. destruct (applyToDefaults_object _ _ _ A) as (ms' & -> & Sc' & Pl).
  split.
  - unfold schemesOf at 1, writtenMember. rewrite Sc', Sc. reflexivity.
  - intros (_ & P1 & P2). apply Pl.
    + rewrite Pr. exact P1.
    + rewrite Pr. exact P2.
Qed.

(** Within one call the filter does what line 469 says: on a document
    whose schemes have pairwise distinct names, the update leaves pairwise
    distinct names. *)
Lemma updateSettings_keeps_names_distinct themeName colors ms settings' :
  updateSettings themeName (windowsScheme themeName colors) (VObj ms) = Ok settings' ->
  NoDup (schemeNames (VObj ms)) ->
  NoDup (schemeNames settings').
Proof.
  intros U N. destruct (updateSettings_object _ _ _ _ U) as [Sc _].
  unfold schemeNames. rewrite Sc.
  apply names_stay_distinct; [apply windowsScheme_name|exact N].
Qed.

(** C6.  Three installs of the theme named [a,}], one after the other, on
    a machine whose settings file holds the empty document: every call
    tells success; the file holds the scheme [a,}] after the first call,
    the schemes [a}] and [a,}] after the second, and the schemes [a}], [a}]
    and [a,}] after the third, two of one name.  Each call reads the file
    through the trailing-comma expression of line 425, which takes the comma
    out of the name that the call before wrote, so the filter of line 469
    does not find the scheme that it is to replace. *)
Theorem windows_terminal_reinstall_duplicates :
  let install := @installToWindowsTerminal Json.host (lit "t1") in
  let w1 := snd (install oddName) in
  let w2 := snd (install w1) in
  let w3 := snd (install w2) in
  getThemeName (lit "t1") oddName = lit "a,}"
  /\ files oddName !! stablePath = Some (lit "{}")
  /\ succeeds (install oddName) && succeeds (install w1) && succeeds (install w2) = true
  /\ schemeNames <$> documentAt w1 stablePath = Some [VStr (lit "a,}")]
  /\ schemeNames <$> documentAt w2 stablePath = Some [VStr (lit "a}"); VStr (lit "a,}")]
  /\ exists settings,
       documentAt w3 stablePath = Some settings
       /\ schemeNames settings = [VStr (lit "a}"); VStr (lit "a}"); VStr (lit "a,}")]
       /\ ~ NoDup (schemeNames settings)
       /\ colorSchemeOf settings = VStr (lit "a,}").
Proof.
  cbv zeta. repeat (split; [vm_compute; reflexivity|]).
  eexists. split; [vm_compute; reflexivity|].
  split; [vm_compute; reflexivity|]. split; [|vm_compute; reflexivity].
  intros N. apply NoDup_cons in N. destruct N as [N _]. apply N.
  apply list_elem_of_In. left. reflexivity.
Qed.

(** Schemes of one name that the document holds already are not touched
    by the install of a theme of another name: both are still there. *)
Lemma windows_terminal_duplicates_survive :
  exists settings',
    updateSettings (lit "Mocha") (windowsScheme (lit "Mocha") Example.mocha) twoCampbells
      = Ok settings'
    /\ schemeNames settings'
       = [VStr (lit "Campbell"); VStr (lit "Campbell"); VStr (lit "Mocha")]
    /\ ~ NoDup (schemeNames settings').
Proof.
  eexists. split; [vm_compute; reflexivity|]. split; [vm_compute; reflexivity|].
  intros N. apply NoDup_cons in N. destruct N as [N _]. apply N.
  apply list_elem_of_In. left. reflexivity.
Qed.

(** When [profiles] is an array, as in the settings of early releases,
    the update succeeds, the member [defaults] is set on the array, and the
    document that [JSON.stringify] writes has no
    [profiles.defaults.colorScheme]. *)
Lemma profiles_array_keeps_no_color_scheme :
  exists settings',
    updateSettings (lit "Mocha") (windowsScheme (lit "Mocha") Example.mocha)
      (VObj [ (lit "profiles", VArr [] []) ]) = Ok settings'
    /\ colorSchemeOf settings' = VUndefined.
Proof. eexists. split; vm_compute; reflexivity. Qed.

Section WindowsTerminalInstall.
Context `{Runtime}.

(** When the settings of the stable release are there, can be read, parse
    after stripping, and can be written, the installer writes the updated
    document with an indent of four. *)
Lemma installToWindowsTerminal_writes themeId w colors content settings settings' :
  getThemeColors themeId w = Some colors ->
  let p := stableSettingsPath w in
  let themeName := getThemeName themeId w in
  truthy p = true ->
  files w !! p = Some content ->
  fs_fault w OpRead p = None ->
  JSON_parse (Jsonc.stripJsonc content) = inr settings ->
  updateSettings themeName (windowsScheme themeName colors) settings = Ok settings' ->
  fs_fault w OpWrite p = None ->
  installToWindowsTerminal themeId w
  = (Ok (succeeded p
           (lit "Theme " ++ quoted themeName
            ++ lit " applied to Windows Terminal! All open windows updated.")),
     setFiles (<[ p := JSON_stringify settings' 4 ]> (files w)) w).
Proof.
  intros G p themeName Tp F Rd Pa Up Wr.
  unfold installToWindowsTerminal. enter G.
  repeat (rewrite gets_bind; cbv beta). fold p. fold themeName.
  unfold ret, mbind, IO_bind, mret, IO_ret, tryCatch, existsSync, readFileSync,
    writeFileSync, liftOutcome.
  fold (stableSettingsPath w). fold p.
  rewrite F. rewrite bool_decide_eq_true_2 by (eexists; reflexivity).
  cbn [orb]. rewrite Tp. cbn [negb]. rewrite Rd, F, Pa, Up.
  cbn [fs_fault files setFiles]. rewrite Wr. reflexivity.
Qed.

End WindowsTerminalInstall.

(** ** The configuration file of Alacritty *)

Import Alacritty.

(** A match that reaches into what follows holds the first code unit of
    what follows. *)
Lemma startsWith_within p a c s :
  ~ In c p -> startsWith p (a ++ c :: s) = true -> startsWith p a = true.
Proof.
  revert a. induction p as [|x p IH]; intros a NI; [reflexivity|].
  destruct a as [|y a]; simpl.
  - intros E. apply andb_prop in E. destruct E as [E _]. apply N.eqb_eq in E.
    exfalso. apply NI. left. exact E.
  - intros E. apply andb_prop in E. destruct E as [-> E]. simpl.
    apply IH; [|exact E]. intros I. apply NI. right. exact I.
Qed.

Lemma includes_cons p c s : includes p (c :: s) = startsWith p (c :: s) || includes p s.
Proof. reflexivity. Qed.

Lemma includes_false_app p a b :
  includes p (a ++ b) = false -> includes p a = false /\ includes p b = false.
Proof.
  induction a as [|c a IH]; simpl app.
  - intros E. split; [|exact E].
    destruct p as [|x p]; [destruct b; discriminate E|reflexivity].
  - rewrite !includes_cons. intros E. apply orb_false_elim in E. destruct E as [E1 E2].
    destruct (IH E2) as [I1 I2]. split; [|exact I2]. rewrite I1, orb_false_r.
    destruct (startsWith p (c :: a)) eqn:S; [|reflexivity].
    pose proof (startsWith_app_l _ _ b S) as S'. simpl app in S'. congruence.
Qed.

Lemma includes_false_start p a1 a2 :
  includes p (a1 ++ a2) = false -> startsWith p a2 = false.
Proof.
  intros E. apply includes_false_app in E. destruct E as [_ E].
  destruct a2 as [|c a2]; simpl in E; apply orb_false_elim in E; tauto.
Qed.

Lemma noStart_nil p s : noStart p [] s.
Proof. intros a1 c a2 E. destruct a1; discriminate. Qed.

Lemma noStart_app p a b s : noStart p a (b ++ s) -> noStart p b s -> noStart p (a ++ b) s.
Proof.
  intros A B a1 c a2 E.
  revert a1 E A. induction a as [|x a IH]; intros a1 E A.
  - apply (B a1 c a2 E).
  - destruct a1 as [|y a1].
    + simpl in E. injection E as Ex Ea. subst c a2. rewrite <- app_assoc.
      apply (A [] x a). reflexivity.
    + simpl in E. injection E as Ey E. subst y. apply (IH a1 E).
      intros b1 d b2 Eb. apply (A (x :: b1) d b2). rewrite Eb. reflexivity.
Qed.

(** A stretch that does not include the pattern, followed by a code unit
    that the pattern does not hold. *)
Lemma noStart_includes p a c s :
  includes p a = false -> ~ In c p -> noStart p a (c :: s).
Proof.
  intros I NI a1 d a2 E. subst a.
  destruct (startsWith p (d :: a2 ++ c :: s)) eqn:S; [|reflexivity].
  apply (startsWith_within p (d :: a2) c s NI) in S.
  rewrite (includes_false_start _ _ _ I) in S. discriminate.
Qed.

Lemma noStart_includes_end p a : includes p a = false -> noStart p a [].
Proof.
  intros I a1 d a2 E. subst a. rewrite app_nil_r.
  apply (includes_false_start _ _ _ I).
Qed.

(** A stretch without the first code unit of the pattern. *)
Lemma noStart_first x p a s :
  forallb (fun c => negb (c =? x)%N) a = true -> noStart (x :: p) a s.
Proof.
  intros F a1 c a2 E. subst a. rewrite forallb_app in F.
  apply andb_prop in F. destruct F as [_ F]. simpl in F.
  apply andb_prop in F. destruct F as [F _]. apply negb_true_iff in F.
  simpl. rewrite N.eqb_sym, F. reflexivity.
Qed.

(** Where no match starts, a section pass copies. *)
Lemma colorSection_copy header a s :
  noStart header a s ->
  replaceAll (colorSection header) (a ++ s) = a ++ replaceAll (colorSection header) s.
Proof.
  intros NS. apply replaceAll_copy. intros a1 c a2 E.
  unfold colorSection. rewrite (NS a1 c a2 E). reflexivity.
Qed.

Lemma generatedHeader_copy a s :
  noStart themeLine a s ->
  replaceAll generatedHeader (a ++ s) = a ++ replaceAll generatedHeader s.
Proof.
  intros NS. apply replaceAll_copy. intros a1 c a2 E.
  unfold generatedHeader. rewrite (NS a1 c a2 E). reflexivity.
Qed.

Lemma replaceAll_drop m c s n r :
  m (c :: s) = Some (S n, r) ->
  replaceAll m (c :: s) = r ++ replaceAll m (drop (S n) (c :: s)).
Proof. intros E. rewrite (replaceAll_hit m c s (S n) r E). reflexivity. Qed.

(** A section goes: its header, its body up to the next bracket. *)
Lemma colorSection_removed header body rest :
  0 < length header ->
  noBracket body = true ->
  (rest = [] \/ exists rest', rest = chr "[" :: rest') ->
  replaceAll (colorSection header) (header ++ body ++ rest)
  = replaceAll (colorSection header) rest.
Proof.
  intros L B R.
  assert (T : takeWhile (fun c => negb (isChar "[" c)) (body ++ rest) = body).
  { destruct R as [->|[rest' ->]].
    - apply takeWhile_app_end. exact B.
    - apply takeWhile_app_stop; [exact B|reflexivity]. }
  destruct header as [|h header]; [simpl in L; lia|].
  change ((h :: header) ++ body ++ rest) with (h :: header ++ body ++ rest).
  rewrite (replaceAll_drop (colorSection (h :: header)) h (header ++ body ++ rest)
             (length header + length body) []).
  - change (h :: header ++ body ++ rest) with ((h :: header) ++ body ++ rest).
    replace (S (length header + length body)) with (length (h :: header) + length body)
      by reflexivity.
    rewrite <- drop_drop, drop_app_length, drop_app_length. reflexivity.
  - unfold colorSection.
    change (h :: header ++ body ++ rest) with ((h :: header) ++ body ++ rest).
    rewrite startsWith_app, drop_app_length, T. reflexivity.
Qed.

Lemma tomlContent_sections themeName colors :
  tomlContent themeName colors = headerBlock themeName ++ sectionsText (sectionBodies colors).
Proof.
  unfold tomlContent, headerBlock, sectionBodies, sectionsText, ln.
  repeat rewrite <- app_assoc. rewrite app_nil_r. reflexivity.
Qed.

Lemma noBracket_app a b : noBracket (a ++ b) = noBracket a && noBracket b.
Proof. apply forallb_app. Qed.

Lemma noBracket_entry key v : noBracket (lit key) = true -> noBracket v = true ->
  noBracket (entry key v) = true.
Proof.
  intros K V. unfold entry, ln, quoted.
  change (DQUOTE :: v ++ [DQUOTE]) with ([DQUOTE] ++ v ++ [DQUOTE]).
  rewrite !noBracket_app, K, V. reflexivity.
Qed.

(** The bodies of the generated sections hold no bracket. *)
Lemma sectionBodies_noBracket colors :
  plainColors colors ->
  Forall (fun '(_, body) => noBracket body = true) (sectionBodies colors).
Proof.
  unfold plainColors, colorFields. intros P.
  repeat match goal with
         | H : Forall _ (_ :: _) |- _ => apply Forall_cons in H; destruct H as [? H]
         end.
  unfold sectionBodies.
  repeat (apply Forall_cons; split;
          [ rewrite ?noBracket_app;
            repeat (rewrite noBracket_entry by (reflexivity || assumption));
            reflexivity | ]).
  apply Forall_nil. exact I.
Qed.

Lemma noBracket_noStart p a s : noBracket a = true -> noStart (chr "[" :: p) a s.
Proof. apply noStart_first. Qed.

Lemma sectionsText_bracket sections header :
  Forall (otherSection header) sections ->
  sectionsText sections = [] \/ exists rest', sectionsText sections = chr "[" :: rest'.
Proof.
  destruct sections as [|[h body] sections]; [left; reflexivity|].
  intros F. apply Forall_cons in F. destruct F as [((t & -> & _) & _) _].
  right. eexists. reflexivity.
Qed.

Lemma sectionsText_noStart p sections :
  Forall (otherSection (chr "[" :: p)) sections ->
  noStart (chr "[" :: p) (sectionsText sections) [].
Proof.
  induction sections as [|[h body] sections IH]; intros F; [apply noStart_nil|].
  apply Forall_cons in F. destruct F as [((t & -> & T) & M & B) F].
  cbn [sectionsText].
  change ((chr "[" :: t) ++ body ++ sectionsText sections)
    with ([chr "["] ++ t ++ body ++ sectionsText sections).
  apply noStart_app; [|apply noStart_app; [|apply noStart_app]].
  - intros a1 c a2 E. destruct a1 as [|? [|? ?]]; try discriminate.
    injection E as <- <-. rewrite app_nil_r. exact (M (body ++ sectionsText sections)).
  - apply noBracket_noStart, T.
  - apply noBracket_noStart, B.
  - apply IH, F.
Qed.

Lemma replaceAll_keep header a :
  noStart header a [] -> replaceAll (colorSection header) a = a.
Proof.
  intros NS. pose proof (colorSection_copy header a [] NS) as C.
  rewrite app_nil_r in C. rewrite C, replaceAll_nil, app_nil_r. reflexivity.
Qed.

(** One pass: the section of the header goes, the rest stays. *)
Lemma colorSection_pass header p a body sections :
  header = chr "[" :: p ->
  (forall s, noStart header a s) ->
  noBracket body = true ->
  Forall (otherSection header) sections ->
  replaceAll (colorSection header) (a ++ sectionsText ((header, body) :: sections))
  = a ++ sectionsText sections.
Proof.
  intros -> NS B F. cbn [sectionsText].
  rewrite colorSection_copy by apply NS.
  rewrite colorSection_removed;
    [|simpl; lia|exact B|apply (sectionsText_bracket sections _ F)].
  rewrite replaceAll_keep by (apply sectionsText_noStart, F). reflexivity.
Qed.

Ltac other_section :=
  split; [eexists; split; reflexivity|split; [intros ?; reflexivity|assumption]].

(** The five passes remove the five generated sections. *)
Lemma sections_removed a colors :
  plainColors colors ->
  (forall h, In h sectionHeaders -> forall s, noStart h a s) ->
  replaceAll (colorSection (lit "[colors.bright]"))
    (replaceAll (colorSection (lit "[colors.normal]"))
       (replaceAll (colorSection (lit "[colors.selection]"))
          (replaceAll (colorSection (lit "[colors.cursor]"))
             (replaceAll (colorSection (lit "[colors.primary]"))
                (a ++ sectionsText (sectionBodies colors))))))
  = a.
Proof.
  intros PC NS. pose proof (sectionBodies_noBracket colors PC) as B.
  unfold sectionBodies in *.
  repeat match goal with
         | H : Forall _ (_ :: _) |- _ => apply Forall_cons in H; destruct H as [? H]
         end.
  assert (N : forall h, In h sectionHeaders -> forall s, noStart h a s) by exact NS.
  unfold sectionHeaders in N.
  rewrite (colorSection_pass (lit "[colors.primary]") _ a _ _ eq_refl);
    [|apply N; simpl; tauto|assumption
     |repeat (apply Forall_cons; split; [other_section|]); apply Forall_nil; exact I].
  rewrite (colorSection_pass (lit "[colors.cursor]") _ a _ _ eq_refl);
    [|apply N; simpl; tauto|assumption
     |repeat (apply Forall_cons; split; [other_section|]); apply Forall_nil; exact I].
  rewrite (colorSection_pass (lit "[colors.selection]") _ a _ _ eq_refl);
    [|apply N; simpl; tauto|assumption
     |repeat (apply Forall_cons; split; [other_section|]); apply Forall_nil; exact I].
  rewrite (colorSection_pass (lit "[colors.normal]") _ a _ _ eq_refl);
    [|apply N; simpl; tauto|assumption
     |repeat (apply Forall_cons; split; [other_section|]); apply Forall_nil; exact I].
  rewrite (colorSection_pass (lit "[colors.bright]") _ a _ _ eq_refl);
    [|apply N; simpl; tauto|assumption|apply Forall_nil; exact I].
  cbn [sectionsText]. apply app_nil_r.
Qed.

Lemma headerBlock_parts themeName :
  headerBlock themeName
  = themeLine ++ (chr " " :: themeName) ++ (NEWLINE :: generatedLine) ++ [NEWLINE; NEWLINE].
Proof.
  unfold headerBlock, ln, nl.
  change (lit "# ShellShade Theme: ") with (themeLine ++ [chr " "]).
  change (lit "# Generated by ShellShade") with generatedLine.
  repeat rewrite <- app_assoc. reflexivity.
Qed.

(** The header pass removes the generated header and the blank line after
    it. *)
Lemma generatedHeader_removed themeName :
  forallb (fun c => negb (isLineTerminator c)) themeName = true ->
  replaceAll generatedHeader (headerBlock themeName) = [].
Proof.
  intros L. rewrite headerBlock_parts.
  set (rest := chr " " :: themeName).
  set (tail := (NEWLINE :: generatedLine) ++ [NEWLINE; NEWLINE]).
  assert (G : generatedHeader (themeLine ++ rest ++ tail)
              = Some (S (pred (length themeLine) + length rest
                         + length (NEWLINE :: generatedLine) + 2), [])).
  { unfold generatedHeader. rewrite startsWith_app, drop_app_length.
    assert (T : takeWhile (fun c => negb (isLineTerminator c)) (rest ++ tail) = rest).
    { unfold tail. change ((NEWLINE :: generatedLine) ++ [NEWLINE; NEWLINE])
        with (NEWLINE :: generatedLine ++ [NEWLINE; NEWLINE]).
      apply takeWhile_app_stop; [|reflexivity]. unfold rest. simpl. exact L. }
    rewrite T, drop_app_length. unfold tail. rewrite startsWith_app, drop_app_length.
    reflexivity. }
  change (themeLine ++ rest ++ tail)
    with (chr "#" :: tl themeLine ++ rest ++ tail) in G |- *.
  rewrite (replaceAll_drop _ _ _ _ _ G).
  change (chr "#" :: tl themeLine ++ rest ++ tail) with (themeLine ++ rest ++ tail).
  replace (S (pred (length themeLine) + length rest + length (NEWLINE :: generatedLine) + 2))
    with (length themeLine + (length rest + (length (NEWLINE :: generatedLine) + 2)))
    by (change (length themeLine) with 19; lia).
  rewrite <- !drop_drop, drop_app_length, drop_app_length.
  unfold tail. rewrite drop_app_length. reflexivity.
Qed.

(** *** Trimming *)

Lemma dropWhile_all p a b : forallb p a = true -> dropWhile p (a ++ b) = dropWhile p b.
Proof.
  induction a as [|c a IH]; simpl; [reflexivity|].
  intros F. apply andb_prop in F. destruct F as [-> F]. auto.
Qed.

Lemma dropWhile_idem p s : dropWhile p (dropWhile p s) = dropWhile p s.
Proof.
  induction s as [|c s IH]; [reflexivity|]. simpl.
  destruct (p c) eqn:E; [exact IH|]. simpl. rewrite E. reflexivity.
Qed.

Lemma dropWhile_keeps_last p y d :
  p d = false -> exists x, dropWhile p (y ++ [d]) = x ++ [d].
Proof.
  intros E. induction y as [|c y IH]; simpl.
  - rewrite E. exists []. reflexivity.
  - destruct (p c); [exact IH|]. exists (c :: y). reflexivity.
Qed.

Lemma trim_trimmed s : trimmed (trim s).
Proof.
  unfold trimmed, trim. set (D := trimStart s).
  assert (HD : D = [] \/ exists d D', D = d :: D' /\ isWhiteSpace d = false).
  { unfold D, trimStart. destruct (dropWhile isWhiteSpace s) as [|d D'] eqn:E; [left; reflexivity|].
    right. exists d, D'. split; [reflexivity|]. exact (dropWhile_head _ _ _ _ E). }
  split.
  - destruct HD as [->|(d & D' & -> & W)]; [reflexivity|].
    unfold trimEnd. simpl rev.
    destruct (dropWhile_keeps_last isWhiteSpace (rev D') d W) as [x ->].
    rewrite rev_app_distr. simpl. unfold trimStart. simpl. rewrite W. reflexivity.
  - unfold trimEnd. rewrite rev_involutive, dropWhile_idem. reflexivity.
Qed.

Lemma trim_blank_lines s : trimmed s -> trim (s ++ nl ++ nl) = s.
Proof.
  intros [T1 T2]. destruct s as [|c s]; [reflexivity|].
  assert (W : isWhiteSpace c = false).
  { unfold trimStart in T1. simpl in T1. destruct (isWhiteSpace c) eqn:W; [|reflexivity].
    exfalso. pose proof (dropWhile_length isWhiteSpace s) as L. rewrite T1 in L.
    simpl in L. lia. }
  unfold trim.
  assert (E : trimStart ((c :: s) ++ nl ++ nl) = (c :: s) ++ nl ++ nl).
  { unfold trimStart. simpl. rewrite W. reflexivity. }
  rewrite E. unfold trimEnd in *. rewrite (rev_app_distr _ (nl ++ nl)).
  rewrite (dropWhile_all isWhiteSpace (rev (nl ++ nl))) by reflexivity.
  exact T2.
Qed.

Lemma trim_trimmed_id s : trimmed s -> trim s = s.
Proof. intros [T1 T2]. unfold trim. rewrite T1. exact T2. Qed.

(** Trimming takes an infix, so it brings in no text. *)
Lemma trim_infix s : exists a b, s = a ++ trim s ++ b.
Proof.
  unfold trim, trimStart, trimEnd.
  exists (takeWhile isWhiteSpace s).
  exists (rev (takeWhile isWhiteSpace (rev (dropWhile isWhiteSpace s)))).
  rewrite <- rev_app_distr, takeWhile_dropWhile, rev_involutive, takeWhile_dropWhile.
  reflexivity.
Qed.

Lemma includes_trim p s : includes p s = false -> includes p (trim s) = false.
Proof.
  intros I. destruct (trim_infix s) as (a & b & E). rewrite E in I.
  apply includes_false_app in I. destruct I as [_ I].
  apply includes_false_app in I. tauto.
Qed.

Lemma cleanConfig_trim content : cleanConfig content -> cleanConfig (trim content).
Proof.
  unfold cleanConfig. intros F. apply (Forall_impl _ _ _ F). intros h. apply includes_trim.
Qed.

(** *** One install after another *)

Lemma notIn_check (c : N) p : forallb (fun x => negb (x =? c)%N) p = true -> ~ In c p.
Proof.
  intros F I. rewrite forallb_forall in F. specialize (F c).
  rewrite N.eqb_refl in F. discriminate (F I).
Qed.

Lemma sectionHeader_pattern h :
  In h sectionHeaders -> exists p, h = chr "[" :: p /\ ~ In NEWLINE h.
Proof.
  unfold sectionHeaders. simpl.
  intros [<-|[<-|[<-|[<-|[<-|[]]]]]]; eexists; (split; [reflexivity|]);
    apply notIn_check; reflexivity.
Qed.

Lemma finalContent_before s toml : finalContent s toml = before s ++ toml.
Proof.
  unfold finalContent, before. destruct (truthy s); [|reflexivity].
  repeat rewrite <- app_assoc. reflexivity.
Qed.

Lemma before_noStart x p s rest :
  includes (x :: p) s = false ->
  forallb (fun c => negb (c =? x)%N) (nl ++ nl) = true ->
  ~ In NEWLINE (x :: p) ->
  noStart (x :: p) (before s) rest.
Proof.
  intros I F NI. unfold before. destruct (truthy s); [|apply noStart_nil].
  apply noStart_app.
  - apply noStart_includes; assumption.
  - apply noStart_first. exact F.
Qed.

Lemma headerBlock_noStart h themeName rest :
  In h sectionHeaders -> plainName themeName -> noStart h (headerBlock themeName) rest.
Proof.
  intros Ih [_ Pn]. destruct (sectionHeader_pattern h Ih) as (p & E & NI).
  assert (In' : includes h themeName = false).
  { rewrite Forall_forall in Pn. apply Pn. apply list_elem_of_In. exact Ih. }
  subst h. unfold headerBlock, ln.
  repeat rewrite <- app_assoc.
  apply noStart_app; [apply noStart_first; reflexivity|].
  apply noStart_app; [|apply noStart_first; reflexivity].
  apply noStart_includes; assumption.
Qed.

Lemma trimmed_before s : trimmed s -> trim (before s) = s.
Proof.
  intros T. unfold before. destruct s as [|c s]; [reflexivity|].
  apply trim_blank_lines, T.
Qed.

(** Stripping what an install wrote gives back what stood before the
    block. *)
Lemma removeColorSections_written s themeName colors :
  cleanConfig s -> trimmed s -> plainName themeName -> plainColors colors ->
  removeColorSections (finalContent s (tomlContent themeName colors)) = s.
Proof.
  intros C T Pn Pc. unfold removeColorSections.
  rewrite finalContent_before, tomlContent_sections, app_assoc.
  unfold cleanConfig in C. apply Forall_cons in C. destruct C as [Ct Cs].
  rewrite sections_removed; [|exact Pc|].
  - rewrite generatedHeader_copy.
    + rewrite generatedHeader_removed by apply Pn. rewrite app_nil_r.
      apply trimmed_before, T.
    + apply (before_noStart (chr "#") (tl themeLine)); [exact Ct|reflexivity|].
      apply notIn_check. reflexivity.
  - intros h Ih rest. apply noStart_app; [|apply headerBlock_noStart; assumption].
    destruct (sectionHeader_pattern h Ih) as (p & E & NI).
    assert (I' : includes h s = false).
    { rewrite Forall_forall in Cs. apply Cs. apply list_elem_of_In. exact Ih. }
    subst h. apply before_noStart; [exact I'|reflexivity|exact NI].
Qed.

(** Stripping a clean configuration only trims it. *)
Lemma removeColorSections_clean content :
  cleanConfig content -> removeColorSections content = trim content.
Proof.
  intros C. unfold removeColorSections, cleanConfig, sectionHeaders in *.
  repeat match goal with
         | H : Forall _ (_ :: _) |- _ => apply Forall_cons in H; destruct H as [? H]
         end.
  rewrite (replaceAll_keep (lit "[colors.primary]") content)
    by (apply noStart_includes_end; assumption).
  rewrite (replaceAll_keep (lit "[colors.cursor]") content)
    by (apply noStart_includes_end; assumption).
  rewrite (replaceAll_keep (lit "[colors.selection]") content)
    by (apply noStart_includes_end; assumption).
  rewrite (replaceAll_keep (lit "[colors.normal]") content)
    by (apply noStart_includes_end; assumption).
  rewrite (replaceAll_keep (lit "[colors.bright]") content)
    by (apply noStart_includes_end; assumption).
  pose proof (generatedHeader_copy content []) as G. rewrite app_nil_r in G.
  rewrite G by (apply noStart_includes_end; assumption).
  rewrite replaceAll_nil, app_nil_r. reflexivity.
Qed.

Lemma rewrite_clean themeName colors content :
  cleanConfig content ->
  Alacritty.rewrite themeName colors content
  = finalContent (trim content) (tomlContent themeName colors).
Proof. intros C. unfold Alacritty.rewrite. rewrite removeColorSections_clean by exact C. reflexivity. Qed.

Lemma installs_written themes s n0 c0 themeName colors :
  cleanConfig s -> trimmed s -> plainName n0 -> plainColors c0 ->
  Forall (fun '(n, c) => plainName n /\ plainColors c) themes ->
  installs (themes ++ [(themeName, colors)]) (finalContent s (tomlContent n0 c0))
  = finalContent s (tomlContent themeName colors).
Proof.
  intros C T. revert n0 c0. induction themes as [|[n c] themes IH]; intros n0 c0 Pn Pc F.
  - simpl. unfold Alacritty.rewrite. rewrite removeColorSections_written by assumption.
    reflexivity.
  - apply Forall_cons in F. destruct F as [[Pn' Pc'] F].
    simpl. unfold Alacritty.rewrite at 1.
    rewrite removeColorSections_written by assumption.
    apply IH; assumption.
Qed.

(** Take a configuration that holds none of the five section headers
    and no first line of a generated header, and themes whose names are on
    one line and hold no section header and whose colours hold no opening
    bracket.  After installs made one after the other the file is the old
    configuration, trimmed, a blank line and the block of the theme
    installed last (the block alone when the old configuration was blank):
    one block, and the old configuration before it unchanged.  Stripping the
    result gives back the old configuration. *)
Lemma alacritty_single_block (content : jsstring)
    (earlier : list (jsstring * ThemeColors)) (themeName : jsstring) (colors : ThemeColors) :
  cleanConfig content ->
  Forall (fun '(n, c) => plainName n /\ plainColors c) (earlier ++ [(themeName, colors)]) ->
  installs (earlier ++ [(themeName, colors)]) content
  = finalContent (trim content) (tomlContent themeName colors)
  /\ removeColorSections (installs (earlier ++ [(themeName, colors)]) content)
     = trim content.
Proof.
  intros C F. apply Forall_app in F. destruct F as [Fe Fl].
  apply Forall_cons in Fl. destruct Fl as [[Pn Pc] _].
  assert (E : installs (earlier ++ [(themeName, colors)]) content
              = finalContent (trim content) (tomlContent themeName colors)).
  { destruct earlier as [|[n c] earlier].
    - simpl. apply rewrite_clean, C.
    - apply Forall_cons in Fe. destruct Fe as [[Pn' Pc'] Fe].
      simpl. rewrite rewrite_clean by exact C.
      apply installs_written; try assumption.
      + apply cleanConfig_trim, C.
      + apply trim_trimmed. }
  split; [exact E|]. rewrite E.
  apply removeColorSections_written; try assumption.
  - apply cleanConfig_trim, C.
  - apply trim_trimmed.
Qed.

Lemma alacritty_single_block_witness :
  installs [(lit "Mocha", Example.mocha); (lit "Nord [dark]", Example.mocha);
            (lit "Mocha", Example.mocha)]
           (ln (lit "[font]") ++ ln (lit "size = 12"))
  = ln (lit "[font]") ++ lit "size = 12" ++ nl ++ nl
      ++ tomlContent (lit "Mocha") Example.mocha.
Proof.
  refine (eq_trans
            (proj1 (alacritty_single_block (ln (lit "[font]") ++ ln (lit "size = 12"))
                      [(lit "Mocha", Example.mocha); (lit "Nord [dark]", Example.mocha)]
                      (lit "Mocha") Example.mocha _ _)) _).
  - unfold cleanConfig, sectionHeaders.
    repeat (apply Forall_cons; split; [reflexivity|]). apply Forall_nil. exact I.
  - assert (Pc : plainColors Example.mocha).
    { unfold plainColors, colorFields.
      repeat (apply Forall_cons; split; [reflexivity|]). apply Forall_nil. exact I. }
    assert (Pn : forall n,
               forallb (fun c => negb (isLineTerminator c)) n = true ->
               forallb (fun h => negb (includes h n)) sectionHeaders = true ->
               plainName n).
    { intros n L S. split; [exact L|]. apply Forall_forall. intros h Ih.
      rewrite forallb_forall in S. apply list_elem_of_In in Ih.
      apply negb_true_iff. exact (S h Ih). }
    repeat (apply Forall_cons; split; [split; [apply Pn; reflexivity|exact Pc]|]).
    apply Forall_nil. exact I.
  - reflexivity.
Defined.

(** A colour section between two sections of the user's own is replaced,
    and the lines of the other sections stay. *)
Lemma alacritty_replaces_existing_section :
  installs [(lit "Mocha", Example.mocha); (lit "Latte", Example.mocha)]
           (ln (lit "[font]") ++ ln (lit "size = 12")
            ++ ln (lit "[colors.primary]") ++ ln (doc "background = '#000000'")
            ++ ln (lit "[window]") ++ ln (lit "opacity = 0.9"))
  = ln (lit "[font]") ++ ln (lit "size = 12")
      ++ ln (lit "[window]") ++ lit "opacity = 0.9" ++ nl ++ nl
      ++ tomlContent (lit "Latte") Example.mocha.
Proof. vm_compute. reflexivity. Qed.

(** C7.  A configuration whose colour section was commented out: the
    line [# [colors.primary]], then the section [[font]] with the line
    [size = 12].  One install tells success and leaves a file in which no
    line is [[font]].  The expression for [[colors.primary]] matches the
    header inside the comment and removes the text up to the next opening
    bracket, which is the one of [[font]]: the file begins with the line
    [# [font]], a comment, and the setting [size = 12] is no longer in a
    section [font].  A line of the configuration that sets no colour is not
    kept. *)
Theorem alacritty_commented_section_eats_header :
  let install := @installToAlacritty Example.host (lit "t1") in
  let written :=
    ln (lit "# [font]") ++ lit "size = 12" ++ nl ++ nl
      ++ tomlContent (lit "Mocha") Example.mocha in
  files commentedConfig !! alacrittyToml = Some commentedOut
  /\ existsb (streqb (lit "[font]")) (lines [] commentedOut) = true
  /\ succeeds (install commentedConfig) = true
  /\ files (snd (install commentedConfig)) !! alacrittyToml = Some written
  /\ existsb (streqb (lit "[font]")) (lines [] written) = false
  /\ Alacritty.rewrite (lit "Mocha") Example.mocha commentedOut = written.
Proof. cbv zeta. repeat split; vm_compute; reflexivity. Qed.

(** The header pattern stops at the end of a line, so the header of a
    theme whose name has two lines is not recognised, and the second install
    leaves the first header in the file. *)
Lemma two_line_name_keeps_old_header :
  occurrences generatedLine
    (installs [(twoLineName, Example.mocha); (twoLineName, Example.mocha)] []) = 2.
Proof. vm_compute. reflexivity. Qed.

(** ** The Alacritty installer *)

Section AlacrittyInstall.
Context `{Runtime}.

Ltac run_fs :=
  unfold ret, mbind, IO_bind, mret, IO_ret, tryCatch, existsSync, readFileSync,
    writeFileSync;
  cbn [fs_fault files dirs setDirs setFiles fst snd].

(** On a machine where the directory can be made and the file is readable
    or absent and can be written, the installer succeeds and the file holds
    the stripped old text, if any, and the new block. *)
Lemma installToAlacritty_writes themeId w colors existing :
  getThemeColors themeId w = Some colors ->
  let configPath := alacrittyConfigPath w in
  let themeName := getThemeName themeId w in
  dirAvailable w (path_dirname configPath) ->
  path_dirname configPath <> configPath ->
  fileState w configPath existing ->
  fs_fault w OpWrite configPath = None ->
  exists d,
    installToAlacritty themeId w
    = (Ok (succeeded configPath
             (lit "Theme " ++ quoted themeName
              ++ lit " applied to Alacritty! Restart Alacritty to see changes.")),
       setFiles (<[ configPath :=
                    finalContent
                      (match existing with
                       | Some c => removeColorSections c
                       | None => []
                       end)
                      (tomlContent themeName colors) ]> (files w))
                (setDirs d w)).
Proof.
  intros G configPath themeName D NE F Wr.
  unfold installToAlacritty. enter G. rewrite gets_bind. cbv beta.
  fold configPath. fold themeName.
  destruct (ensureDir_ok w _ D) as (d & E & Dd). rewrite (bind_ok _ _ _ _ _ E).
  exists d. run_fs.
  destruct existing as [c|]; destruct F as [F1 F2].
  - rewrite F1. rewrite bool_decide_eq_true_2 by (eexists; reflexivity).
    cbn [orb fs_fault files dirs setDirs setFiles fst snd].
    rewrite F2, F1. cbn [fs_fault files dirs setDirs setFiles fst snd].
    rewrite Wr. reflexivity.
  - rewrite F1. rewrite bool_decide_eq_false_2 by (intros [? ?]; discriminate).
    rewrite bool_decide_eq_false_2.
    + cbn [orb fs_fault files dirs setDirs setFiles fst snd]. rewrite Wr. reflexivity.
    + intros Q. destruct (Dd _ Q) as [Q'|Q']; [exact (F2 Q')|exact (NE (eq_sym Q'))].
Qed.

(** C8.  On Linux with [XDG_CONFIG_HOME] unset, for a theme whose
    background is [#1e1e2e] and whose foreground is [#cdd6f4], when the
    directory can be made and the file can be written (and read, if it is
    there), the installer succeeds and the file [alacritty/alacritty.toml]
    under [.config] of the home directory holds the two comment lines that
    name the theme, a blank line, the header [[colors.primary]], the line
    [background = "#1e1e2e"] and on the next line [foreground = "#cdd6f4"].
    Nothing stands before the comment lines when the file was not there. *)
Theorem alacritty_linux_example (themeId : jsstring) (w : World) (colors : ThemeColors)
    (existing : option jsstring) :
  platform w = linux ->
  env_XDG_CONFIG_HOME w = None ->
  getThemeColors themeId w = Some colors ->
  background colors = lit "#1e1e2e" ->
  foreground colors = lit "#cdd6f4" ->
  let configPath :=
    path_join [path_join [os_homedir w; lit ".config"]; lit "alacritty"; lit "alacritty.toml"] in
  let themeName := getThemeName themeId w in
  dirAvailable w (path_dirname configPath) ->
  path_dirname configPath <> configPath ->
  fileState w configPath existing ->
  fs_fault w OpWrite configPath = None ->
  exists w' r head tail,
    installToAlacritty themeId w = (Ok r, w')
    /\ success r = true /\ path r = configPath
    /\ files w' !! configPath
       = Some (head
               ++ ln (lit "# ShellShade Theme: " ++ themeName)
               ++ ln (lit "# Generated by ShellShade")
               ++ nl
               ++ ln (lit "[colors.primary]")
               ++ ln (lit "background = " ++ quoted (lit "#1e1e2e"))
               ++ ln (lit "foreground = " ++ quoted (lit "#cdd6f4"))
               ++ tail)
    /\ (existing = None -> head = []).
Proof.
  intros Pl Xdg G Bg Fg configPath themeName D NE F Wr.
  assert (P : alacrittyConfigPath w = configPath).
  { unfold alacrittyConfigPath. rewrite Pl, Xdg. reflexivity. }
  rewrite <- P in D, NE, F, Wr.
  destruct (installToAlacritty_writes themeId w colors existing G D NE F Wr) as [d E].
  rewrite P in E. fold themeName in E.
  eexists. eexists.
  exists (before (match existing with Some c => removeColorSections c | None => [] end)).
  exists (nl ++ sectionsText (tl (sectionBodies colors))).
  split; [exact E|]. split; [reflexivity|]. split; [reflexivity|]. split.
  - cbn [files setFiles]. rewrite lookup_insert_eq.
    rewrite finalContent_before, tomlContent_sections.
    unfold headerBlock, sectionBodies. cbn [sectionsText tl].
    rewrite Bg, Fg. unfold entry, ln.
    change (lit "background = ") with (lit "background" ++ lit " = ").
    change (lit "foreground = ") with (lit "foreground" ++ lit " = ").
    repeat rewrite <- app_assoc. reflexivity.
  - intros ->. reflexivity.
Qed.

End AlacrittyInstall.

Lemma alacritty_linux_example_witness :
  exists w' r head tail,
    @installToAlacritty Example.host (lit "t1") Example.world = (Ok r, w')
    /\ success r = true
    /\ path r = lit "/home/u/.config/alacritty/alacritty.toml"
    /\ files w' !! lit "/home/u/.config/alacritty/alacritty.toml"
       = Some (head
               ++ ln (lit "# ShellShade Theme: Mocha")
               ++ ln (lit "# Generated by ShellShade")
               ++ nl
               ++ ln (lit "[colors.primary]")
               ++ ln (lit "background = " ++ quoted (lit "#1e1e2e"))
               ++ ln (lit "foreground = " ++ quoted (lit "#cdd6f4"))
               ++ tail)
    /\ head = [].
Proof.
  eassert (G : getThemeColors (lit "t1") Example.world = Some _) by (vm_compute; reflexivity).
  destruct (@alacritty_linux_example Example.host (lit "t1") Example.world _ None
              eq_refl eq_refl G eq_refl eq_refl)
    as (w' & r & head & tail & E & S & P & Fi & Hd).
  - right. reflexivity.
  - vm_compute. discriminate.
  - split; [reflexivity|]. apply not_elem_of_empty.
  - reflexivity.
  - exists w', r, head, tail.
    split; [exact E|]. split; [exact S|]. split; [exact P|]. split; [exact Fi|].
    apply Hd. reflexivity.
Defined.

(** ** More on the theme lookup *)

Lemma colorMapOf_last rows1 r rows2 :
  (forall r', In r' rows2 -> color_key r' <> color_key r) ->
  colorMapOf (rows1 ++ r :: rows2) !! color_key r = Some (hex_value r).
Proof.
  induction rows2 as [|x rows2 IH] using rev_ind; intros A.
  - rewrite colorMapOf_snoc, lookup_insert_eq. reflexivity.
  - rewrite app_comm_cons, app_assoc, colorMapOf_snoc, lookup_insert_ne.
    + apply IH. intros r' I. apply A, in_or_app. left. exact I.
    + apply A, in_or_app. right. left. reflexivity.
Qed.

(** X1.  Of the rows of a theme that give one colour key, the last one
    decides: the field of that key holds its value, or the default of the
    key when the value is the empty string. *)
Theorem getThemeColors_last_row_wins (themeId : jsstring) (w : World)
    (rows1 rows2 : list ColorRow) (r : ColorRow) :
  colorRows themeId w = rows1 ++ r :: rows2 ->
  (forall r', In r' rows2 -> color_key r' <> color_key r) ->
  exists colors,
    getThemeColors themeId w = Some colors
    /\ Forall (fun '(key, field, fallback) =>
                 color_key r = key ->
                 field colors = if truthy (hex_value r) then hex_value r else fallback)
              colorFields.
Proof.
  intros E A. unfold getThemeColors. rewrite E.
  assert (L : (length (rows1 ++ r :: rows2) =? 0)%nat = false).
  { rewrite length_app. simpl. rewrite Nat.add_succ_r. reflexivity. }
  rewrite L. cbv zeta. eexists. split; [reflexivity|].
  unfold colorFields.
  repeat (apply Forall_cons; split;
          [ intros K;
            cbn [background foreground cursor cursorText selection selectionText
                 ansi black red green yellow blue magenta cyan white
                 brightBlack brightRed brightGreen brightYellow brightBlue
                 brightMagenta brightCyan brightWhite];
            unfold getOr; rewrite <- K, (colorMapOf_last _ _ _ A); reflexivity | ]).
  apply Forall_nil. exact I.
Qed.

Lemma getThemeColors_last_row_wins_witness :
  exists colors,
    getThemeColors (lit "t1") Cases.repainted = Some colors
    /\ background colors = lit "#11111b"
    /\ cursor colors = lit "#ffffff".
Proof.
  destruct (getThemeColors_last_row_wins (lit "t1") Cases.repainted
              [ {| theme_id := lit "t1"; color_key := lit "background";
                   hex_value := lit "#1e1e2e" |} ]
              [ {| theme_id := lit "t1"; color_key := lit "cursor"; hex_value := [] |} ]
              {| theme_id := lit "t1"; color_key := lit "background";
                 hex_value := lit "#11111b" |} eq_refl) as (colors & G & F).
  { intros r' [<-|[]]. discriminate. }
  destruct (getThemeColors_last_row_wins (lit "t1") Cases.repainted
              [ {| theme_id := lit "t1"; color_key := lit "background";
                   hex_value := lit "#1e1e2e" |};
                {| theme_id := lit "t1"; color_key := lit "background";
                   hex_value := lit "#11111b" |} ]
              []
              {| theme_id := lit "t1"; color_key := lit "cursor"; hex_value := [] |}
              eq_refl) as (colors' & G' & F').
  { intros r' []. }
  rewrite G in G'. injection G' as <-.
  exists colors. split; [exact G|]. split.
  - apply Forall_cons in F. destruct F as [F _]. exact (F eq_refl).
  - do 2 (apply Forall_cons in F'; destruct F' as [_ F']).
    apply Forall_cons in F'. destruct F' as [F' _]. exact (F' eq_refl).
Defined.

Lemma find_first {A} (p : A -> bool) l1 x l2 :
  (forall y, In y l1 -> p y = false) -> p x = true -> find p (l1 ++ x :: l2) = Some x.
Proof.
  induction l1 as [|y l1 IH]; simpl; intros N P.
  - rewrite P. reflexivity.
  - rewrite (N y) by (left; reflexivity). apply IH; [|exact P].
    intros z I. apply N. right. exact I.
Qed.

(** X2.  The name of a theme is never the empty string.  It is the name
    of the first row of the theme, and ["Untitled"] when that name is
    empty. *)
Theorem getThemeName_first_row_or_untitled (themeId : jsstring) (w : World) :
  truthy (getThemeName themeId w) = true
  /\ (forall ts1 t ts2,
        themes w = ts1 ++ t :: ts2 ->
        id t = themeId ->
        (forall t', In t' ts1 -> id t' <> themeId) ->
        getThemeName themeId w = if truthy (name t) then name t else lit "Untitled").
Proof.
  unfold getThemeName. split.
  - destruct (find _ (themes w)) as [t|]; simpl; [|reflexivity].
    destruct (truthy (name t)) eqn:T; [exact T|reflexivity].
  - intros ts1 t ts2 E I N. rewrite E, find_first.
    + reflexivity.
    + intros y Y. apply bool_decide_eq_false_2, N, Y.
    + apply bool_decide_eq_true_2, I.
Qed.

(** ** More on the colour codec *)

(** X3.  A colour of at most five code units, such as the short form
    [#fff], has no blue channel: the blue component of the iTerm2
    dictionary is [NaN] and the Terminal.app triple ends in [NaN]. *)
Theorem short_colour_has_no_blue (hex : jsstring) :
  length hex <= 5 ->
  PrimFloat.is_nan (Blue_Component (hexToItermColorDict hex)) = true
  /\ hexToRGB hex
     = lit "{" ++ numberToString (times257 (channel 1 3 hex)) ++ lit ", "
         ++ numberToString (times257 (channel 3 5 hex)) ++ lit ", NaN}".
Proof.
  intros L.
  assert (B : channel 5 7 hex = None).
  { unfold channel, slice. rewrite drop_ge by lia. reflexivity. }
  unfold hexToItermColorDict, hexToRGB. rewrite B. split; reflexivity.
Qed.

Lemma short_colour_has_no_blue_witness :
  PrimFloat.is_nan (Blue_Component (hexToItermColorDict (lit "#fff"))) = true
  /\ hexToRGB (lit "#fff") = lit "{65535, 3855, NaN}".
Proof.
  destruct (short_colour_has_no_blue (lit "#fff")) as [B R]; [simpl; lia|].
  split; [exact B|]. rewrite R. reflexivity.
Defined.

Lemma channel_of_slice a b hex :
  1 <= a -> b = a + 2 -> b <= 7 ->
  channel a b hex = channel (a - 1) (b - 1) (slice 1 7 hex).
Proof.
  intros L -> U. unfold channel, slice. f_equal.
  replace (a + 2 - a) with 2 by lia. replace (a + 2 - 1 - (a - 1)) with 2 by lia.
  replace (7 - 1) with (a - 1 + (7 - a)) by lia.
  rewrite <- take_drop_commute, drop_drop, take_take.
  replace (1 + (a - 1)) with a by lia. f_equal. lia.
Qed.

(** X4.  Both colour conversions read the code units 1 to 6 of the colour
    and nothing else: the first code unit need not be [#], and what follows
    the sixth digit (an alpha channel) is ignored. *)
Theorem hex_codec_reads_six_units (hex hex' : jsstring) :
  slice 1 7 hex = slice 1 7 hex' ->
  hexToItermColorDict hex = hexToItermColorDict hex' /\ hexToRGB hex = hexToRGB hex'.
Proof.
  intros E. unfold hexToItermColorDict, hexToRGB.
  rewrite (channel_of_slice 1 3 hex), (channel_of_slice 3 5 hex), (channel_of_slice 5 7 hex),
    (channel_of_slice 1 3 hex'), (channel_of_slice 3 5 hex'), (channel_of_slice 5 7 hex'), E
    by lia.
  split; reflexivity.
Qed.

Lemma hex_codec_reads_six_units_witness :
  hexToRGB (lit "01e1e2eff") = lit "{7710, 7710, 11822}"
  /\ hexToItermColorDict (lit "01e1e2eff") = hexToItermColorDict (lit "#1e1e2e").
Proof.
  destruct (hex_codec_reads_six_units (lit "01e1e2eff") (lit "#1e1e2e") eq_refl) as [D R].
  split; [rewrite R; reflexivity|exact D].
Defined.

(** ** More on the slug *)

Lemma slugShaped_units x : slugShaped x = true -> forallb slugUnit x = true.
Proof.
  induction x as [|c x IH]; [reflexivity|]. simpl. intros S.
  apply andb_prop in S. destruct S as [S Sx]. apply andb_prop in S. destruct S as [Sc _].
  unfold slugUnit at 1. rewrite Sc. exact (IH Sx).
Qed.

Lemma replaceAll_slug_length s :
  length (replaceAll nonAlnumRun s) <= length s
  /\ (s <> [] -> replaceAll nonAlnumRun s <> []).
Proof.
  remember (length s) as n eqn:L. revert s L.
  induction n as [n IH] using lt_wf_ind. intros s L.
  destruct s as [|c s]; [split; [simpl; lia|congruence]|].
  destruct (lowerAlnum c) eqn:A.
  - rewrite replaceAll_slug_alnum by exact A. split; [|discriminate].
    destruct (IH (length s)) with (s := s) as [Le _]; [simpl in L; lia|reflexivity|].
    simpl. simpl in L. lia.
  - rewrite replaceAll_slug_run by exact A. split; [|discriminate].
    pose proof (dropWhile_length (fun c => negb (lowerAlnum c)) s) as D.
    destruct (IH (length (dropWhile (fun c => negb (lowerAlnum c)) s)))
      with (s := dropWhile (fun c => negb (lowerAlnum c)) s) as [Le _];
      [simpl in L; lia|reflexivity|].
    simpl. simpl in L. lia.
Qed.

(** X5.  Whatever the host makes of [toLowerCase], the slug that names
    the iTerm2 profile file holds lower-case letters, digits and hyphens
    only (no path separator, no dot), is no longer than the lower-cased
    name, and is empty only when the lower-cased name is. *)
Theorem slug_is_a_file_name `{Runtime} (themeName : jsstring) :
  forallb slugUnit (slug themeName) = true
  /\ length (slug themeName) <= length (toLowerCase themeName)
  /\ (slug themeName = [] <-> toLowerCase themeName = []).
Proof.
  unfold slug. destruct (replaceAll_slug_length (toLowerCase themeName)) as [Le Ne].
  split; [apply slugShaped_units, slugShaped_replaceAll|]. split; [exact Le|].
  split.
  - intros E. destruct (toLowerCase themeName) as [|c s]; [reflexivity|].
    exfalso. apply Ne; [discriminate|exact E].
  - intros ->. reflexivity.
Qed.

(** ** More on the JSONC reader *)

Lemma skipBlock_length r : length (skipBlock r) <= length r.
Proof.
  induction r as [|c1 r IH]; [simpl; lia|]. simpl.
  destruct r as [|c2 r']; [simpl; lia|].
  destruct (isChar "*" c1 && isChar "/" c2); simpl in *; lia.
Qed.

Lemma skipLine_length c rest :
  isChar "/" c = true -> length (skipLine (c :: rest)) <= length rest.
Proof.
  intros C. apply N.eqb_eq in C. subst c. unfold skipLine. simpl.
  apply dropWhile_length.
Qed.

(** The main loop ends before its fuel does. *)
Lemma scan_fuel fuel fuel' r inString escaped :
  length r < fuel -> length r < fuel' ->
  scan fuel r inString escaped = scan fuel' r inString escaped.
Proof.
  revert fuel' r inString escaped.
  induction fuel as [|fuel IH]; intros fuel' r i e L L'; [lia|].
  destruct fuel' as [|fuel']; [lia|].
  destruct r as [|c rest]; [reflexivity|]. simpl in L, L'. simpl.
  destruct e; [f_equal; apply IH; lia|].
  destruct (isChar "\" c && i); [f_equal; apply IH; lia|].
  destruct (c =? DQUOTE)%N; [f_equal; apply IH; lia|].
  destruct (negb i && isChar "/" c) eqn:S; simpl.
  - apply andb_prop in S. destruct S as [_ S].
    destruct (nextIs "/" rest).
    + pose proof (skipLine_length c rest S). apply IH; lia.
    + destruct (nextIs "*" rest); [|f_equal; apply IH; lia].
      pose proof (skipBlock_length (drop 1 rest)).
      pose proof (length_drop rest 1).
      change (drop 2 (c :: rest)) with (drop 1 rest). apply IH; lia.
  - f_equal. apply IH; lia.
Qed.

(** A stretch without comment is copied, and the scanner goes on in the
    state that the stretch leaves. *)
Lemma scan_copy a x fuel inString escaped :
  slashOnlyInStrings inString escaped a = true ->
  length a <= fuel ->
  scan fuel (a ++ x) inString escaped
  = a ++ scan (fuel - length a) x (fst (stateAfter inString escaped a))
                                  (snd (stateAfter inString escaped a)).
Proof.
  revert fuel inString escaped.
  induction a as [|c a IH]; intros fuel i e S L.
  - simpl. replace (fuel - 0) with fuel by lia. reflexivity.
  - destruct fuel as [|fuel]; [simpl in L; lia|]. simpl in L, S |- *.
    destruct e; [f_equal; apply IH; [exact S|lia]|].
    destruct (isChar "\" c && i); [f_equal; apply IH; [exact S|lia]|].
    destruct (c =? DQUOTE)%N; [f_equal; apply IH; [exact S|lia]|].
    apply andb_prop in S. destruct S as [S1 S2].
    assert (N1 : negb i && isChar "/" c = false).
    { destruct i; [reflexivity|]. simpl in S1 |- *. apply negb_true_iff in S1. exact S1. }
    rewrite N1. simpl. f_equal. apply IH; [exact S2|lia].
Qed.

Lemma stripComments_copy a rest :
  commentFree a = true -> stripComments (a ++ rest) = a ++ stripComments rest.
Proof.
  unfold commentFree. intros C. apply andb_prop in C. destruct C as [S E].
  unfold stripComments. rewrite scan_copy by first [exact S | rewrite ?length_app; lia].
  destruct (stateAfter false false a) as [[|] [|]]; try discriminate.
  f_equal. apply scan_fuel; rewrite ?length_app; simpl; lia.
Qed.

Lemma skipBlock_cons c1 c2 r :
  skipBlock (c1 :: c2 :: r) = if isChar "*" c1 && isChar "/" c2 then r else skipBlock (c2 :: r).
Proof. reflexivity. Qed.

Lemma skipBlock_closed body rest :
  includes (lit "*/") body = false -> skipBlock (body ++ lit "*/" ++ rest) = rest.
Proof.
  induction body as [|c body IH]; intros I; [reflexivity|].
  change (includes (lit "*/") (c :: body))
    with (startsWith (lit "*/") (c :: body) || includes (lit "*/") body) in I.
  apply orb_false_elim in I. destruct I as [I1 I2]. specialize (IH I2).
  change ((c :: body) ++ lit "*/" ++ rest) with (c :: (body ++ lit "*/" ++ rest)).
  destruct (body ++ lit "*/" ++ rest) as [|d t] eqn:E; [destruct body; discriminate|].
  assert (G : isChar "*" c && isChar "/" d = false).
  { destruct body as [|b body'].
    - injection E as <- _. apply andb_false_r.
    - injection E as <- _.
      change (startsWith (lit "*/") (c :: b :: body'))
        with ((42 =? c)%N && ((47 =? b)%N && true)) in I1.
      change (isChar "*" c) with (c =? 42)%N. change (isChar "/" b) with (b =? 47)%N.
      rewrite (N.eqb_sym c), (N.eqb_sym b). rewrite andb_true_r in I1. exact I1. }
  rewrite skipBlock_cons, G. exact IH.
Qed.

Lemma stripComments_block body rest :
  includes (lit "*/") body = false ->
  stripComments (lit "/*" ++ body ++ lit "*/" ++ rest) = stripComments rest.
Proof.
  intros I. unfold stripComments.
  change (scan (S (length (lit "/*" ++ body ++ lit "*/" ++ rest)))
            (lit "/*" ++ body ++ lit "*/" ++ rest) false false)
    with (scan (length (lit "/*" ++ body ++ lit "*/" ++ rest))
            (skipBlock (body ++ lit "*/" ++ rest)) false false).
  rewrite skipBlock_closed by exact I.
  apply scan_fuel; rewrite ?length_app; simpl; lia.
Qed.

Lemma skipLine_body body x :
  forallb (fun c => negb (c =? NEWLINE)%N) body = true ->
  skipLine (lit "//" ++ body ++ x) = skipLine x.
Proof.
  intros B. unfold skipLine. simpl.
  induction body as [|c body IH]; [reflexivity|]. simpl in B |- *.
  apply andb_prop in B. destruct B as [-> B]. auto.
Qed.

Lemma stripComments_line body rest :
  forallb (fun c => negb (c =? NEWLINE)%N) body = true ->
  stripComments (lit "//" ++ body ++ NEWLINE :: rest) = NEWLINE :: stripComments rest.
Proof.
  intros B. unfold stripComments.
  change (scan (S (length (lit "//" ++ body ++ NEWLINE :: rest)))
            (lit "//" ++ body ++ NEWLINE :: rest) false false)
    with (scan (length (lit "//" ++ body ++ NEWLINE :: rest))
            (skipLine (lit "//" ++ body ++ NEWLINE :: rest)) false false).
  rewrite skipLine_body by exact B.
  change (skipLine (NEWLINE :: rest)) with (NEWLINE :: rest).
  change (NEWLINE :: scan (S (length rest)) rest false false)
    with (scan (S (S (length rest))) (NEWLINE :: rest) false false).
  apply scan_fuel; rewrite ?length_app; simpl; rewrite ?length_app; simpl; lia.
Qed.

Lemma stripComments_line_end body :
  forallb (fun c => negb (c =? NEWLINE)%N) body = true ->
  stripComments (lit "//" ++ body) = [].
Proof.
  intros B. unfold stripComments.
  change (scan (S (length (lit "//" ++ body))) (lit "//" ++ body) false false)
    with (scan (length (lit "//" ++ body)) (skipLine (lit "//" ++ body)) false false).
  rewrite <- (app_nil_r body), skipLine_body by exact B. reflexivity.
Qed.

Lemma slashOnlyInStrings_app a b inString escaped :
  slashOnlyInStrings inString escaped (a ++ b)
  = slashOnlyInStrings inString escaped a
    && slashOnlyInStrings (fst (stateAfter inString escaped a))
                          (snd (stateAfter inString escaped a)) b.
Proof.
  revert inString escaped. induction a as [|c a IH]; intros i e; [reflexivity|]. simpl.
  destruct e; [apply IH|].
  destruct (isChar "\" c && i); [apply IH|].
  destruct (c =? DQUOTE)%N; [apply IH|].
  rewrite IH. apply andb_assoc.
Qed.

Lemma stateAfter_app a b inString escaped :
  stateAfter inString escaped (a ++ b)
  = stateAfter (fst (stateAfter inString escaped a)) (snd (stateAfter inString escaped a)) b.
Proof.
  revert inString escaped. induction a as [|c a IH]; intros i e; [reflexivity|]. simpl.
  destruct e; [apply IH|].
  destruct (isChar "\" c && i); [apply IH|].
  destruct (c =? DQUOTE)%N; apply IH.
Qed.

Lemma commentFree_app a b :
  commentFree a = true -> commentFree b = true -> commentFree (a ++ b) = true.
Proof.
  unfold commentFree. intros A B.
  apply andb_prop in A. destruct A as [A1 A2]. rewrite slashOnlyInStrings_app, stateAfter_app.
  destruct (stateAfter false false a) as [[|] [|]]; try discriminate.
  rewrite A1. exact B.
Qed.

(** Commas, white space and brackets start neither a literal nor a
    comment. *)
Lemma commentFree_plain s :
  forallb (fun c => negb (c =? DQUOTE)%N && negb (isChar "/" c)) s = true ->
  commentFree s = true.
Proof.
  unfold commentFree. induction s as [|c s IH]; [reflexivity|]. simpl. intros P.
  apply andb_prop in P. destruct P as [P Ps].
  apply andb_prop in P. destruct P as [Q Sl].
  rewrite andb_false_r. apply negb_true_iff in Q. rewrite Q. rewrite Sl. exact (IH Ps).
Qed.

Lemma whiteSpace_plain c :
  isWhiteSpace c = true -> negb (c =? DQUOTE)%N && negb (isChar "/" c) = true.
Proof.
  intros W. destruct (c =? DQUOTE)%N eqn:Q.
  { apply N.eqb_eq in Q. subst c. discriminate W. }
  destruct (isChar "/" c) eqn:S; [|reflexivity].
  apply N.eqb_eq in S. subst c. discriminate W.
Qed.

Lemma closer_plain c :
  isCloser c = true -> negb (c =? DQUOTE)%N && negb (isChar "/" c) = true.
Proof.
  intros W. destruct (c =? DQUOTE)%N eqn:Q.
  { apply N.eqb_eq in Q. subst c. discriminate W. }
  destruct (isChar "/" c) eqn:S; [|reflexivity].
  apply N.eqb_eq in S. subst c. discriminate W.
Qed.

Lemma closer_not_whiteSpace c : isCloser c = true -> isWhiteSpace c = false.
Proof.
  unfold isCloser. intros C. apply orb_prop in C.
  destruct C as [C|C]; apply N.eqb_eq in C; subst c; reflexivity.
Qed.

Lemma dropWhile_app_stop p a c s :
  forallb p a = true -> p c = false -> dropWhile p (a ++ c :: s) = c :: s.
Proof.
  induction a as [|d a IH]; simpl; intros A C.
  - rewrite C. reflexivity.
  - apply andb_prop in A. destruct A as [-> A]. auto.
Qed.

Lemma dropWhile_app p r s :
  dropWhile p (r ++ s)
  = match dropWhile p r with
    | [] => dropWhile p s
    | b :: t => b :: t ++ s
    end.
Proof.
  induction r as [|c r IH]; simpl.
  - destruct (dropWhile p s); reflexivity.
  - destruct (p c); [exact IH|reflexivity].
Qed.

Lemma trailingComma_hit ws b rest :
  forallb isWhiteSpace ws = true -> isCloser b = true ->
  trailingComma (chr "," :: ws ++ b :: rest) = Some (S (S (length ws)), ws ++ [b]).
Proof.
  intros W C. pose proof (closer_not_whiteSpace b C) as NW.
  unfold trailingComma. change (isChar "," (chr ",")) with true. cbv iota.
  rewrite takeWhile_app_stop, dropWhile_app_stop by assumption.
  fold (isCloser b). rewrite C. reflexivity.
Qed.

(** A place where the expression does not match does not match either when
    the text goes on with something that is neither white space nor a
    closing bracket. *)
Lemma trailingComma_extend c r d s :
  trailingComma (c :: r) = None ->
  isWhiteSpace d = false -> isCloser d = false ->
  trailingComma (c :: r ++ d :: s) = None.
Proof.
  unfold trailingComma. destruct (isChar "," c); [|reflexivity].
  rewrite dropWhile_app. intros T W C.
  destruct (dropWhile isWhiteSpace r) as [|b t].
  - simpl. rewrite W. fold (isCloser d). rewrite C. reflexivity.
  - destruct (isChar "}" b || isChar "]" b); [discriminate T|reflexivity].
Qed.

Lemma commaBeforeCloser_cons c s :
  commaBeforeCloser (c :: s)
  = match trailingComma (c :: s) with Some _ => true | None => false end
    || commaBeforeCloser s.
Proof. reflexivity. Qed.

Lemma commaBeforeCloser_suffix a1 a2 :
  commaBeforeCloser (a1 ++ a2) = false -> trailingComma a2 = None.
Proof.
  induction a1 as [|c a1 IH]; intros B.
  - destruct a2 as [|c a2]; [reflexivity|]. simpl app in B.
    rewrite commaBeforeCloser_cons in B.
    apply orb_false_elim in B. destruct B as [B _].
    destruct (trailingComma (c :: a2)); [discriminate|reflexivity].
  - simpl app in B. rewrite commaBeforeCloser_cons in B.
    apply orb_false_elim in B. destruct B as [_ B]. exact (IH B).
Qed.

Lemma replaceAll_trailingComma_none s :
  commaBeforeCloser s = false -> replaceAll trailingComma s = s.
Proof.
  induction s as [|c s IH]; intros B; [reflexivity|].
  rewrite replaceAll_miss by (apply (commaBeforeCloser_suffix []); exact B).
  f_equal. apply IH. rewrite commaBeforeCloser_cons in B.
  apply orb_false_elim in B. tauto.
Qed.

Lemma replaceAll_trailingComma_hit a ws b rest :
  commaBeforeCloser a = false ->
  forallb isWhiteSpace ws = true -> isCloser b = true ->
  replaceAll trailingComma (a ++ chr "," :: ws ++ b :: rest)
  = a ++ ws ++ b :: replaceAll trailingComma rest.
Proof.
  intros A W C. rewrite replaceAll_copy.
  - f_equal. rewrite (replaceAll_hit _ _ _ _ _ (trailingComma_hit ws b rest W C)).
    assert (D : drop (pred (S (S (length ws)))) (ws ++ b :: rest) = rest).
    { rewrite cons_middle, app_assoc. apply drop_app_length'.
      rewrite length_app. simpl. lia. }
    rewrite D, <- app_assoc. reflexivity.
  - intros a1 c a2 E. apply trailingComma_extend; [|reflexivity..].
    apply (commaBeforeCloser_suffix a1). rewrite <- E. exact A.
Qed.

Lemma dropWhile_sublist p s : dropWhile p s `sublist_of` s.
Proof.
  rewrite <- (takeWhile_dropWhile p s) at 2. apply sublist_inserts_l. reflexivity.
Qed.

Lemma skipBlock_sublist r : skipBlock r `sublist_of` r.
Proof.
  induction r as [|c1 r IH]; [reflexivity|].
  destruct r as [|c2 r']; [reflexivity|]. rewrite skipBlock_cons.
  destruct (isChar "*" c1 && isChar "/" c2).
  - do 2 apply sublist_cons. reflexivity.
  - apply sublist_cons. exact IH.
Qed.

Lemma scan_sublist fuel r inString escaped : scan fuel r inString escaped `sublist_of` r.
Proof.
  revert r inString escaped. induction fuel as [|fuel IH]; intros r i e.
  { apply sublist_nil_l. }
  destruct r as [|c rest]; [reflexivity|]. simpl.
  destruct e; [apply sublist_skip, IH|].
  destruct (isChar "\" c && i); [apply sublist_skip, IH|].
  destruct (c =? DQUOTE)%N; [apply sublist_skip, IH|].
  destruct (negb i && isChar "/" c && nextIs "/" rest).
  { etransitivity; [apply IH|]. apply (dropWhile_sublist _ (c :: rest)). }
  destruct (negb i && isChar "/" c && nextIs "*" rest).
  { etransitivity; [apply IH|]. etransitivity; [apply skipBlock_sublist|].
    apply (sublist_drop (c :: rest) 2). }
  apply sublist_skip, IH.
Qed.

(** A replacement that puts part of the match in its place only deletes. *)
Lemma replaceFrom_sublist (m : matcher) :
  (forall s n rep, m s = Some (n, rep) -> 0 < n /\ rep `sublist_of` take n s) ->
  forall s k, replaceFrom m k s `sublist_of` drop k s.
Proof.
  intros M s. induction s as [|c s IH]; intros k.
  { destruct k; reflexivity. }
  destruct k as [|k]; [|apply IH]. simpl.
  destruct (m (c :: s)) as [[n rep]|] eqn:E.
  - destruct (M _ _ _ E) as [Pos Sub]. destruct n as [|n]; [lia|].
    rewrite <- (take_drop (S n) (c :: s)). apply sublist_app; [exact Sub|apply IH].
  - apply sublist_skip. exact (IH 0).
Qed.

Lemma trailingComma_deletes s n rep :
  trailingComma s = Some (n, rep) -> 0 < n /\ rep `sublist_of` take n s.
Proof.
  unfold trailingComma. destruct s as [|c rest]; [discriminate|].
  destruct (isChar "," c); [|discriminate].
  pose proof (takeWhile_dropWhile isWhiteSpace rest) as TD.
  remember (takeWhile isWhiteSpace rest) as ws eqn:Ws. clear Ws.
  destruct (dropWhile isWhiteSpace rest) as [|b t]; [discriminate|].
  destruct (isChar "}" b || isChar "]" b); [|discriminate].
  intros [= <- <-]. split; [lia|]. subst rest.
  simpl take. apply sublist_cons.
  assert (T : take (S (length ws)) (ws ++ b :: t) = ws ++ [b]).
  { rewrite cons_middle, app_assoc. apply take_app_length'.
    rewrite length_app. simpl. lia. }
  rewrite T. reflexivity.
Qed.

Lemma scan_open fuel x : scan (S fuel) (DQUOTE :: x) false false = DQUOTE :: scan fuel x true false.
Proof. reflexivity. Qed.

Lemma stripComments_literal body rest :
  stringBody false body = true ->
  stripComments (quoted body ++ rest) = quoted body ++ stripComments rest.
Proof.
  intros B. unfold stripComments at 1. unfold quoted.
  simpl app. rewrite <- !app_assoc. simpl app. rewrite scan_open.
  rewrite scan_string_body
    by first [exact B | cbn [length]; rewrite ?length_app; cbn [length]; lia].
  do 3 f_equal. apply scan_fuel; cbn [length]; rewrite ?length_app; cbn [length]; lia.
Qed.

(** X6.  Comment removal copies a string literal whatever it holds
    (slashes, stars, escaped quotes): after a text without comment, a
    literal goes through as it is and the removal goes on behind it. *)
Theorem comment_removal_keeps_string_literals (a body rest : jsstring) :
  commentFree a = true ->
  stringBody false body = true ->
  stripComments (a ++ quoted body ++ rest) = a ++ quoted body ++ stripComments rest.
Proof.
  intros A B. rewrite stripComments_copy by exact A. f_equal.
  apply stripComments_literal, B.
Qed.

Lemma comment_removal_keeps_string_literals_witness :
  stripComments (doc "{'url': 'http://x/*y*/'}// c")
  = doc "{'url': 'http://x/*y*/'}".
Proof.
  pose proof (comment_removal_keeps_string_literals
                (doc "{'url': ") (lit "http://x/*y*/") (lit "}// c") eq_refl eq_refl) as T.
  etransitivity; [exact T|]. reflexivity.
Defined.

(** X7.  After a text without comment, a block comment that is closed
    goes away entirely, from its opener to the first closer, and the
    removal goes on behind it. *)
Theorem closed_block_comment_is_removed (a body rest : jsstring) :
  commentFree a = true ->
  includes (lit "*/") body = false ->
  stripComments (a ++ lit "/*" ++ body ++ lit "*/" ++ rest) = a ++ stripComments rest.
Proof.
  intros A B. rewrite stripComments_copy by exact A. f_equal.
  apply stripComments_block, B.
Qed.

Lemma closed_block_comment_is_removed_witness :
  stripComments (doc "{'a': 1 /* one * / */, 'b': 2}") = doc "{'a': 1 , 'b': 2}".
Proof.
  pose proof (closed_block_comment_is_removed
                (doc "{'a': 1 ") (lit " one * / ") (doc ", 'b': 2}") eq_refl eq_refl) as T.
  etransitivity; [exact T|]. reflexivity.
Defined.

(** X8.  After a text without comment, a single-line comment goes away up
    to the line break, which stays; on the last line it goes away up to
    the end of the text. *)
Theorem line_comment_is_removed (a body rest : jsstring) :
  commentFree a = true ->
  forallb (fun c => negb (c =? NEWLINE)%N) body = true ->
  stripComments (a ++ lit "//" ++ body ++ NEWLINE :: rest) = a ++ NEWLINE :: stripComments rest
  /\ stripComments (a ++ lit "//" ++ body) = a.
Proof.
  intros A B. split.
  - rewrite stripComments_copy by exact A. f_equal. apply stripComments_line, B.
  - rewrite stripComments_copy, stripComments_line_end by assumption. apply app_nil_r.
Qed.

Lemma line_comment_is_removed_witness :
  stripComments (doc "{ // the 'theme'" ++ nl ++ doc "'a': 1 }") = doc "{ " ++ nl ++ doc "'a': 1 }".
Proof.
  pose proof (line_comment_is_removed
                (lit "{ ") (doc " the 'theme'") (doc "'a': 1 }") eq_refl eq_refl) as [T _].
  etransitivity; [exact T|]. reflexivity.
Defined.

(** X9.  The stripping step only deletes: what it returns is the text
    with some code units left out, none added, none moved. *)
Theorem stripJsonc_only_deletes (settingsContent : jsstring) :
  stripJsonc settingsContent `sublist_of` settingsContent
  /\ length (stripJsonc settingsContent) <= length settingsContent.
Proof.
  assert (S : stripJsonc settingsContent `sublist_of` settingsContent).
  { unfold stripJsonc, replaceAll. etransitivity.
    - apply (replaceFrom_sublist trailingComma trailingComma_deletes _ 0).
    - apply scan_sublist. }
  split; [exact S|]. apply sublist_length, S.
Qed.

(** X10.  A text that has no slash outside its string literals and no
    comma before a closing bracket (inside its literals or outside) goes
    through the stripping step unchanged. *)
Theorem stripJsonc_leaves_plain_json (settingsContent : jsstring) :
  slashOnlyInStrings false false settingsContent = true ->
  commaBeforeCloser settingsContent = false ->
  stripJsonc settingsContent = settingsContent.
Proof.
  intros S B. unfold stripJsonc. rewrite stripComments_no_slash by exact S.
  apply replaceAll_trailingComma_none, B.
Qed.

Lemma stripJsonc_leaves_plain_json_witness :
  stripJsonc (doc "{'url': 'http://x', 'list': [1, 2]}")
  = doc "{'url': 'http://x', 'list': [1, 2]}".
Proof. apply stripJsonc_leaves_plain_json; reflexivity. Defined.

(** X11.  A comma that stands before a closing bracket goes away, also
    when a block comment stands between the two: the comments are removed
    first, the commas after.  The white space on both sides stays. *)
Theorem trailing_comma_is_removed (a ws1 body ws2 rest : jsstring) (b : N) :
  commentFree a = true ->
  commaBeforeCloser a = false ->
  forallb isWhiteSpace ws1 = true ->
  forallb isWhiteSpace ws2 = true ->
  includes (lit "*/") body = false ->
  isCloser b = true ->
  stripJsonc (a ++ chr "," :: ws1 ++ b :: rest) = a ++ ws1 ++ b :: stripJsonc rest
  /\ stripJsonc (a ++ chr "," :: ws1 ++ lit "/*" ++ body ++ lit "*/" ++ ws2 ++ b :: rest)
     = a ++ ws1 ++ ws2 ++ b :: stripJsonc rest.
Proof.
  intros A NC W1 W2 B C.
  assert (P1 : commentFree (a ++ chr "," :: ws1) = true).
  { apply commentFree_app; [exact A|]. apply commentFree_plain. simpl.
    apply forallb_forall. intros x X. apply whiteSpace_plain.
    rewrite forallb_forall in W1. exact (W1 x X). }
  assert (P2 : commentFree (ws2 ++ [b]) = true).
  { apply commentFree_plain. rewrite forallb_app. simpl.
    rewrite (closer_plain b C), andb_true_r.
    apply forallb_forall. intros x X. apply whiteSpace_plain.
    rewrite forallb_forall in W2. exact (W2 x X). }
  unfold stripJsonc. split.
  - replace (a ++ chr "," :: ws1 ++ b :: rest)
      with ((a ++ chr "," :: ws1) ++ ([] ++ [b]) ++ rest)
      by (rewrite <- !app_assoc; reflexivity).
    rewrite stripComments_copy by exact P1.
    rewrite stripComments_copy by (apply commentFree_plain; cbn [forallb app];
                                   rewrite (closer_plain b C); reflexivity).
    transitivity (replaceAll trailingComma (a ++ chr "," :: ws1 ++ b :: stripComments rest)).
    { f_equal. rewrite <- !app_assoc. reflexivity. }
    apply replaceAll_trailingComma_hit; assumption.
  - replace (a ++ chr "," :: ws1 ++ lit "/*" ++ body ++ lit "*/" ++ ws2 ++ b :: rest)
      with ((a ++ chr "," :: ws1) ++ lit "/*" ++ body ++ lit "*/" ++ (ws2 ++ [b]) ++ rest)
      by (rewrite <- !app_assoc; reflexivity).
    rewrite stripComments_copy by exact P1.
    rewrite stripComments_block by exact B.
    rewrite stripComments_copy by exact P2.
    transitivity (replaceAll trailingComma
                    (a ++ chr "," :: (ws1 ++ ws2) ++ b :: stripComments rest)).
    { f_equal. rewrite <- !app_assoc. reflexivity. }
    rewrite replaceAll_trailingComma_hit; [|assumption| |assumption].
    + rewrite <- app_assoc. reflexivity.
    + rewrite forallb_app, W1, W2. reflexivity.
Qed.

Lemma trailing_comma_is_removed_witness :
  stripJsonc (doc "{'list': [1, 2, /* more */ ], }") = doc "{'list': [1, 2  ] }".
Proof.
  pose proof (trailing_comma_is_removed
                (doc "{'list': [1, 2") (lit " ") (lit " more ") (lit " ") (lit ", }") (chr "]")
                eq_refl eq_refl eq_refl eq_refl eq_refl eq_refl) as [_ T].
  etransitivity; [exact T|]. reflexivity.
Defined.

(** ** Exceptions and effects of the installers *)

Lemma existsSync_present p w : existsSync p w = (Ok (present w p), w).
Proof. reflexivity. Qed.

Lemma ensureDir_present w p : present w p = true -> ensureDir p w = (Ok tt, w).
Proof.
  intros P. unfold ensureDir. rewrite (bind_ok _ _ _ _ _ (existsSync_present p w)), P.
  reflexivity.
Qed.

Lemma ensureDir_made w p :
  present w p = false -> fs_fault w OpMkdir p = None ->
  ensureDir p w = (Ok tt, setDirs ({[ p ]} ∪ dirs w) w).
Proof.
  intros P F. unfold ensureDir. rewrite (bind_ok _ _ _ _ _ (existsSync_present p w)), P.
  unfold mkdirSync. rewrite F. reflexivity.
Qed.

Lemma ensureDir_fails w p e :
  present w p = false -> fs_fault w OpMkdir p = Some e ->
  ensureDir p w = (Throw e, setDirs (mkdir_left w p ∪ dirs w) w).
Proof.
  intros P F. unfold ensureDir. rewrite (bind_ok _ _ _ _ _ (existsSync_present p w)), P.
  unfold mkdirSync. rewrite F. reflexivity.
Qed.

Lemma tryCatch_ok {A} (m : IO A) h w a w' : m w = (Ok a, w') -> tryCatch m h w = (Ok a, w').
Proof. intros E. unfold tryCatch. rewrite E. reflexivity. Qed.

Lemma tryCatch_throw {A} (m : IO A) h w e w' :
  m w = (Throw e, w') -> tryCatch m h w = h e w'.
Proof. intros E. unfold tryCatch. rewrite E. reflexivity. Qed.

Lemma total_ret {A} (a : A) : total (ret a).
Proof. intros w. exists a, w. reflexivity. Qed.

Lemma total_gets {A} (f : World -> A) : total (gets f).
Proof. intros w. exists (f w), w. reflexivity. Qed.

Lemma total_existsSync p : total (existsSync p).
Proof. intros w. exists (present w p), w. reflexivity. Qed.

Lemma total_bind {A B} (m : IO A) (k : A -> IO B) :
  total m -> (forall a, total (k a)) -> total (m ≫= k).
Proof.
  intros M K w. destruct (M w) as (a & w' & E). rewrite (bind_ok _ _ _ _ _ E). apply K.
Qed.

(** A [try] whose handler returns always returns. *)
Lemma total_tryCatch {A} (m : IO A) h : (forall e, total (h e)) -> total (tryCatch m h).
Proof.
  intros K w. unfold tryCatch. destruct (m w) as [[a|e] w'].
  - exists a, w'. reflexivity.
  - apply K.
Qed.

Ltac total_step :=
  first
    [ apply total_ret
    | apply total_gets
    | apply total_existsSync
    | apply total_tryCatch; intros ?
    | apply total_bind; [|intros ?]
    | lazymatch goal with
      | |- total (match ?x with _ => _ end) => destruct x
      end ].

Section Effects.
Context `{Runtime}.

Lemma guarded_total install themeId : In install guardedInstallers -> total (install themeId).
Proof.
  unfold guardedInstallers. simpl.
  intros [<-|[<-|[<-|[]]]];
    [ unfold installToTerminalApp | unfold setTerminalDefault
    | unfold installToWindowsTerminal ];
    repeat total_step.
Qed.

(** X12.  [installToTerminalApp], [setTerminalDefault] and
    [installToWindowsTerminal] never throw: whatever the database, the file
    system and the subprocess do, the promise is fulfilled with a result. *)
Theorem guarded_installers_never_reject (themeId : jsstring) (w : World) :
  Forall (fun install : jsstring -> IO InstallResult =>
            exists r, fst (install themeId w) = Ok r)
         guardedInstallers.
Proof.
  apply Forall_forall. intros install I. apply list_elem_of_In in I.
  destruct (guarded_total install themeId I w) as (r & w' & E).
  exists r. rewrite E. reflexivity.
Qed.

(** What follows the making of the directory never throws. *)
Lemma directory_installer_shape install dir themeId w colors :
  In (install, dir) directoryInstallers ->
  getThemeColors themeId w = Some colors ->
  exists body, total body /\ install themeId w = (ensureDir (dir w) ≫= fun _ => body) w.
Proof.
  unfold directoryInstallers. simpl.
  intros [[= <- <-]|[[= <- <-]|[[= <- <-]|[]]]] G;
    [ unfold installToIterm2 | unfold installToAlacritty | unfold installToKitty ];
    enter G; rewrite gets_bind; cbv beta;
    (eexists; split; [|reflexivity]); repeat total_step.
Qed.

(** A write that fails changes at most the file it was to write. *)
Lemma writeFileSync_fails p text w e :
  fs_fault w OpWrite p = Some e ->
  exists w',
    writeFileSync p text w = (Throw e, w')
    /\ afterFailedWrite p (files w) (files w')
    /\ dirs w' = dirs w /\ exec_log w' = exec_log w.
Proof.
  intros F. unfold writeFileSync. rewrite F.
  destruct (write_left w p) as [leftover|]; eexists; (split; [reflexivity|]);
    cbn [files dirs exec_log setFiles]; (split; [|split; reflexivity]); split.
  - intros q Q. apply lookup_insert_ne. congruence.
  - right. exists leftover. apply lookup_insert_eq.
  - reflexivity.
  - left. reflexivity.
Qed.

Lemma directory_installer_throws (body : IO InstallResult) p w e :
  present w p = false -> fs_fault w OpMkdir p = Some e ->
  fst ((ensureDir p ≫= fun _ => body) w) = Throw e
  /\ files (snd ((ensureDir p ≫= fun _ => body) w)) = files w
  /\ exec_log (snd ((ensureDir p ≫= fun _ => body) w)) = exec_log w.
Proof.
  intros P F. rewrite (bind_throw _ _ _ _ _ (ensureDir_fails w p e P F)).
  split; [|split]; reflexivity.
Qed.

(** X13.  [installToIterm2], [installToAlacritty] and [installToKitty]
    make their directory before the [try].  When the theme has colours,
    nothing is at the path of the directory and [mkdirSync] fails, each of
    them throws the error of [mkdirSync] instead of returning a result, and
    it has written no file and run no command by then. *)
Theorem installers_reject_when_mkdir_fails (themeId : jsstring) (w : World) (e : jsstring) :
  Forall (fun '(install, dir) =>
            getThemeColors themeId w <> None ->
            present w (dir w) = false ->
            fs_fault w OpMkdir (dir w) = Some e ->
            fst (install themeId w) = Throw e
            /\ files (snd (install themeId w)) = files w
            /\ exec_log (snd (install themeId w)) = exec_log w)
         directoryInstallers.
Proof.
  apply Forall_forall. intros [install dir] I. apply list_elem_of_In in I.
  intros G P F.
  destruct (getThemeColors themeId w) as [colors|] eqn:G'; [|contradiction].
  destruct (directory_installer_shape install dir themeId w colors I G') as (body & _ & ->).
  apply directory_installer_throws; assumption.
Qed.


Ltac effects :=
  unfold ret, mbind, IO_bind, mret, IO_ret, tryCatch, writeFileSync, readFileSync, execAsync;
  cbn [fs_fault exec_fault exec_log files dirs setDirs setFiles setExecLog fst snd].

(** X14.  When the profile file of iTerm2 cannot be written, the
    installer returns a failure with the path of the profile and the error
    of the write, and runs no script.  No other file is changed; the
    profile file is as it was or holds what the write left there, for a
    write that failed is not undone. *)
Theorem iterm2_write_failure (themeId : jsstring) (w : World) (colors : ThemeColors)
    (e : jsstring) :
  getThemeColors themeId w = Some colors ->
  let themeName := getThemeName themeId w in
  let dir := path_join [app_home w; lit "Library/Application Support/iTerm2/DynamicProfiles"] in
  let profilePath := path_join [dir; slug themeName ++ lit ".json"] in
  dirAvailable w dir ->
  fs_fault w OpWrite profilePath = Some e ->
  exists w',
    installToIterm2 themeId w
    = (Ok (failed profilePath (lit "Failed to write profile: " ++ e)), w')
    /\ exec_log w' = exec_log w
    /\ afterFailedWrite profilePath (files w) (files w').
Proof.
  intros G themeName dir profilePath D Wr.
  unfold installToIterm2. enter G. rewrite gets_bind. cbv beta.
  fold themeName. fold dir. fold profilePath.
  destruct (ensureDir_ok w dir D) as (d & E & _). rewrite (bind_ok _ _ _ _ _ E).
  destruct (writeFileSync_fails profilePath
              (JSON_stringify (itermProfile themeName themeId colors) 2) (setDirs d w) e Wr)
    as (w' & Ew & A & _ & L).
  exists w'. split; [|split; [exact L|exact A]].
  erewrite tryCatch_throw; [reflexivity|].
  rewrite (bind_throw _ _ _ _ _ Ew). reflexivity.
Qed.

(** X15.  When the profile file of iTerm2 can be written, the installer
    writes the profile of the theme, as [JSON.stringify] prints it with an
    indent of two, to the file named by the slug, changes no other file,
    and runs one command: the script that selects the profile.  The
    directory of the profiles is there afterwards. *)
Theorem iterm2_install_effects (themeId : jsstring) (w : World) (colors : ThemeColors) :
  getThemeColors themeId w = Some colors ->
  let themeName := getThemeName themeId w in
  let dir := path_join [app_home w; lit "Library/Application Support/iTerm2/DynamicProfiles"] in
  let profilePath := path_join [dir; slug themeName ++ lit ".json"] in
  dirAvailable w dir ->
  fs_fault w OpWrite profilePath = None ->
  exists r w',
    installToIterm2 themeId w = (Ok r, w')
    /\ files w'
       = <[ profilePath := JSON_stringify (itermProfile themeName themeId colors) 2 ]> (files w)
    /\ exec_log w' = exec_log w ++ [osascript (itermScript themeName)]
    /\ present w' dir = true.
Proof.
  intros G themeName dir profilePath D Wr.
  unfold installToIterm2. enter G. rewrite gets_bind. cbv beta.
  fold themeName. fold dir. fold profilePath.
  assert (E : exists d, ensureDir dir w = (Ok tt, setDirs d w)
                        /\ (present w dir = true /\ d = dirs w \/ dir ∈ d)).
  { destruct (present w dir) eqn:P.
    - exists (dirs w). split; [|auto]. rewrite (ensureDir_present _ _ P).
      destruct w; reflexivity.
    - destruct D as [D|D]; [unfold present in P; congruence|].
      eexists. split; [apply (ensureDir_made _ _ P D)|].
      right. apply elem_of_union_l, elem_of_singleton. reflexivity. }
  destruct E as (d & E & Dd). rewrite (bind_ok _ _ _ _ _ E).
  effects. rewrite Wr. effects.
  assert (Pr : forall l,
             present (setExecLog l
                        (setFiles (<[ profilePath :=
                                        JSON_stringify (itermProfile themeName themeId colors) 2 ]>
                                     (files w)) (setDirs d w))) dir = true).
  { intros l. unfold present. cbn [files dirs setFiles setDirs setExecLog].
    destruct Dd as [[P ->]|Dd].
    - unfold present in P. apply orb_prop in P. destruct P as [P|P].
      + apply bool_decide_eq_true_1 in P. destruct P as [c P].
        apply orb_true_intro. left. apply bool_decide_eq_true_2.
        destruct (decide (profilePath = dir)) as [->|Ne].
        * rewrite lookup_insert_eq. eexists. reflexivity.
        * rewrite lookup_insert_ne by exact Ne. eexists. exact P.
      + rewrite P. apply orb_true_r.
    - rewrite (bool_decide_eq_true_2 _ Dd). apply orb_true_r. }
  destruct (exec_fault w (osascript (itermScript themeName))); effects;
    (eexists; eexists; split; [reflexivity|]; split; [reflexivity|];
     split; [reflexivity|apply Pr]).
Qed.

(** X16.  The two Terminal.app installers work through [osascript]
    alone: whatever happens, they leave the files and the directories as
    they were. *)
Theorem terminal_installers_leave_files (themeId : jsstring) (w : World) :
  Forall (fun install : jsstring -> IO InstallResult =>
            files (snd (install themeId w)) = files w
            /\ dirs (snd (install themeId w)) = dirs w)
         [installToTerminalApp; setTerminalDefault].
Proof.
  repeat (apply Forall_cons; split); [| |apply Forall_nil; exact I].
  - unfold installToTerminalApp. rewrite !gets_bind.
    destruct (getThemeColors themeId w) as [colors|]; [|split; reflexivity].
    effects.
    destruct (exec_fault w _); effects; [split; reflexivity|].
    destruct (exec_fault w _); effects; split; reflexivity.
  - unfold setTerminalDefault. rewrite !gets_bind.
    destruct (getThemeColors themeId w) as [colors|]; [|split; reflexivity].
    effects.
    destruct (exec_fault w _); effects; split; reflexivity.
Qed.

(** X17.  When the script that creates the Terminal.app profile fails,
    [installToTerminalApp] returns one fixed error text, whatever the error
    was, and does not run the second script; when the script of
    [setTerminalDefault] fails, the error text ends with the error. *)
Theorem terminal_script_failure (themeId : jsstring) (w : World) (colors : ThemeColors)
    (e : jsstring) :
  getThemeColors themeId w = Some colors ->
  let escapedName := escapeName (getThemeName themeId w) in
  let create := osascript (createProfileScript escapedName colors) in
  let default := osascript (defaultScript escapedName colors) in
  (exec_fault w create = Some e ->
   fst (installToTerminalApp themeId w)
   = Ok (failed [] (lit "Failed to create Terminal profile. Make sure Terminal.app is running."))
   /\ exec_log (snd (installToTerminalApp themeId w)) = exec_log w ++ [create])
  /\ (exec_fault w default = Some e ->
      fst (setTerminalDefault themeId w) = Ok (failed [] (lit "Failed to set default: " ++ e))
      /\ exec_log (snd (setTerminalDefault themeId w)) = exec_log w ++ [default]).
Proof.
  intros G escapedName create default. split; intros F.
  - unfold installToTerminalApp. enter G. fold escapedName. fold create.
    effects. rewrite F. split; reflexivity.
  - unfold setTerminalDefault. enter G. fold escapedName. fold default.
    effects. rewrite F. split; reflexivity.
Qed.

End Effects.

Lemma iterm2_write_failure_witness :
  exists w',
    @installToIterm2 Example.host (lit "t1") Cases.readOnly
    = (Ok (failed (lit "/home/u/Library/Application Support/iTerm2/DynamicProfiles/mocha.json")
             (lit "Failed to write profile: Error: EACCES: permission denied")), w')
    /\ exec_log w' = [].
Proof.
  eassert (G : getThemeColors (lit "t1") Cases.readOnly = Some _) by (vm_compute; reflexivity).
  destruct (@iterm2_write_failure Example.host _ _ _ (lit "Error: EACCES: permission denied") G)
    as (w' & E & L & _).
  - left. vm_compute. reflexivity.
  - reflexivity.
  - exists w'. split; [|exact L]. rewrite E. vm_compute. reflexivity.
Defined.

Lemma iterm2_install_effects_witness :
  exists r w',
    @installToIterm2 Example.host (lit "t1") Example.world = (Ok r, w')
    /\ exec_log w' = [osascript (@itermScript (lit "Mocha"))].
Proof.
  eassert (G : getThemeColors (lit "t1") Example.world = Some _) by (vm_compute; reflexivity).
  destruct (@iterm2_install_effects Example.host _ _ _ G) as (r & w' & E & _ & L & _).
  - right. reflexivity.
  - reflexivity.
  - exists r, w'. split; [exact E|]. rewrite L. reflexivity.
Defined.

Lemma terminal_script_failure_witness :
  fst (installToTerminalApp (lit "t1") Example.offline)
  = Ok (failed [] (lit "Failed to create Terminal profile. Make sure Terminal.app is running."))
  /\ fst (setTerminalDefault (lit "t1") Example.offline)
     = Ok (failed [] (lit "Failed to set default: Error: Command failed")).
Proof.
  eassert (G : getThemeColors (lit "t1") Example.offline = Some _) by (vm_compute; reflexivity).
  destruct (terminal_script_failure _ _ _ (lit "Error: Command failed") G) as [T1 T2].
  split; [apply T1|apply T2]; reflexivity.
Defined.

Lemma installers_reject_when_mkdir_fails_witness :
  fst (@installToKitty Example.host (lit "t1") Cases.readOnly)
  = Throw (lit "Error: EACCES: permission denied")
  /\ files (snd (@installToKitty Example.host (lit "t1") Cases.readOnly)) = ∅.
Proof.
  pose proof (@installers_reject_when_mkdir_fails Example.host (lit "t1") Cases.readOnly
                (lit "Error: EACCES: permission denied")) as T.
  unfold directoryInstallers in T.
  do 2 (apply Forall_cons in T; destruct T as [_ T]).
  apply Forall_cons in T. destruct T as [T _].
  destruct T as (T1 & T2 & _); [vm_compute; discriminate|reflexivity|reflexivity|].
  split; [exact T1|exact T2].
Defined.

(** ** The Windows Terminal installer *)

Section WindowsTerminalEffects.
Context `{Runtime}.

Lemma installToWindowsTerminal_choice themeId w colors :
  getThemeColors themeId w = Some colors ->
  installToWindowsTerminal themeId w
  = afterChoice (getThemeName themeId w) colors (actualSettingsPath w) w.
Proof.
  intros G. unfold installToWindowsTerminal. enter G.
  repeat (rewrite gets_bind; cbv beta).
  rewrite (bind_ok _ _ _ _ _ (existsSync_present _ w)).
  lazymatch goal with
  | |- (?m ≫= ?k) w = _ =>
      assert (E : m w = (Ok (actualSettingsPath w), w));
      [|rewrite (bind_ok _ _ _ _ _ E); reflexivity]
  end.
  unfold actualSettingsPath, windowsSettingsPaths. cbn [List.find].
  destruct (present w _); [reflexivity|].
  rewrite (bind_ok _ _ _ _ _ (existsSync_present _ w)).
  destruct (present w _); [reflexivity|].
  rewrite (bind_ok _ _ _ _ _ (existsSync_present _ w)).
  destruct (present w _); reflexivity.
Qed.


Lemma liftOutcome_ok {A B} (m : Outcome A) (k : A -> IO B) w a :
  m = Ok a -> (liftOutcome m ≫= k) w = k a w.
Proof. intros ->. reflexivity. Qed.

(** When none of the three settings files is there, the installer reports
    that Windows Terminal was not found. *)
Lemma settings_not_found (themeId : jsstring) (w : World)
    (colors : ThemeColors) :
  getThemeColors themeId w = Some colors ->
  Forall (fun p => present w p = false) (windowsSettingsPaths w) ->
  installToWindowsTerminal themeId w
  = (Ok (failed [] (lit "Windows Terminal settings not found. Is Windows Terminal installed?")),
     w).
Proof.
  intros G A. rewrite (installToWindowsTerminal_choice _ _ _ G).
  unfold actualSettingsPath. unfold windowsSettingsPaths in *.
  repeat (apply Forall_cons in A; destruct A as [? A]).
  cbn [List.find]. repeat match goal with P : present _ _ = false |- _ => rewrite P; clear P end.
  reflexivity.
Qed.

(** X19.  How the installer fails.  With no settings file at any of
    the three places it reports that Windows Terminal was not found, with an
    empty path.  A file that cannot be read and a document that the update
    rejects are reported as an update failure with the error, a text that
    does not parse after stripping as a parse failure; in these cases
    nothing was changed.  A file that cannot be written is reported as an
    update failure too; no other file is changed then, and the settings file
    is as it was or holds what the write left there. *)
Theorem windows_terminal_failures (themeId : jsstring) (w : World)
    (colors : ThemeColors) :
  getThemeColors themeId w = Some colors ->
  let p := actualSettingsPath w in
  let themeName := getThemeName themeId w in
  let updateFailure e := failed p (lit "Failed to update Windows Terminal settings: " ++ e) in
  (Forall (fun q => present w q = false) (windowsSettingsPaths w) ->
   installToWindowsTerminal themeId w
   = (Ok (failed []
            (lit "Windows Terminal settings not found. Is Windows Terminal installed?")), w))
  /\ (truthy p = true ->
      (forall e, readFileSync p w = (Throw e, w) ->
                 installToWindowsTerminal themeId w = (Ok (updateFailure e), w))
      /\ (forall content, readFileSync p w = (Ok content, w) ->
            (forall err, JSON_parse (Jsonc.stripJsonc content) = inl err ->
               installToWindowsTerminal themeId w
               = (Ok (failed p (lit "Failed to parse Windows Terminal settings: " ++ err)),
                  w))
            /\ (forall settings, JSON_parse (Jsonc.stripJsonc content) = inr settings ->
                 (forall e,
                    updateSettings themeName (windowsScheme themeName colors) settings
                    = Throw e ->
                    installToWindowsTerminal themeId w = (Ok (updateFailure e), w))
                 /\ (forall settings' e,
                       updateSettings themeName (windowsScheme themeName colors) settings
                       = Ok settings' ->
                       fs_fault w OpWrite p = Some e ->
                       exists w',
                         installToWindowsTerminal themeId w = (Ok (updateFailure e), w')
                         /\ afterFailedWrite p (files w) (files w')
                         /\ dirs w' = dirs w /\ exec_log w' = exec_log w)))).
Proof.
  intros G p themeName updateFailure. split; [apply (settings_not_found _ _ _ G)|]. intros T.
  rewrite (installToWindowsTerminal_choice _ _ _ G). fold p. fold themeName.
  unfold afterChoice. rewrite T. cbn [negb]. split.
  - intros e R. erewrite tryCatch_throw; [reflexivity|].
    rewrite (bind_throw _ _ _ _ _ R). reflexivity.
  - intros content R. split.
    + intros err P. erewrite tryCatch_ok; [reflexivity|].
      rewrite (bind_ok _ _ _ _ _ R). cbv zeta. rewrite P. reflexivity.
    + intros settings P. split.
      * intros e U. erewrite tryCatch_throw; [reflexivity|].
        rewrite (bind_ok _ _ _ _ _ R). cbv zeta. rewrite P.
        unfold liftOutcome, mbind, IO_bind. rewrite U. reflexivity.
      * intros settings' e U Wr.
        destruct (writeFileSync_fails p (JSON_stringify settings' 4) w e Wr)
          as (w' & Ew & A).
        exists w'. split; [|exact A].
        erewrite tryCatch_throw; [reflexivity|].
        rewrite (bind_ok _ _ _ _ _ R). cbv zeta. rewrite P.
        rewrite (liftOutcome_ok _ _ _ _ U). cbv beta.
        rewrite (bind_throw _ _ _ _ _ Ew). reflexivity.
Qed.

(** X20.  When the chosen settings file can be read, its text parses
    after stripping, the update goes through and the file can be written,
    the installer writes the updated document, printed with an indent of
    four, to the chosen file and changes nothing else. *)
Theorem windows_terminal_writes_chosen_file (themeId : jsstring) (w : World)
    (colors : ThemeColors) (content : jsstring) (settings settings' : value) :
  getThemeColors themeId w = Some colors ->
  let p := actualSettingsPath w in
  let themeName := getThemeName themeId w in
  truthy p = true ->
  readFileSync p w = (Ok content, w) ->
  JSON_parse (Jsonc.stripJsonc content) = inr settings ->
  updateSettings themeName (windowsScheme themeName colors) settings = Ok settings' ->
  fs_fault w OpWrite p = None ->
  installToWindowsTerminal themeId w
  = (Ok (succeeded p
           (lit "Theme " ++ quoted themeName
            ++ lit " applied to Windows Terminal! All open windows updated.")),
     setFiles (<[ p := JSON_stringify settings' 4 ]> (files w)) w).
Proof.
  intros G p themeName T R P U Wr.
  rewrite (installToWindowsTerminal_choice _ _ _ G). fold p. fold themeName.
  unfold afterChoice. rewrite T. cbn [negb].
  erewrite tryCatch_ok; [reflexivity|].
  rewrite (bind_ok _ _ _ _ _ R). cbv zeta. rewrite P.
  unfold liftOutcome, mbind, IO_bind, writeFileSync. rewrite U, Wr. reflexivity.
Qed.

(** X21.  In every state the installer returns a result, makes no
    directory and runs no command, and the one file that it can change is
    the chosen settings file.  When it tells success, its result carries the
    path of that file and the file holds a document as [JSON.stringify]
    prints it with an indent of four.  When it tells failure, a file that
    was there is still there, as it was or with what a write that failed
    has left in it. *)
Theorem windows_terminal_changes_one_file (themeId : jsstring) (w : World) :
  let p := actualSettingsPath w in
  exists r w',
    installToWindowsTerminal themeId w = (Ok r, w')
    /\ dirs w' = dirs w /\ exec_log w' = exec_log w
    /\ (forall q, q <> p -> files w' !! q = files w !! q)
    /\ (success r = true ->
        path r = p
        /\ exists settings', files w' !! p = Some (JSON_stringify settings' 4))
    /\ (success r = false -> afterFailedWrite p (files w) (files w')).
Proof.
  intros p.
  assert (Same : forall r, success r = false ->
            exists r' w',
              (Ok r, w) = (Ok r', w')
              /\ dirs w' = dirs w /\ exec_log w' = exec_log w
              /\ (forall q, q <> p -> files w' !! q = files w !! q)
              /\ (success r' = true ->
                  path r' = p
                  /\ exists settings', files w' !! p = Some (JSON_stringify settings' 4))
              /\ (success r' = false -> afterFailedWrite p (files w) (files w'))).
  { intros r S. exists r, w. split; [reflexivity|]. split; [reflexivity|].
    split; [reflexivity|]. split; [reflexivity|]. split; [congruence|].
    intros _. split; [reflexivity|left; reflexivity]. }
  destruct (getThemeColors themeId w) as [colors|] eqn:G.
  2:{ rewrite (installer_not_found installToWindowsTerminal themeId w);
        [apply Same; reflexivity| |exact G].
      unfold installers. simpl. auto 10. }
  rewrite (installToWindowsTerminal_choice _ _ _ G). fold p.
  set (themeName := getThemeName themeId w).
  unfold afterChoice. destruct (truthy p); cbn [negb]; [|apply Same; reflexivity].
  unfold tryCatch, mbind, IO_bind, readFileSync, liftOutcome.
  destruct (fs_fault w OpRead p); [apply Same; reflexivity|].
  destruct (files w !! p) as [content|] eqn:F; [|apply Same; reflexivity].
  cbv zeta. destruct (JSON_parse (Jsonc.stripJsonc content)) as [err|settings];
    [apply Same; reflexivity|].
  destruct (updateSettings themeName (windowsScheme themeName colors) settings)
    as [settings'|e]; [|apply Same; reflexivity].
  destruct (fs_fault w OpWrite p) as [e|] eqn:Wr.
  - destruct (writeFileSync_fails p (JSON_stringify settings' 4) w e Wr)
      as (w' & -> & A & D & L).
    eexists. exists w'. split; [reflexivity|]. split; [exact D|]. split; [exact L|].
    split; [exact (proj1 A)|]. split; [discriminate|]. intros _. exact A.
  - unfold writeFileSync. rewrite Wr.
    eexists. eexists. split; [reflexivity|]. cbn [files dirs exec_log setFiles].
    split; [reflexivity|]. split; [reflexivity|].
    split; [intros q Q; apply lookup_insert_ne; congruence|].
    split; [|discriminate]. intros _. split; [reflexivity|].
    exists settings'. apply lookup_insert_eq.
Qed.

End WindowsTerminalEffects.

Lemma windows_terminal_failures_witness :
  @installToWindowsTerminal Cases.reader (lit "t1") (Cases.windows (lit "{"))
  = (Ok (failed Cases.previewPath
           (lit "Failed to parse Windows Terminal settings: SyntaxError: Unexpected token")),
     Cases.windows (lit "{"))
  /\ exists w',
       @installToWindowsTerminal Cases.reader (lit "t1") (Cases.fullDisk (lit "{}"))
       = (Ok (failed Cases.previewPath
                (lit "Failed to update Windows Terminal settings: Error: ENOSPC: no space left on device")),
          w')
       /\ files w' !! Cases.previewPath = Some [].
Proof.
  split.
  - eassert (G : getThemeColors (lit "t1") (Cases.windows (lit "{")) = Some _)
      by (vm_compute; reflexivity).
    pose proof (@windows_terminal_failures Cases.reader _ _ _ G) as T.
    cbv zeta in T. destruct T as [_ T]. destruct T as [_ T]; [vm_compute; reflexivity|].
    destruct (T (lit "{")) as [T1 _]; [reflexivity|].
    rewrite (T1 (lit "SyntaxError: Unexpected token") eq_refl).
    reflexivity.
  - eassert (G : getThemeColors (lit "t1") (Cases.fullDisk (lit "{}")) = Some _)
      by (vm_compute; reflexivity).
    pose proof (@windows_terminal_failures Cases.reader _ _ _ G) as T.
    cbv zeta in T. destruct T as [_ T]. destruct T as [_ T]; [vm_compute; reflexivity|].
    destruct (T (lit "{}")) as [_ T2]; [reflexivity|].
    destruct (T2 (VObj []) eq_refl) as [_ T3].
    lazymatch type of G with
    | _ = Some ?colors =>
        eassert (U : updateSettings (lit "Mocha") (windowsScheme (lit "Mocha") colors) (VObj [])
                     = Ok _) by (vm_compute; reflexivity)
    end.
    destruct (T3 _ (lit "Error: ENOSPC: no space left on device") U eq_refl)
      as (w' & E & _).
    exists w'. split; [exact E|].
    replace w' with (snd (@installToWindowsTerminal Cases.reader (lit "t1")
                            (Cases.fullDisk (lit "{}"))))
      by (rewrite E; reflexivity).
    vm_compute. reflexivity.
Defined.

Lemma windows_terminal_writes_chosen_file_witness :
  exists r w',
    @installToWindowsTerminal Cases.reader (lit "t1") (Cases.windows (lit "{}// mine")) = (Ok r, w')
    /\ success r = true
    /\ path r = Cases.previewPath
    /\ files w' !! Cases.previewPath = Some (lit "{ }").
Proof.
  eassert (G : getThemeColors (lit "t1") (Cases.windows (lit "{}// mine")) = Some _)
    by (vm_compute; reflexivity).
  lazymatch type of G with
  | _ = Some ?colors =>
      eassert (U : updateSettings (lit "Mocha") (windowsScheme (lit "Mocha") colors) (VObj [])
                   = Ok _) by (vm_compute; reflexivity)
  end.
  eexists. eexists. split.
  - eapply (@windows_terminal_writes_chosen_file Cases.reader _ _ _ (lit "{}// mine")
              (VObj []) _ G).
    + vm_compute. reflexivity.
    + reflexivity.
    + reflexivity.
    + exact U.
    + reflexivity.
  - split; [reflexivity|]. split; [vm_compute; reflexivity|].
    cbn [files setFiles]. apply lookup_insert_eq.
Defined.

(** ** The update of the settings document *)

Lemma store_store key v1 v2 ms :
  storeMember key v2 (storeMember key v1 ms) = storeMember key v2 ms.
Proof.
  induction ms as [|[k v0] ms IH]; simpl.
  - rewrite bool_decide_eq_true_2 by reflexivity. reflexivity.
  - destruct (bool_decide (k = key)) eqn:E; simpl; rewrite E; [reflexivity|].
    f_equal. exact IH.
Qed.

Lemma store_adds_key key v ms : In key (map fst (storeMember key v ms)).
Proof.
  induction ms as [|[k v0] ms IH]; simpl; [auto|].
  destruct (bool_decide (k = key)) eqn:E; simpl.
  - left. apply bool_decide_eq_true_1 in E. exact E.
  - right. exact IH.
Qed.

Lemma store_keeps_keys key key' v ms :
  In key (map fst ms) -> In key (map fst (storeMember key' v ms)).
Proof.
  induction ms as [|[k v0] ms IH]; simpl; [contradiction|].
  destruct (bool_decide (k = key')); simpl; tauto.
Qed.

(** Storing what is there changes nothing. *)
Lemma store_same key ms :
  In key (map fst ms) -> storeMember key (lookupMember key ms) ms = ms.
Proof.
  induction ms as [|[k v0] ms IH]; simpl; [contradiction|].
  destruct (bool_decide (k = key)) eqn:E; [reflexivity|].
  intros [K|K]; [apply bool_decide_eq_false_1 in E; contradiction|].
  f_equal. exact (IH K).
Qed.

Ltac settle :=
  repeat (cbn [getMember setMember updateMember mbind mret Outcome_bind Outcome_ret
               arrayFilter arrayPush typeError filterItems truthyValue isArray membersOf];
          rewrite ?lookup_head, ?store_head, ?store_nil, ?lookup_store_same, ?store_store,
            ?lookup_store_other by first [discriminate | congruence]).

Lemma filterItems_keepScheme themeName items kept :
  filterItems (keepScheme themeName) items = Ok kept ->
  kept = List.filter (otherName themeName) items.
Proof. apply filterItems_ok. Qed.

Lemma replaceScheme_form themeName scheme ms s' :
  replaceScheme themeName scheme (VObj ms) = Ok s' ->
  s' = VObj (storeMember (lit "schemes")
               (VArr (List.filter (otherName themeName) (schemesOf (VObj ms)) ++ [scheme]) [])
               ms).
Proof.
  unfold replaceScheme, schemesOf, writtenMember.
  cbn [getMember mbind Outcome_bind].
  destruct (lookupMember (lit "schemes") ms) as [| |b|x|s|items named|members] eqn:Sc;
    cbn [truthyValue];
    try match goal with |- context [if ?c then _ else _] => destruct c end;
    settle; rewrite ?Sc; settle; try discriminate;
    try (intros [= <-]; reflexivity).
  fold (keepScheme themeName).
  destruct (filterItems (keepScheme themeName) items) as [kept|e] eqn:F; settle;
    [|discriminate].
  apply filterItems_keepScheme in F. subst kept. intros [= <-]. reflexivity.
Qed.

Lemma applyToDefaults_form themeName ms s' :
  isArray (lookupMember (lit "profiles") ms) = false ->
  isArray (lookupMember (lit "defaults") (membersOf (lookupMember (lit "profiles") ms)))
  = false ->
  applyToDefaults themeName (VObj ms) = Ok s' ->
  let pm := membersOf (lookupMember (lit "profiles") ms) in
  let dm := membersOf (lookupMember (lit "defaults") pm) in
  s' = VObj (storeMember (lit "profiles")
               (VObj (storeMember (lit "defaults")
                        (VObj (storeMember (lit "colorScheme") (VStr themeName) dm)) pm))
               ms).
Proof.
  unfold applyToDefaults.
  cbn [getMember mbind Outcome_bind].
  destruct (lookupMember (lit "profiles") ms) as [| |b|x|s|items named|pm] eqn:P;
    cbn [truthyValue isArray membersOf]; intros A1 A2; try discriminate A1;
    try match goal with |- context [if ?c then _ else _] => destruct c end;
    settle; rewrite ?P; settle; try discriminate;
    try (intros [= <-]; reflexivity).
  destruct (lookupMember (lit "defaults") pm) as [| |b|x|s|ditems dnamed|dm] eqn:D;
    cbn [truthyValue isArray membersOf] in A2 |- *; try discriminate A2;
    try match goal with |- context [if ?c then _ else _] => destruct c end;
    settle; rewrite ?P; settle; rewrite ?D; settle; try discriminate;
    try (intros [= <-]; reflexivity).
Qed.

Lemma updateSettings_form themeName scheme ms s' :
  plainSettings (VObj ms) ->
  updateSettings themeName scheme (VObj ms) = Ok s' ->
  s' = updatedSettings themeName scheme ms.
Proof.
  intros (_ & P1 & P2). unfold updateSettings. cbn [mbind Outcome_bind].
  destruct (replaceScheme themeName scheme (VObj ms)) as [s1|e] eqn:R; [|discriminate].
  apply replaceScheme_form in R. subst s1. intros A.
  apply applyToDefaults_form in A; rewrite ?lookup_store_other in * by discriminate.
  - exact A.
  - exact P1.
  - unfold writtenMember in P2. cbn [writtenMember] in P2.
    destruct (lookupMember (lit "profiles") ms); exact P2.
Qed.

(** X22.  An install on a settings document of the usual shape touches
    three things only: every member of the document but [schemes] and
    [profiles], every member of [profiles] but [defaults] and every member
    of [profiles.defaults] but [colorScheme] is after the install what it
    was before. *)
Theorem updateSettings_keeps_other_settings (themeName : jsstring) (scheme : value)
    (settings settings' : value) :
  plainSettings settings ->
  updateSettings themeName scheme settings = Ok settings' ->
  (forall key, key <> lit "schemes" -> key <> lit "profiles" ->
               memberOf key settings' = memberOf key settings)
  /\ (forall key, key <> lit "defaults" ->
                  memberOf key (memberOf (lit "profiles") settings')
                  = memberOf key (memberOf (lit "profiles") settings))
  /\ (forall key, key <> lit "colorScheme" ->
                  memberOf key (memberOf (lit "defaults") (memberOf (lit "profiles") settings'))
                  = memberOf key
                      (memberOf (lit "defaults") (memberOf (lit "profiles") settings))).
Proof.
  intros P U. pose proof P as ([ms ->] & _).
  rewrite (updateSettings_form _ _ _ _ P U).
  unfold updatedSettings, memberOf. cbn [membersOf].
  rewrite !lookup_store_same. cbn [membersOf]. rewrite !lookup_store_same. cbn [membersOf].
  split; [|split]; intros key; intros; rewrite !lookup_store_other by congruence; reflexivity.
Qed.

Lemma updateSettings_keeps_other_settings_witness :
  exists settings',
    updateSettings (lit "Mocha") (windowsScheme (lit "Mocha") Example.mocha) Settings.custom
    = Ok settings'
    /\ memberOf (lit "theme") settings' = VStr (lit "dark")
    /\ memberOf (lit "font") (memberOf (lit "defaults") (memberOf (lit "profiles") settings'))
       = VStr (lit "Fira Code").
Proof.
  eassert (U : updateSettings (lit "Mocha") (windowsScheme (lit "Mocha") Example.mocha)
                 Settings.custom = Ok _) by (vm_compute; reflexivity).
  assert (P : plainSettings Settings.custom)
    by (split; [eexists; reflexivity|split; reflexivity]).
  eexists. split; [exact U|].
  destruct (updateSettings_keeps_other_settings _ _ _ _ P U) as (K1 & _ & K3).
  split.
  - rewrite K1 by discriminate. reflexivity.
  - rewrite K3 by discriminate. reflexivity.
Defined.

Lemma store_idem key v ms :
  In key (map fst ms) -> lookupMember key ms = v -> storeMember key v ms = ms.
Proof. intros K <-. apply store_same, K. Qed.

Lemma filterItems_app keep a b :
  filterItems keep (a ++ b)
  = ra ← filterItems keep a; rb ← filterItems keep b; mret (ra ++ rb).
Proof.
  induction a as [|s a IH]; simpl.
  - destruct (filterItems keep b); reflexivity.
  - destruct (keep s) as [k|e]; simpl; [|reflexivity]. rewrite IH.
    destruct (filterItems keep a) as [ra|e]; simpl; [|reflexivity].
    destruct (filterItems keep b) as [rb|e]; simpl; [|reflexivity].
    destruct k; reflexivity.
Qed.

(** What the filter kept it keeps again. *)
Lemma filterItems_again keep items kept :
  filterItems keep items = Ok kept -> filterItems keep kept = Ok kept.
Proof.
  revert kept. induction items as [|s items IH]; intros kept; simpl.
  - intros [= <-]. reflexivity.
  - destruct (keep s) as [k|e] eqn:K; simpl; [|discriminate].
    destruct (filterItems keep items) as [rest|e]; simpl; [|discriminate].
    specialize (IH rest eq_refl).
    destruct k; intros [= <-]; [|exact IH].
    simpl. rewrite K. simpl. rewrite IH. reflexivity.
Qed.

Lemma keepScheme_own themeName scheme :
  nameOf scheme = VStr themeName -> keepScheme themeName scheme = Ok false.
Proof.
  unfold keepScheme, nameOf.
  destruct scheme; try discriminate; cbn [getMember mbind Outcome_bind]; intros ->;
    simpl; rewrite bool_decide_eq_true_2 by reflexivity; reflexivity.
Qed.

Lemma replaceScheme_filter themeName scheme ms s' :
  replaceScheme themeName scheme (VObj ms) = Ok s' ->
  exists kept, filterItems (keepScheme themeName) (schemesOf (VObj ms)) = Ok kept.
Proof.
  unfold replaceScheme, schemesOf, writtenMember.
  cbn [getMember mbind Outcome_bind].
  destruct (lookupMember (lit "schemes") ms) as [| |b|x|s|items named|members] eqn:Sc;
    cbn [truthyValue];
    try match goal with |- context [if ?c then _ else _] => destruct c end;
    settle; rewrite ?Sc; settle; try discriminate;
    try (intros _; exists []; reflexivity).
  fold (keepScheme themeName).
  destruct (filterItems (keepScheme themeName) items) as [kept|e] eqn:F; settle;
    [|discriminate].
  intros _. exists kept. reflexivity.
Qed.

(** X23.  Installing a theme a second time changes nothing: on the
    document that an install left, the same install succeeds and returns
    that document. *)
Theorem updateSettings_idempotent (themeName : jsstring) (colors : ThemeColors)
    (settings settings' : value) :
  plainSettings settings ->
  updateSettings themeName (windowsScheme themeName colors) settings = Ok settings' ->
  updateSettings themeName (windowsScheme themeName colors) settings' = Ok settings'.
Proof.
  intros P U. pose proof P as ([ms ->] & _).
  pose proof (windowsScheme_name themeName colors) as Sn.
  set (scheme := windowsScheme themeName colors) in *.
  assert (F : exists kept,
             filterItems (keepScheme themeName) (schemesOf (VObj ms)) = Ok kept).
  { unfold updateSettings in U. cbn [mbind Outcome_bind] in U.
    destruct (replaceScheme themeName scheme (VObj ms)) as [s1|e] eqn:R; [|discriminate].
    exact (replaceScheme_filter _ _ _ _ R). }
  destruct F as [kept F]. pose proof (filterItems_keepScheme _ _ _ F) as K.
  apply filterItems_again in F.
  rewrite (updateSettings_form _ _ _ _ P U). unfold updatedSettings.
  rewrite <- K.
  set (pm := membersOf (lookupMember (lit "profiles") ms)).
  set (dm := membersOf (lookupMember (lit "defaults") pm)).
  set (D := VObj (storeMember (lit "colorScheme") (VStr themeName) dm)).
  set (Pr := VObj (storeMember (lit "defaults") D pm)).
  set (Sc := VArr (kept ++ [scheme]) []).
  assert (E1 : storeMember (lit "schemes") Sc
                 (storeMember (lit "profiles") Pr (storeMember (lit "schemes") Sc ms))
               = storeMember (lit "profiles") Pr (storeMember (lit "schemes") Sc ms)).
  { apply store_idem.
    - apply store_keeps_keys, store_adds_key.
    - rewrite lookup_store_other by discriminate. apply lookup_store_same. }
  assert (F' : filterItems (keepScheme themeName) (kept ++ [scheme]) = Ok kept).
  { rewrite filterItems_app, F. cbn [mbind Outcome_bind filterItems].
    rewrite (keepScheme_own _ _ Sn). cbn [mbind mret Outcome_bind Outcome_ret].
    rewrite app_nil_r. reflexivity. }
  subst Sc Pr D.
  unfold updateSettings, replaceScheme. fold (keepScheme themeName).
  settle. rewrite F'. settle. rewrite E1.
  unfold applyToDefaults. settle. reflexivity.
Qed.

Lemma updateSettings_idempotent_witness :
  exists settings',
    updateSettings (lit "Mocha") (windowsScheme (lit "Mocha") Example.mocha) Settings.custom
    = Ok settings'
    /\ updateSettings (lit "Mocha") (windowsScheme (lit "Mocha") Example.mocha) settings'
       = Ok settings'
    /\ schemeNames settings' = [VStr (lit "Campbell"); VStr (lit "Mocha")].
Proof.
  eassert (U : updateSettings (lit "Mocha") (windowsScheme (lit "Mocha") Example.mocha)
                 Settings.custom = Ok _) by (vm_compute; reflexivity).
  assert (P : plainSettings Settings.custom)
    by (split; [eexists; reflexivity|split; reflexivity]).
  eexists. split; [exact U|]. split.
  - exact (updateSettings_idempotent _ _ _ _ P U).
  - vm_compute. reflexivity.
Defined.

Lemma keepScheme_notNullish themeName s :
  notNullish s = true -> keepScheme themeName s = Ok (otherName themeName s).
Proof. destruct s; try discriminate; reflexivity. Qed.

Lemma filterItems_notNullish themeName items :
  forallb notNullish items = true ->
  filterItems (keepScheme themeName) items = Ok (List.filter (otherName themeName) items).
Proof.
  induction items as [|s items IH]; [reflexivity|]. simpl. intros A.
  apply andb_prop in A. destruct A as [A1 A2].
  rewrite (keepScheme_notNullish _ _ A1), (IH A2). simpl.
  destruct (otherName themeName s); reflexivity.
Qed.

Lemma filterItems_nullish themeName items :
  forallb notNullish items = false ->
  filterItems (keepScheme themeName) items
  = typeError "Cannot read properties of undefined or null".
Proof.
  induction items as [|s items IH]; [discriminate|]. simpl. intros A.
  destruct (notNullish s) eqn:N.
  - rewrite (keepScheme_notNullish _ _ N), (IH A). reflexivity.
  - destruct s; try discriminate; reflexivity.
Qed.

Lemma falsy_no_items v :
  truthyValue v = false ->
  match v with VArr items _ => items | _ => [] end = [] /\ membersOf v = [].
Proof. destruct v; try discriminate; split; reflexivity. Qed.

(** X24.  On a settings object that is well formed the update succeeds,
    and the document it returns is the old one with the scheme list
    replaced (the schemes of another name in their order, then the new
    scheme) and [profiles.defaults.colorScheme] set. *)
Theorem updateSettings_succeeds (themeName : jsstring) (scheme : value)
    (ms : list (jsstring * value)) :
  wellFormedSettings ms ->
  updateSettings themeName scheme (VObj ms) = Ok (updatedSettings themeName scheme ms).
Proof.
  intros [S P].
  assert (R : replaceScheme themeName scheme (VObj ms)
              = Ok (VObj (storeMember (lit "schemes")
                            (VArr (List.filter (otherName themeName) (schemesOf (VObj ms))
                                   ++ [scheme]) []) ms))).
  { unfold replaceScheme, schemesOf, writtenMember. fold (keepScheme themeName).
    cbn [getMember mbind Outcome_bind].
    destruct S as [S|(items & named & S & N)].
    - rewrite S. destruct (falsy_no_items _ S) as [-> _]. settle. reflexivity.
    - rewrite S. settle. rewrite S. settle.
      rewrite (filterItems_notNullish _ _ N). settle. reflexivity. }
  unfold updateSettings. rewrite R. cbn [mbind Outcome_bind].
  unfold applyToDefaults, updatedSettings. cbn [getMember mbind Outcome_bind].
  rewrite !lookup_store_other by discriminate.
  destruct P as [P|(pm & P & D)].
  - rewrite P. destruct (falsy_no_items _ P) as [_ ->]. settle. reflexivity.
  - rewrite P. settle. rewrite P. settle.
    destruct D as [D|(dm & D)].
    + rewrite D. destruct (falsy_no_items _ D) as [_ ->].
      settle; rewrite ?P; settle. reflexivity.
    + rewrite D. settle; rewrite ?P; settle; rewrite ?D; settle. reflexivity.
Qed.

Lemma updateSettings_succeeds_witness :
  updateSettings (lit "Mocha") (windowsScheme (lit "Mocha") Example.mocha) (VObj [])
  = Ok (VObj [ (lit "schemes", VArr [windowsScheme (lit "Mocha") Example.mocha] []);
               (lit "profiles",
                VObj [ (lit "defaults",
                        VObj [ (lit "colorScheme", VStr (lit "Mocha")) ]) ]) ]).
Proof.
  rewrite (updateSettings_succeeds (lit "Mocha") (windowsScheme (lit "Mocha") Example.mocha) []).
  - reflexivity.
  - split; left; reflexivity.
Defined.

(** X25.  What the update rejects with a [TypeError]: a document that is
    [null], a document that is a boolean, a number or a string, a [schemes]
    member that is truthy and no array, a [schemes] array that holds [null].
    The installer reports each as an update failure and keeps the file. *)
Theorem updateSettings_type_errors (themeName : jsstring) (scheme : value) :
  updateSettings themeName scheme VNull
  = typeError "Cannot read properties of undefined or null"
  /\ (forall settings,
        isPrimitive settings = true ->
        updateSettings themeName scheme settings
        = typeError "Cannot create property on a primitive value")
  /\ (forall ms,
        truthyValue (lookupMember (lit "schemes") ms) = true ->
        isArray (lookupMember (lit "schemes") ms) = false ->
        updateSettings themeName scheme (VObj ms) = typeError "filter is not a function")
  /\ (forall ms items named,
        lookupMember (lit "schemes") ms = VArr items named ->
        forallb notNullish items = false ->
        updateSettings themeName scheme (VObj ms)
        = typeError "Cannot read properties of undefined or null").
Proof.
  split; [reflexivity|]. split; [|split].
  - intros settings Pr. destruct settings; try discriminate; reflexivity.
  - intros ms T A. unfold updateSettings, replaceScheme.
    cbn [getMember mbind Outcome_bind]. rewrite T.
    cbn [getMember mbind Outcome_bind].
    destruct (lookupMember (lit "schemes") ms); try discriminate; reflexivity.
  - intros ms items named S N. unfold updateSettings, replaceScheme.
    fold (keepScheme themeName).
    cbn [getMember mbind Outcome_bind]. rewrite S. settle. rewrite S. settle.
    rewrite (filterItems_nullish _ _ N). reflexivity.
Qed.

Lemma updateSettings_type_errors_witness :
  updateSettings (lit "Mocha") (VObj []) (VObj [ (lit "schemes", VObj []) ])
  = typeError "filter is not a function"
  /\ updateSettings (lit "Mocha") (VObj []) (VObj [ (lit "schemes", VArr [VNull] []) ])
     = typeError "Cannot read properties of undefined or null".
Proof.
  destruct (updateSettings_type_errors (lit "Mocha") (VObj [])) as (_ & _ & T3 & T4).
  split.
  - apply T3; reflexivity.
  - apply (T4 _ [VNull] []); reflexivity.
Defined.

(** ** Effects and failures of the Alacritty and Kitty installers *)

Section ConfigEffects.
Context `{Runtime}.

Ltac fs :=
  unfold ret, mbind, IO_bind, mret, IO_ret, tryCatch, existsSync, readFileSync,
    writeFileSync;
  cbn [fs_fault files dirs setDirs setFiles fst snd].

Ltac fs_more := cbn [orb fs_fault files dirs setDirs setFiles fst snd].

(** Nothing is at a path that differs from the directory just made. *)
Lemma absent_after_ensureDir (w : World) (d : gset (list N)) dir p :
  (forall q, q ∈ d -> q ∈ dirs w \/ q = dir) ->
  p ∉ dirs w -> dir <> p -> bool_decide (p ∈ d) = false.
Proof.
  intros Dd A NE. apply bool_decide_eq_false_2.
  intros Q. destruct (Dd _ Q) as [Q'|Q']; [exact (A Q')|exact (NE (eq_sym Q'))].
Qed.

(** What a write that failed has left, in both cases of [write_left]. *)
Ltac torn :=
  eexists; split; [reflexivity|];
  match goal with |- context [write_left ?w ?p] => destruct (write_left w p) end;
  cbn [files setFiles setDirs]; repeat split;
  first [ intros q Q; apply lookup_insert_ne; congruence
        | right; eexists; apply lookup_insert_eq
        | left; reflexivity
        | rewrite lookup_insert_ne by congruence; apply lookup_insert_eq
        | apply lookup_insert_eq ].

(** X26.  When the configuration file of Alacritty cannot be read or
    cannot be written, the installer returns a failure with the path of the
    file and the error.  After a read that failed the files are what they
    were.  After a write that failed no other file is changed, and the
    configuration file is as it was or holds what the write left there. *)
Theorem alacritty_read_or_write_failure (themeId : jsstring) (w : World)
    (colors : ThemeColors) (e : jsstring) :
  getThemeColors themeId w = Some colors ->
  let configPath := alacrittyConfigPath w in
  let themeName := getThemeName themeId w in
  let failure := failed configPath (lit "Failed to update Alacritty config: " ++ e) in
  dirAvailable w (path_dirname configPath) ->
  path_dirname configPath <> configPath ->
  (is_Some (files w !! configPath) -> fs_fault w OpRead configPath = Some e ->
   exists w', installToAlacritty themeId w = (Ok failure, w') /\ files w' = files w)
  /\ (forall existing, fileState w configPath existing ->
        fs_fault w OpWrite configPath = Some e ->
        exists w',
          installToAlacritty themeId w = (Ok failure, w')
          /\ afterFailedWrite configPath (files w) (files w')).
Proof.
  intros G configPath themeName failure D NE.
  destruct (ensureDir_ok w _ D) as (d & E & Dd).
  split.
  - intros F Rd. unfold installToAlacritty. enter G. rewrite gets_bind. cbv beta.
    fold configPath. rewrite (bind_ok _ _ _ _ _ E). fs.
    rewrite bool_decide_eq_true_2 by exact F. fs_more. rewrite Rd.
    eexists. split; reflexivity.
  - intros existing F Wr. unfold installToAlacritty. enter G. rewrite gets_bind. cbv beta.
    fold configPath. fold themeName. rewrite (bind_ok _ _ _ _ _ E). fs.
    destruct existing as [c|]; destruct F as [F1 F2].
    + rewrite F1. rewrite bool_decide_eq_true_2 by (eexists; reflexivity). fs_more.
      rewrite F2, F1. fs_more. rewrite Wr. torn.
    + rewrite F1. rewrite bool_decide_eq_false_2 by (intros [? ?]; discriminate).
      rewrite (absent_after_ensureDir w d _ configPath Dd F2 NE). fs_more.
      rewrite Wr. torn.
Qed.


(** [kitty.conf] as the installer finds it: its text, or the empty text
    when the file is not there. *)
Lemma kitty_reads_conf themeId w colors existing :
  getThemeColors themeId w = Some colors ->
  let configDir := kittyConfigDir w in
  let themePath := path_join [configDir; lit "current-theme.conf"] in
  let configPath := path_join [configDir; lit "kitty.conf"] in
  let themeName := getThemeName themeId w in
  let kittyConf := match existing with Some c => c | None => [] end in
  dirAvailable w configDir ->
  configDir <> configPath ->
  themePath <> configPath ->
  fileState w configPath existing ->
  fs_fault w OpWrite themePath = None ->
  (includes includeStatement kittyConf = false -> fs_fault w OpWrite configPath = None) ->
  exists d,
    installToKitty themeId w
    = (Ok (succeeded themePath
             (lit "Theme " ++ quoted themeName
              ++ lit " applied to Kitty! Press Ctrl+Shift+F5 to reload or restart Kitty.")),
       if includes includeStatement kittyConf
       then setFiles (<[ themePath := kittyTheme themeName colors ]> (files w)) (setDirs d w)
       else setFiles (<[ configPath := includeStatement ++ nl ++ kittyConf ]>
                        (<[ themePath := kittyTheme themeName colors ]> (files w)))
                     (setDirs d w))
    /\ (d = dirs w \/ d = {[ configDir ]} ∪ dirs w).
Proof.
  intros G configDir themePath configPath themeName kittyConf D NE NT F Wt Wc.
  assert (E : exists d, ensureDir configDir w = (Ok tt, setDirs d w)
                        /\ (d = dirs w \/ d = {[ configDir ]} ∪ dirs w)).
  { destruct (present w configDir) eqn:P.
    - exists (dirs w). split; [|auto]. rewrite (ensureDir_present _ _ P).
      destruct w; reflexivity.
    - destruct D as [D|D]; [unfold present in P; congruence|].
      eexists. split; [apply (ensureDir_made _ _ P D)|auto]. }
  destruct E as (d & E & Dd). exists d. split; [|exact Dd].
  assert (Dd' : forall q, q ∈ d -> q ∈ dirs w \/ q = configDir).
  { intros q Q. destruct Dd as [->| ->]; [auto|].
    apply elem_of_union in Q. destruct Q as [Q|Q]; [|auto].
    apply elem_of_singleton in Q. auto. }
  unfold installToKitty. enter G. rewrite gets_bind. cbv beta.
  fold configDir. fold themePath. fold configPath. fold themeName.
  rewrite (bind_ok _ _ _ _ _ E). fs. rewrite Wt. fs_more.
  rewrite lookup_insert_ne by exact NT.
  fold includeStatement.
  destruct existing as [c|]; destruct F as [F1 F2].
  - rewrite F1. rewrite bool_decide_eq_true_2 by (eexists; reflexivity). fs_more.
    rewrite F2. rewrite lookup_insert_ne by exact NT. rewrite F1. fs_more.
    subst kittyConf. destruct (includes includeStatement c) eqn:I; fs_more; [reflexivity|].
    cbv beta. fs_more. rewrite (Wc eq_refl). reflexivity.
  - rewrite F1. rewrite bool_decide_eq_false_2 by (intros [? ?]; discriminate).
    rewrite (absent_after_ensureDir w d _ configPath Dd' F2 NE). fs_more.
    subst kittyConf. change (includes includeStatement []) with false in *. cbv iota.
    cbv beta. fs_more. rewrite (Wc eq_refl). reflexivity.
Qed.


Lemma includes_prefix p x : includes p (p ++ x) = true.
Proof.
  pose proof (startsWith_app p x) as S. destruct (p ++ x) as [|c t].
  - change (includes p []) with (startsWith p [] || false). rewrite S. reflexivity.
  - rewrite includes_cons, S. reflexivity.
Qed.

Lemma withInclude_includes kittyConf : includes includeStatement (withInclude kittyConf) = true.
Proof.
  unfold withInclude. destruct (includes includeStatement kittyConf) eqn:I; [exact I|].
  apply includes_prefix.
Qed.

(** X27.  When nothing fails, [installToKitty] writes the colours of the
    theme to [current-theme.conf], leaves [kitty.conf] with the include line
    in front unless its text held the line already, and changes no other
    file. *)
Theorem kitty_install_effects (themeId : jsstring) (w : World) (colors : ThemeColors)
    (existing : option jsstring) :
  getThemeColors themeId w = Some colors ->
  let configDir := kittyConfigDir w in
  let themePath := path_join [configDir; lit "current-theme.conf"] in
  let configPath := path_join [configDir; lit "kitty.conf"] in
  let themeName := getThemeName themeId w in
  let kittyConf := match existing with Some c => c | None => [] end in
  dirAvailable w configDir ->
  configDir <> configPath ->
  themePath <> configPath ->
  fileState w configPath existing ->
  fs_fault w OpWrite themePath = None ->
  fs_fault w OpWrite configPath = None ->
  exists r w',
    installToKitty themeId w = (Ok r, w')
    /\ success r = true /\ path r = themePath
    /\ files w' !! themePath = Some (kittyTheme themeName colors)
    /\ files w' !! configPath = Some (withInclude kittyConf)
    /\ (forall q, q <> themePath -> q <> configPath -> files w' !! q = files w !! q).
Proof.
  intros G configDir themePath configPath themeName kittyConf D NE NT F Wt Wc.
  destruct (kitty_reads_conf themeId w colors existing G D NE NT F Wt (fun _ => Wc))
    as (d & E & _).
  fold configDir themePath configPath themeName kittyConf in E.
  eexists. eexists. split; [exact E|]. split; [reflexivity|]. split; [reflexivity|].
  unfold withInclude. destruct (includes includeStatement kittyConf) eqn:I;
    cbn [files setFiles].
  - split; [apply lookup_insert_eq|]. split.
    + rewrite lookup_insert_ne by exact NT.
      subst kittyConf. destruct existing as [c|]; [apply F|discriminate I].
    + intros q Q1 Q2. apply lookup_insert_ne. congruence.
  - split; [rewrite lookup_insert_ne by congruence; apply lookup_insert_eq|].
    split; [apply lookup_insert_eq|].
    intros q Q1 Q2. rewrite !lookup_insert_ne by congruence. reflexivity.
Qed.

(** X28.  The include line goes in once: after one install [kitty.conf]
    holds it, and a second install, of the same theme or of another,
    leaves [kitty.conf] as the first one left it and replaces the theme file
    only. *)
Theorem kitty_include_added_once (themeId1 themeId2 : jsstring) (w : World)
    (colors1 colors2 : ThemeColors) :
  getThemeColors themeId1 w = Some colors1 ->
  getThemeColors themeId2 w = Some colors2 ->
  let configDir := kittyConfigDir w in
  let themePath := path_join [configDir; lit "current-theme.conf"] in
  let configPath := path_join [configDir; lit "kitty.conf"] in
  (forall op p, fs_fault w op p = None) ->
  configDir <> configPath ->
  themePath <> configPath ->
  configPath ∉ dirs w ->
  exists r1 w1 r2 w2 kittyConf,
    installToKitty themeId1 w = (Ok r1, w1)
    /\ installToKitty themeId2 w1 = (Ok r2, w2)
    /\ success r1 = true /\ success r2 = true
    /\ files w1 !! configPath = Some kittyConf
    /\ includes includeStatement kittyConf = true
    /\ files w2 !! configPath = Some kittyConf
    /\ files w2 !! themePath = Some (kittyTheme (getThemeName themeId2 w) colors2).
Proof.
  intros G1 G2 configDir themePath configPath NF NE NT ND.
  assert (F : fileState w configPath (files w !! configPath)).
  { destruct (files w !! configPath) eqn:L; split; auto. }
  destruct (kitty_reads_conf themeId1 w colors1 _ G1 (or_intror (NF _ _)) NE NT F
              (NF _ _) (fun _ => NF _ _)) as (d & E1 & _).
  fold configDir themePath configPath in E1.
  set (conf0 := match files w !! configPath with Some c => c | None => [] end) in *.
  set (theme1 := kittyTheme (getThemeName themeId1 w) colors1) in *.
  set (w1 := if includes includeStatement conf0
             then setFiles (<[ themePath := theme1 ]> (files w)) (setDirs d w)
             else setFiles (<[ configPath := includeStatement ++ nl ++ conf0 ]>
                              (<[ themePath := theme1 ]> (files w))) (setDirs d w)) in *.
  assert (S1 : theme_colors w1 = theme_colors w /\ themes w1 = themes w
               /\ kittyConfigDir w1 = configDir /\ fs_fault w1 = fs_fault w).
  { unfold w1. destruct (includes includeStatement conf0); repeat split; reflexivity. }
  destruct S1 as (S1 & S2 & S3 & S4).
  assert (C1 : files w1 !! configPath = Some (withInclude conf0)).
  { unfold w1, withInclude. destruct (includes includeStatement conf0) eqn:I;
      cbn [files setFiles].
    - rewrite lookup_insert_ne by exact NT. unfold conf0 in *.
      destruct (files w !! configPath); [reflexivity|discriminate I].
    - apply lookup_insert_eq. }
  assert (G2' : getThemeColors themeId2 w1 = Some colors2).
  { unfold getThemeColors, colorRows in *. rewrite S1. exact G2. }
  assert (N2 : getThemeName themeId2 w1 = getThemeName themeId2 w).
  { unfold getThemeName. rewrite S2. reflexivity. }
  assert (F' : fileState w1 (path_join [kittyConfigDir w1; lit "kitty.conf"])
                 (Some (withInclude conf0))).
  { rewrite S3. split; [exact C1|]. rewrite S4. apply NF. }
  destruct (kitty_reads_conf themeId2 w1 colors2 (Some (withInclude conf0)) G2')
    with (4 := F') as (d2 & E2 & _).
  { right. rewrite S4. apply NF. }
  { rewrite S3. exact NE. }
  { rewrite S3. exact NT. }
  { rewrite S4. apply NF. }
  { intros _. rewrite S4. apply NF. }
  rewrite S3, N2, withInclude_includes in E2. fold themePath configPath in E2.
  eexists. eexists. eexists. eexists. exists (withInclude conf0).
  split; [exact E1|]. split; [exact E2|]. split; [reflexivity|]. split; [reflexivity|].
  split; [exact C1|]. split; [apply withInclude_includes|].
  cbn [files setFiles]. split.
  - rewrite lookup_insert_ne by exact NT. exact C1.
  - apply lookup_insert_eq.
Qed.

(** X29.  How [installToKitty] fails, each time with the path of the
    theme file and the error.  When the theme file cannot be written, no
    other file is changed and the theme file is as it was or holds what the
    write left there.  When the theme file was written and [kitty.conf]
    cannot be read, or cannot be written while it lacks the include line,
    [current-theme.conf] holds the new colours all the same; in the second
    case [kitty.conf] is as it was or holds what the write left there. *)
Theorem kitty_failure_after_theme_written (themeId : jsstring) (w : World)
    (colors : ThemeColors) (e : jsstring) :
  getThemeColors themeId w = Some colors ->
  let configDir := kittyConfigDir w in
  let themePath := path_join [configDir; lit "current-theme.conf"] in
  let configPath := path_join [configDir; lit "kitty.conf"] in
  let themeName := getThemeName themeId w in
  let failure := failed themePath (lit "Failed to update Kitty config: " ++ e) in
  dirAvailable w configDir ->
  configDir <> configPath ->
  themePath <> configPath ->
  (fs_fault w OpWrite themePath = Some e ->
   exists w',
     installToKitty themeId w = (Ok failure, w')
     /\ afterFailedWrite themePath (files w) (files w'))
  /\ (fs_fault w OpWrite themePath = None ->
      is_Some (files w !! configPath) -> fs_fault w OpRead configPath = Some e ->
      exists w',
        installToKitty themeId w = (Ok failure, w')
        /\ files w' = <[ themePath := kittyTheme themeName colors ]> (files w))
  /\ (forall existing,
        let kittyConf := match existing with Some c => c | None => [] end in
        fs_fault w OpWrite themePath = None ->
        fileState w configPath existing ->
        includes includeStatement kittyConf = false ->
        fs_fault w OpWrite configPath = Some e ->
        exists w',
          installToKitty themeId w = (Ok failure, w')
          /\ files w' !! themePath = Some (kittyTheme themeName colors)
          /\ afterFailedWrite configPath
               (<[ themePath := kittyTheme themeName colors ]> (files w)) (files w')).
Proof.
  intros G configDir themePath configPath themeName failure D NE NT.
  destruct (ensureDir_ok w _ D) as (d & E & Dd).
  split; [|split].
  - intros Wt. unfold installToKitty. enter G. rewrite gets_bind. cbv beta.
    fold configDir. fold themePath. fold configPath. fold themeName.
    rewrite (bind_ok _ _ _ _ _ E). fs. rewrite Wt. torn.
  - intros Wt F Rd. unfold installToKitty. enter G. rewrite gets_bind. cbv beta.
    fold configDir. fold themePath. fold configPath. fold themeName.
    rewrite (bind_ok _ _ _ _ _ E). fs. rewrite Wt. fs_more.
    rewrite lookup_insert_ne by exact NT.
    rewrite bool_decide_eq_true_2 by exact F. fs_more. rewrite Rd.
    eexists. split; reflexivity.
  - intros existing kittyConf Wt F I Wc. subst kittyConf.
    unfold installToKitty. enter G. rewrite gets_bind. cbv beta.
    fold configDir. fold themePath. fold configPath. fold themeName.
    rewrite (bind_ok _ _ _ _ _ E). fs. rewrite Wt. fs_more.
    rewrite lookup_insert_ne by exact NT. fold includeStatement.
    destruct existing as [c|]; destruct F as [F1 F2].
    + rewrite F1. rewrite bool_decide_eq_true_2 by (eexists; reflexivity). fs_more.
      rewrite F2. rewrite lookup_insert_ne by exact NT. rewrite F1. fs_more.
      rewrite I. cbv beta. fs_more. rewrite Wc. torn.
    + rewrite F1. rewrite bool_decide_eq_false_2 by (intros [? ?]; discriminate).
      rewrite (absent_after_ensureDir w d _ configPath Dd F2 NE). fs_more.
      rewrite I. cbv beta. fs_more. rewrite Wc. torn.
Qed.

End ConfigEffects.

Lemma alacritty_read_or_write_failure_witness :
  exists w',
    @installToAlacritty Example.host (lit "t1") Cases.locked
    = (Ok (failed (lit "/home/u/.config/alacritty/alacritty.toml")
             (lit "Failed to update Alacritty config: Error: EACCES: permission denied")), w')
    /\ files w' !! lit "/home/u/.config/kitty/kitty.conf" = Some (lit "font_size 12").
Proof.
  eassert (G : getThemeColors (lit "t1") Cases.locked = Some _) by (vm_compute; reflexivity).
  pose proof (@alacritty_read_or_write_failure Example.host _ _ _
                (lit "Error: EACCES: permission denied") G) as T.
  cbv zeta in T. destruct T as [_ T].
  - right. reflexivity.
  - vm_compute. discriminate.
  - destruct (T None) as (w' & E & [A _]).
    + split; [reflexivity|apply not_elem_of_empty].
    + reflexivity.
    + exists w'. split; [exact E|].
      rewrite A by (vm_compute; discriminate). reflexivity.
Defined.

Lemma kitty_install_effects_witness :
  exists r w',
    @installToKitty Example.host (lit "t1") Example.world = (Ok r, w')
    /\ success r = true
    /\ files w' !! lit "/home/u/.config/kitty/kitty.conf"
       = Some (lit "include current-theme.conf" ++ nl).
Proof.
  eassert (G : getThemeColors (lit "t1") Example.world = Some _) by (vm_compute; reflexivity).
  destruct (@kitty_install_effects Example.host _ _ _ None G)
    as (r & w' & E & S & _ & _ & C & _).
  - right. reflexivity.
  - vm_compute. discriminate.
  - vm_compute. discriminate.
  - split; [reflexivity|apply not_elem_of_empty].
  - reflexivity.
  - reflexivity.
  - exists r, w'. split; [exact E|]. split; [exact S|exact C].
Defined.

Lemma kitty_include_added_once_witness :
  exists r1 w1 r2 w2,
    @installToKitty Example.host (lit "t1") Example.world = (Ok r1, w1)
    /\ @installToKitty Example.host (lit "t1") w1 = (Ok r2, w2)
    /\ files w2 !! lit "/home/u/.config/kitty/kitty.conf"
       = files w1 !! lit "/home/u/.config/kitty/kitty.conf".
Proof.
  eassert (G : getThemeColors (lit "t1") Example.world = Some _) by (vm_compute; reflexivity).
  destruct (@kitty_include_added_once Example.host _ _ _ _ _ G G)
    as (r1 & w1 & r2 & w2 & conf & E1 & E2 & _ & _ & C1 & _ & C2 & _).
  - reflexivity.
  - vm_compute. discriminate.
  - vm_compute. discriminate.
  - apply not_elem_of_empty.
  - exists r1, w1, r2, w2. split; [exact E1|]. split; [exact E2|].
    etransitivity; [exact C2|symmetry; exact C1].
Defined.

Lemma kitty_failure_after_theme_written_witness :
  exists w',
    @installToKitty Example.host (lit "t1") Cases.locked
    = (Ok (failed (lit "/home/u/.config/kitty/current-theme.conf")
             (lit "Failed to update Kitty config: Error: EACCES: permission denied")), w')
    /\ is_Some (files w' !! lit "/home/u/.config/kitty/current-theme.conf").
Proof.
  eassert (G : getThemeColors (lit "t1") Cases.locked = Some _) by (vm_compute; reflexivity).
  pose proof (@kitty_failure_after_theme_written Example.host _ _ _
                (lit "Error: EACCES: permission denied") G) as T.
  cbv zeta in T. destruct T as (_ & _ & T).
  - right. reflexivity.
  - vm_compute. discriminate.
  - vm_compute. discriminate.
  - destruct (T (Some (lit "font_size 12"))) as (w' & E & F & _).
    + reflexivity.
    + split; reflexivity.
    + reflexivity.
    + reflexivity.
    + exists w'. split; [exact E|]. eexists. exact F.
Defined.

(** ** The command line of [osascript] *)

Lemma apostrophe_other c s : isChar "'" c = false -> apostrophe (c :: s) = None.
Proof. intros A. unfold apostrophe. rewrite A. reflexivity. Qed.

Lemma shellWord_quoted script :
  shellWord SingleQuoted (replaceAll apostrophe script ++ lit "'") = Some script.
Proof.
  induction script as [|c script IH]; [reflexivity|].
  destruct (isChar "'" c) eqn:A.
  - rewrite (replaceAll_hit apostrophe c script 1 [chr "'"; DQUOTE; chr "'"; DQUOTE; chr "'"])
      by (unfold apostrophe; rewrite A; reflexivity).
    apply N.eqb_eq in A. subst c.
    change (Some (chr "'" :: script)) with (cons (chr "'") <$> Some script).
    rewrite <- IH. reflexivity.
  - rewrite replaceAll_miss by (apply apostrophe_other, A).
    change (Some (c :: script)) with (cons c <$> Some script).
    rewrite <- IH. simpl app. cbn [shellWord]. rewrite A. reflexivity.
Qed.

(** X30.  The quoting of the [osascript] command line is sound for every
    script: the command is [osascript -e] and one word, and a POSIX shell
    reads that word as the script itself, apostrophes, double quotes and
    line breaks included.  Nothing in a theme name can end the word or start
    another command. *)
Theorem osascript_word_is_the_script (script : jsstring) :
  exists word,
    osascript script = lit "osascript -e " ++ word
    /\ shellWord Unquoted word = Some script.
Proof.
  exists (lit "'" ++ replaceAll apostrophe script ++ lit "'").
  split; [reflexivity|]. apply shellWord_quoted.
Qed.

(** ** The escaped theme name *)

Lemma escapeName_cons c s : escapeName (c :: s) = escapedUnit c ++ escapeName s.
Proof.
  unfold escapeName, escapedUnit. destruct (c =? DQUOTE)%N eqn:Q.
  - rewrite (replaceAll_hit doubleQuote c s 1 [chr "\"; DQUOTE])
      by (unfold doubleQuote; rewrite Q; reflexivity).
    reflexivity.
  - rewrite replaceAll_miss by (unfold doubleQuote; rewrite Q; reflexivity). reflexivity.
Qed.

Lemma escapeName_guarded s afterBackslash :
  quotesGuarded afterBackslash (escapeName s) = true.
Proof.
  revert afterBackslash. induction s as [|c s IH]; intros b; [reflexivity|].
  rewrite escapeName_cons. unfold escapedUnit. destruct (c =? DQUOTE)%N eqn:Q.
  - change (quotesGuarded b ([chr "\"; DQUOTE] ++ escapeName s))
      with ((true || b) && (true && quotesGuarded false (escapeName s))).
    rewrite IH. reflexivity.
  - change (quotesGuarded b ([c] ++ escapeName s))
      with ((negb (c =? DQUOTE)%N || b) && quotesGuarded (isChar "\" c) (escapeName s)).
    rewrite Q, IH. reflexivity.
Qed.

(** X18.  [escapeName] works code unit by code unit: a double quote
    becomes a backslash and the quote, every other code unit, a backslash
    too, is copied.  So every double quote of the escaped name stands right
    after a backslash, and a name without double quote is not changed. *)
Theorem escapeName_per_code_unit (themeName : jsstring) :
  escapeName themeName = flat_map escapedUnit themeName
  /\ quotesGuarded false (escapeName themeName) = true
  /\ (forallb (fun c => negb (c =? DQUOTE)%N) themeName = true ->
      escapeName themeName = themeName).
Proof.
  split; [|split].
  - induction themeName as [|c s IH]; [reflexivity|].
    rewrite escapeName_cons, IH. reflexivity.
  - apply escapeName_guarded.
  - induction themeName as [|c s IH]; [reflexivity|]. simpl. intros A.
    apply andb_prop in A. destruct A as [A1 A2]. apply negb_true_iff in A1.
    rewrite escapeName_cons, (IH A2). unfold escapedUnit. rewrite A1. reflexivity.
Qed.
